(** * Campaign generation core: cache, integrity watchdog, monitoring,
      generator client and orchestrator

    A shallow embedding of
      - [src/domain/services/content_integrity_watchdog.py]
      - [src/services/cache_service.py]      (class [ContentCacheService])
      - [src/services/watchdog_service.py]   (class [WatchdogService])
      - [src/services/ai_service.py]         (class [ClaudeAIService])
      - [src/services/campaign_generation_service.py]
    Python strings are modelled as Rocq strings whose characters are the
    code points 0..255; exceptions are values of [exn]; functions that can
    raise return a [result]. *)

From Stdlib Require Import ZArith String Ascii List Bool Lia.
From Stdlib Require Import DecimalString PrimFloat Uint63.
From stdpp Require Import gmap strings list.

Set Warnings "-register-all,-inexact-float".
Local Open Scope string_scope.
Local Open Scope nat_scope.

(** ** Python values, exceptions and results *)

Module Py.

(** The JSON-like fragment of Python values that flows through the
    cache and the validators. A dict is an association list with string
    keys, looked up from the left. *)
Inductive pyval : Type :=
| PNone : pyval
| PBool : bool -> pyval
| PInt : Z -> pyval
| PFloat : float -> pyval
| PStr : string -> pyval
| PList : list pyval -> pyval
| PDict : list (string * pyval) -> pyval.

(** [bool(v)] *)
Definition truthy (v : pyval) : bool :=
  match v with
  | PNone => false
  | PBool b => b
  | PInt z => negb (z =? 0)%Z
  | PFloat f => negb (f =? 0)%float
  | PStr s => negb (String.eqb s "")
  | PList l => match l with [] => false | _ => true end
  | PDict d => match d with [] => false | _ => true end
  end.

(** [isinstance(v, str)] and [isinstance(v, dict)] *)
Definition is_str (v : pyval) : bool :=
  match v with PStr _ => true | _ => false end.
Definition is_dict (v : pyval) : bool :=
  match v with PDict _ => true | _ => false end.
Definition is_list (v : pyval) : bool :=
  match v with PList _ => true | _ => false end.

(** [d.get(k)] on the association list of a dict. *)
Fixpoint assoc {A : Type} (k : string) (d : list (string * A)) : option A :=
  match d with
  | [] => None
  | (k', v) :: d' => if String.eqb k k' then Some v else assoc k d'
  end.

(** [d.get(k, default)] *)
Definition get_default {A : Type} (k : string) (d : list (string * A)) (dflt : A) : A :=
  match assoc k d with Some v => v | None => dflt end.

(** [k in d] *)
Definition has_key {A : Type} (k : string) (d : list (string * A)) : bool :=
  match assoc k d with Some _ => true | None => false end.

(** The exception classes of [src/domain/errors.py] that the modelled code
    raises or catches, each carrying its message. [OtherError] stands for
    any exception outside the [DomainError] hierarchy. *)
Inductive exn : Type :=
| ContentIntegrityError : string -> exn
| ContentQualityError : string -> exn
| ExternalServiceError : string -> exn
| CampaignGenerationError : string -> exn
| OtherError : string -> exn.

Definition message (e : exn) : string :=
  match e with
  | ContentIntegrityError m | ContentQualityError m | ExternalServiceError m
  | CampaignGenerationError m | OtherError m => m
  end.

(** [isinstance(e, ContentIntegrityError)]. *)
Definition is_ContentIntegrityError (e : exn) : bool :=
  match e with ContentIntegrityError _ => true | _ => false end.

(** [isinstance(e, ContentQualityError)]: [ContentIntegrityError] is a
    subclass of [ContentQualityError]. *)
Definition is_ContentQualityError (e : exn) : bool :=
  match e with
  | ContentIntegrityError _ | ContentQualityError _ => true
  | _ => false
  end.

Definition is_ExternalServiceError (e : exn) : bool :=
  match e with ExternalServiceError _ => true | _ => false end.

Inductive result (A : Type) : Type :=
| Ok : A -> result A
| Raise : exn -> result A.
Arguments Ok {A} _.
Arguments Raise {A} _.

Definition raises {A : Type} (r : result A) : bool :=
  match r with Ok _ => false | Raise _ => true end.

(** *** String methods *)

Definition code (c : ascii) : nat := nat_of_ascii c.

(** [c.isspace()] for a code point below 256. *)
Definition is_space (c : ascii) : bool :=
  let n := code c in
  ((9 <=? n) && (n <=? 13)) || ((28 <=? n) && (n <=? 32))
  || (n =? 133) || (n =? 160).

(** [c.lower()] for a code point below 256: the ASCII capitals and the
    Latin-1 capitals U+00C0..U+00DE other than the multiplication sign. *)
Definition lower_char (c : ascii) : ascii :=
  let n := code c in
  if ((65 <=? n) && (n <=? 90))
     || ((192 <=? n) && (n <=? 222) && negb (n =? 215))
  then ascii_of_nat (n + 32) else c.

Fixpoint lower (s : string) : string :=
  match s with
  | EmptyString => EmptyString
  | String c s' => String (lower_char c) (lower s')
  end.

Fixpoint lstrip (s : string) : string :=
  match s with
  | EmptyString => EmptyString
  | String c s' => if is_space c then lstrip s' else s
  end.

(** [s.rstrip()]: a whitespace character is dropped when everything after
    it has been dropped. *)
Fixpoint rstrip (s : string) : string :=
  match s with
  | EmptyString => EmptyString
  | String c s' =>
      match rstrip s' with
      | EmptyString => if is_space c then EmptyString else String c EmptyString
      | r => String c r
      end
  end.

Definition strip (s : string) : string := rstrip (lstrip s).

(** [s.startswith(p)] *)
Fixpoint startswith (p s : string) : bool :=
  match p, s with
  | EmptyString, _ => true
  | String a p', String b s' => Ascii.eqb a b && startswith p' s'
  | String _ _, EmptyString => false
  end.

(** [s.endswith(p)] *)
Definition endswith (p s : string) : bool :=
  let n := String.length s in
  let m := String.length p in
  (m <=? n) && String.eqb (String.substring (n - m) m s) p.

(** [s[:n]] *)
Definition take (n : nat) (s : string) : string := String.substring 0 n s.

(** [p in s] *)
Fixpoint contains (p s : string) : bool :=
  startswith p s ||
  match s with
  | EmptyString => false
  | String _ s' => contains p s'
  end.

(** [s.split()]: the maximal runs of non-whitespace characters. [cur] is
    the word being read, reversed. *)
Fixpoint split_go (cur : list ascii) (s : string) : list string :=
  match s with
  | EmptyString =>
      match cur with
      | [] => []
      | _ => [string_of_list_ascii (rev cur)]
      end
  | String c s' =>
      if is_space c then
        match cur with
        | [] => split_go [] s'
        | _ => string_of_list_ascii (rev cur) :: split_go [] s'
        end
      else split_go (c :: cur) s'
  end.

Definition split (s : string) : list string := split_go [] s.

(** [len(set(l))] for a list of strings. *)
Definition distinct (l : list string) : nat :=
  List.length (nodup string_dec l).

(** [str(n)] for a non-negative integer. *)
Definition str_of_nat (n : nat) : string :=
  NilEmpty.string_of_uint (Nat.to_uint n).

End Py.

Import Py.

(** ** Domain entities ([src/domain/entities.py], [value_objects.py]) *)

Module Entities.

Inductive GenerationStatus : Type :=
| GENERATING | COMPLETED | FAILED | VALIDATING.

(** [CampaignSection]: [images] holds dicts, [metadata] is a dict. *)
Record CampaignSection : Type := mkSection {
  section_id : string;
  title : string;
  content : pyval;
  images : list pyval;
  metadata : list (string * pyval)
}.

(** [PlayerPreferences]: the fields that [_create_preferences_from_params]
    sets, as enum values; the remaining fields stay [None] (and
    [specific_elements] empty) throughout. *)
Record PlayerPreferences : Type := mkPreferences {
  pref_theme : option string;
  pref_difficulty : option string;
  story_length : option string;
  freeform_input : option string
}.

(** The fields of [Campaign] that the orchestrator and the watchdog read
    or write. *)
Record Campaign : Type := mkCampaign {
  id : string;
  name : pyval;
  description : pyval;
  story_arcs : list pyval;
  key_npcs : list pyval;
  key_locations : list pyval;
  starting_level : Z;
  sections : list CampaignSection;
  cover : option string;
  status : GenerationStatus;
  quality_score : float;
  player_preferences : option PlayerPreferences
}.

Definition set_sections (c : Campaign) (l : list CampaignSection) : Campaign :=
  mkCampaign (id c) (name c) (description c) (story_arcs c) (key_npcs c)
             (key_locations c) (starting_level c) l (cover c) (status c)
             (quality_score c) (player_preferences c).

Definition add_section (c : Campaign) (s : CampaignSection) : Campaign :=
  set_sections c (List.app (sections c) [s]).

Definition set_status (c : Campaign) (st : GenerationStatus) : Campaign :=
  mkCampaign (id c) (name c) (description c) (story_arcs c) (key_npcs c)
             (key_locations c) (starting_level c) (sections c) (cover c) st
             (quality_score c) (player_preferences c).

Definition set_cover (c : Campaign) (p : string) : Campaign :=
  mkCampaign (id c) (name c) (description c) (story_arcs c) (key_npcs c)
             (key_locations c) (starting_level c) (sections c) (Some p)
             (status c) (quality_score c) (player_preferences c).

Definition set_quality_score (c : Campaign) (q : float) : Campaign :=
  mkCampaign (id c) (name c) (description c) (story_arcs c) (key_npcs c)
             (key_locations c) (starting_level c) (sections c) (cover c)
             (status c) q (player_preferences c).

(** [section.images.append(image)] *)
Definition add_image (s : CampaignSection) (image : pyval) : CampaignSection :=
  mkSection (section_id s) (title s) (content s) (List.app (images s) [image])
            (metadata s).

End Entities.

Import Entities.

(** ** [ContentIntegrityWatchdog] *)

Module Watchdog.

Record ContentIntegrityWatchdog : Type := mkWatchdog { is_active : bool }.

(** [__init__(is_active=True)] and [set_active]. *)
Definition init (active : bool) : ContentIntegrityWatchdog := mkWatchdog active.
Definition set_active (w : ContentIntegrityWatchdog) (active : bool)
  : ContentIntegrityWatchdog := mkWatchdog active.

Definition forbidden_patterns : list string :=
  [ "placeholder"; "mock"; "sample text"; "lorem ipsum"; "example";
    "would be"; "will contain"; "to be filled"; "[content]"; "content here";
    "would go here"; "to be generated"; "will be filled"; "example content";
    "template"; "dummy"; "fake"; "coming soon"; "tbd"; "todo";
    "to be determined"; "sample data"; "test content"; "demo";
    "illustration of"; "example of"; "placeholder text";
    "insert content"; "replace with"; "fill in"; "add here";
    "content goes here"; "your content"; "sample campaign";
    "generic"; "standard template"; "boilerplate" ].

Definition min_section_lengths : list (string * nat) :=
  [ ("description", 100); ("introduction", 200); ("setting", 300);
    ("background", 300); ("structure", 200); ("location", 200);
    ("npc", 150); ("encounter", 200); ("plot", 300); ("treasure", 150);
    ("appendix", 100); ("campaign_concept", 150); ("story_arc", 100);
    ("default", 100) ].

Definition forbidden_image_patterns : list string :=
  [ "placeholder"; "mock"; "example"; "sample"; "test"; "dummy";
    "generic"; "template"; "illustration of"; "example of";
    "coming soon"; "to be generated"; "placeholder image" ].

(** [self.min_section_lengths.get(section_name.lower(),
     self.min_section_lengths["default"])] *)
Definition min_length (section_name : string) : nat :=
  get_default (lower section_name) min_section_lengths
              (get_default "default" min_section_lengths 0).

(** The string carried by a value that passed [isinstance(v, str)]. *)
Definition str_value (v : pyval) : string :=
  match v with PStr s => s | _ => "" end.

(** [len(v)] as printed in the messages. *)
Definition len (v : pyval) : nat := String.length (str_value v).

Definition msg_empty (section_name : string) : string :=
  "CRITICAL: Empty or invalid content for section '" ++ section_name ++
  "'. ALL content must be real AI-generated text.".

Definition msg_forbidden (pattern section_name : string) : string :=
  "CRITICAL: Found forbidden pattern '" ++ pattern ++
  "' indicating mock content in section '" ++ section_name ++
  "'. ALL output must be real content.".

Definition msg_short (section_name : string) (n m : nat) : string :=
  "CRITICAL: Content for '" ++ section_name ++ "' is suspiciously short (" ++
  str_of_nat n ++ " chars). Minimum expected: " ++ str_of_nat m ++
  " chars. This suggests incomplete or mock content.".

Definition msg_variety (section_name : string) : string :=
  "CRITICAL: Content for '" ++ section_name ++
  "' lacks sufficient variety. This suggests template or boilerplate content.".

(** The first pattern of [patterns], in list order, whose lower-case form
    occurs in [text_lower]: the [for pattern in ...: if pattern.lower() in
    text_lower] loop. *)
Definition first_forbidden (patterns : list string) (text_lower : string)
  : option string :=
  List.find (fun pattern => contains (lower pattern) text_lower) patterns.

Definition validate_text_content (w : ContentIntegrityWatchdog)
    (section_name : string) (content : pyval) : result bool :=
  if negb (is_active w) then Ok true
  else if negb (truthy content) || negb (is_str content) then
    Raise (ContentIntegrityError (msg_empty section_name))
  else
    let text := str_value content in
    let content_lower := lower text in
    match first_forbidden forbidden_patterns content_lower with
    | Some pattern =>
        Raise (ContentIntegrityError (msg_forbidden pattern section_name))
    | None =>
        let min_len := min_length section_name in
        if String.length (strip text) <? min_len then
          Raise (ContentIntegrityError
                   (msg_short section_name (String.length text) min_len))
        else if distinct (split (lower text)) <? 5 then
          Raise (ContentIntegrityError (msg_variety section_name))
        else Ok true
    end.

Definition template_markers : list ascii :=
  [ "["%char; "]"%char; "{"%char; "}"%char; "<"%char; ">"%char ].

(** [any(char in image_prompt for char in [...])] *)
Definition has_template_marker (s : string) : bool :=
  existsb (fun m => existsb (Ascii.eqb m) (list_ascii_of_string s))
          template_markers.

Definition validate_image_prompt (w : ContentIntegrityWatchdog)
    (image_prompt : pyval) : result bool :=
  if negb (is_active w) then Ok true
  else if negb (truthy image_prompt) || negb (is_str image_prompt) then
    Raise (ContentIntegrityError
      "CRITICAL: Empty or invalid image prompt. ALL image prompts must be real and descriptive.")
  else
    let text := str_value image_prompt in
    let prompt_lower := lower text in
    match first_forbidden forbidden_image_patterns prompt_lower with
    | Some pattern =>
        Raise (ContentIntegrityError
          ("CRITICAL: Image prompt contains forbidden pattern '" ++ pattern ++
           "' suggesting mock/placeholder image generation."))
    | None =>
        if String.length (strip text) <? 20 then
          Raise (ContentIntegrityError
            ("CRITICAL: Image prompt is too short (" ++
             str_of_nat (String.length text) ++
             " chars). Image prompts must be descriptive and specific."))
        else if has_template_marker text then
          Raise (ContentIntegrityError
            "CRITICAL: Image prompt contains template markers. Image prompts must be complete and real.")
        else Ok true
    end.

(** Sequencing of calls that may raise. *)
Definition andThen {A B : Type} (r : result A) (k : A -> result B) : result B :=
  match r with Ok a => k a | Raise e => Raise e end.

(** [for x in l: f(x)], stopping at the first exception. *)
Fixpoint each {A : Type} (f : A -> result bool) (l : list A) : result bool :=
  match l with
  | [] => Ok true
  | x :: l' => andThen (f x) (fun _ => each f l')
  end.

(** The body of the loop over [section.images]. *)
Definition validate_section_image (w : ContentIntegrityWatchdog)
    (image : pyval) : result bool :=
  match image with
  | PDict d =>
      match assoc "prompt" d with
      | Some prompt => validate_image_prompt w prompt
      | None => Ok true
      end
  | _ => Ok true
  end.

(** The body of the loop over [campaign.sections]. *)
Definition validate_section (w : ContentIntegrityWatchdog)
    (section : CampaignSection) : result bool :=
  andThen (validate_text_content w (section_id section) (content section))
          (fun _ => each (validate_section_image w) (images section)).

(** The [try] block re-raises the [ContentIntegrityError] it catches, so
    the handler only logs. *)
Definition validate_entire_campaign (w : ContentIntegrityWatchdog)
    (campaign : Campaign) : result bool :=
  if negb (is_active w) then Ok true
  else
    andThen (validate_text_content w "campaign_title" (name campaign)) (fun _ =>
    andThen (validate_text_content w "campaign_description" (description campaign)) (fun _ =>
    andThen (each (validate_section w) (sections campaign)) (fun _ =>
    match player_preferences campaign with
    | Some prefs =>
        match freeform_input prefs with
        | Some txt =>
            if negb (String.eqb txt "") then
              andThen (validate_text_content w "player_input" (PStr txt))
                      (fun _ => Ok true)
            else Ok true
        | None => Ok true
        end
    | None => Ok true
    end))).

Definition required_fields : list string :=
  [ "title"; "description"; "level_range" ].

(** [concept[k]] once [k in concept] has been checked. *)
Definition item (k : string) (d : list (string * pyval)) : pyval :=
  get_default k d PNone.

Definition validate_campaign_concept (w : ContentIntegrityWatchdog)
    (concept : pyval) : result bool :=
  if negb (is_active w) then Ok true
  else if negb (truthy concept) || negb (is_dict concept) then
    Raise (ContentIntegrityError "CRITICAL: Invalid campaign concept format")
  else
    let d := match concept with PDict d => d | _ => [] end in
    match List.find (fun field => negb (has_key field d)) required_fields with
    | Some field =>
        Raise (ContentIntegrityError
          ("CRITICAL: Campaign concept missing required field '" ++ field ++ "'"))
    | None =>
        andThen (validate_text_content w "concept_title" (item "title" d)) (fun _ =>
        andThen (validate_text_content w "concept_description" (item "description" d)) (fun _ =>
        match assoc "subtitle" d with
        | Some sub =>
            andThen (validate_text_content w "concept_subtitle" sub)
                    (fun _ => Ok true)
        | None => Ok true
        end))
    end.

End Watchdog.

(** ** [WatchdogService]: metrics, API usage and costs *)

Module Monitor.

Inductive AlertSeverity : Type := INFO | WARNING | ERROR | CRITICAL.

Inductive MetricType : Type :=
| GENERATION_TIME | QUALITY_SCORE | API_LATENCY | TOKEN_USAGE
| ERROR_RATE | REGENERATION_RATE | COST.

(** A metric value is a Python [int] or [float]. *)
Inductive number : Type :=
| Int : Z -> number
| Float : float -> number.

(** [Metric] and [Alert] without their [timestamp] and [details] fields,
    which the modelled code writes and never reads. *)
Record Metric : Type := mkMetric {
  metric_type : MetricType;
  value : number;
  component : string
}.

Record Alert : Type := mkAlert {
  alert_message : string;
  severity : AlertSeverity;
  source : string;
  resolved : bool
}.

(** The mutable attributes of a [WatchdogService]. No alert callback is
    registered, and [_save_metrics], which only writes a file and swallows
    its own exceptions, leaves the object unchanged. *)
Record WatchdogService : Type := mkService {
  alert_threshold : nat;
  metrics : list Metric;
  alerts : list Alert;
  error_count : nat;
  api_calls : gmap string nat;
  cost_estimates : gmap string float
}.

(** [__init__(alert_threshold=3)] *)
Definition init (threshold : nat) : WatchdogService :=
  mkService threshold [] [] 0
    (<["claude" := 0]> (<["chatgpt" := 0]> (<["dalle" := 0]> ∅)))
    (<["claude" := 0%float]> (<["chatgpt" := 0%float]>
      (<["dalle" := 0%float]> (<["total" := 0%float]> ∅)))).

Definition with_metrics (s : WatchdogService) (l : list Metric) : WatchdogService :=
  mkService (alert_threshold s) l (alerts s) (error_count s)
            (api_calls s) (cost_estimates s).
Definition with_alerts (s : WatchdogService) (l : list Alert) : WatchdogService :=
  mkService (alert_threshold s) (metrics s) l (error_count s)
            (api_calls s) (cost_estimates s).
Definition with_error_count (s : WatchdogService) (n : nat) : WatchdogService :=
  mkService (alert_threshold s) (metrics s) (alerts s) n
            (api_calls s) (cost_estimates s).
Definition with_api_calls (s : WatchdogService) (m : gmap string nat) : WatchdogService :=
  mkService (alert_threshold s) (metrics s) (alerts s) (error_count s)
            m (cost_estimates s).
Definition with_cost_estimates (s : WatchdogService) (m : gmap string float) : WatchdogService :=
  mkService (alert_threshold s) (metrics s) (alerts s) (error_count s)
            (api_calls s) m.

Definition track_metric (s : WatchdogService) (t : MetricType) (v : number)
    (comp : string) : WatchdogService :=
  with_metrics s (List.app (metrics s) [mkMetric t v comp]).

Definition _create_alert (s : WatchdogService) (msg : string)
    (sev : AlertSeverity) (src : string) : WatchdogService :=
  with_alerts s (List.app (alerts s) [mkAlert msg sev src false]).

(** [d[k] += x] on a dict whose values are floats; a missing key is the
    [else] branch of the caller or, for ["total"], cannot occur. *)
Definition bump (k : string) (x : float) (d : gmap string float) : gmap string float :=
  <[k := (default 0%float (d !! k) + x)%float]> d.

Definition track_api_call (s : WatchdogService) (api_name : string)
    (token_count : Z) (response_time : float) (cost : option float)
  : WatchdogService :=
  let s1 :=
    with_api_calls s
      (match api_calls s !! api_name with
       | Some n => <[api_name := n + 1]> (api_calls s)
       | None => <[api_name := 1]> (api_calls s)
       end) in
  let s2 := track_metric s1 TOKEN_USAGE (Int token_count) api_name in
  let s3 := track_metric s2 API_LATENCY (Float response_time) api_name in
  match cost with
  | Some c =>
      let s4 := track_metric s3 COST (Float c) api_name in
      let per_api :=
        match cost_estimates s4 !! api_name with
        | Some _ => bump api_name c (cost_estimates s4)
        | None => <[api_name := c]> (cost_estimates s4)
        end in
      with_cost_estimates s4 (bump "total" c per_api)
  | None => s3
  end.

(** [sum(d.values())] *)
Definition sum_values (d : gmap string nat) : nat :=
  map_fold (fun _ n acc => n + acc) 0 d.

(** The entries of [get_api_usage_summary()] other than ["token_usage"]. *)
Record UsageSummary : Type := mkSummary {
  total_calls : nat;
  calls_by_api : gmap string nat;
  total_estimated_cost : float
}.

Definition get_api_usage_summary (s : WatchdogService) : UsageSummary :=
  mkSummary (sum_values (api_calls s)) (api_calls s)
            (default 0%float (cost_estimates s !! "total")).

(** One [track_api_call] invocation: its four arguments. *)
Record Call : Type := mkCall {
  call_api : string;
  call_tokens : Z;
  call_time : float;
  call_cost : option float
}.

Definition track (s : WatchdogService) (c : Call) : WatchdogService :=
  track_api_call s (call_api c) (call_tokens c) (call_time c) (call_cost c).

(** A sequence of invocations, oldest first. *)
Definition track_all (s : WatchdogService) (cs : list Call) : WatchdogService :=
  fold_left track cs s.

(** The cost arguments of a sequence of invocations, added in call order
    onto [acc]. *)
Definition sum_costs (acc : float) (cs : list Call) : float :=
  fold_left (fun a c => match call_cost c with
                        | Some x => (a + x)%float
                        | None => a
                        end) cs acc.

(** [self.cost_estimates["total"]] *)
Definition total (s : WatchdogService) : float :=
  default 0%float (cost_estimates s !! "total").

(** [ContentVerifier] *)
Definition fallback_phrases : list string :=
  [ "I'm sorry, I cannot"; "I apologize, but I";
    "I don't have enough information"; "As an AI language model";
    "I cannot generate"; "I cannot create"; "I cannot provide";
    "Unable to generate"; "Unable to create"; "Unable to provide" ].

Definition placeholder_patterns : list string :=
  [ "{placeholder}"; "[Insert"; "[placeholder"; "PLACEHOLDER"; "TODO:";
    "<placeholder>"; "<insert" ].

(** [sum(1 for elem in required if elem in content_lower)] *)
Definition found_elements (required : list string) (content_text : string) : nat :=
  List.length (List.filter (fun e => contains e (lower content_text)) required).

Definition _validate_monster_content (c : string) : bool :=
  4 <=? found_elements
          ["armor class"; "hit points"; "speed"; "str"; "dex"; "con"] c.
Definition _validate_location_content (c : string) : bool :=
  2 <=? found_elements ["description"; "features"; "location"; "area"] c.
Definition _validate_npc_content (c : string) : bool :=
  2 <=? found_elements
          ["description"; "personality"; "appearance"; "motivation"] c.

Definition verify_content (c content_type : string) : bool * list string :=
  if String.eqb c "" || (String.length (strip c) <? 10) then
    (false, ["Empty or too short " ++ content_type ++ " content"])
  else
    let hit := fun p => contains (lower p) (lower c) in
    let issues := List.app
      (List.map (fun p => "Fallback phrase detected: '" ++ p ++ "'")
                (List.filter hit fallback_phrases)) (List.app
      (List.map (fun p => "Placeholder text detected: '" ++ p ++ "'")
                (List.filter hit placeholder_patterns))
      (if String.eqb content_type "monster" then
         if _validate_monster_content c then []
         else ["Monster content format validation failed"]
       else if String.eqb content_type "location" then
         if _validate_location_content c then []
         else ["Location content format validation failed"]
       else if String.eqb content_type "npc" then
         if _validate_npc_content c then []
         else ["NPC content format validation failed"]
       else [])) in
    (match issues with [] => true | _ => false end, issues).

Definition verify_ai_response (s : WatchdogService)
    (c content_type src : string) : (bool * list string) * WatchdogService :=
  let '(is_valid, issues) := verify_content c content_type in
  if negb is_valid then
    let s1 := with_error_count s (error_count s + 1) in
    let s2 := track_metric s1 ERROR_RATE (Float 1%float) src in
    let s3 :=
      match issues with
      | [] => s2
      | _ =>
          _create_alert s2
            ("Content verification failed for " ++ content_type)
            (if alert_threshold s2 <=? error_count s2 then CRITICAL else WARNING)
            src
      end in
    ((is_valid, issues), s3)
  else
    let s1 := with_error_count s 0 in
    ((is_valid, issues), track_metric s1 ERROR_RATE (Float 0%float) src).

(** The alert message is given without the score, which the source
    appends formatted to two decimals. *)
Definition track_quality_score (s : WatchdogService) (comp : string)
    (score : float) : WatchdogService :=
  let s1 := track_metric s QUALITY_SCORE (Float score) comp in
  if (score <? 0.5)%float then
    _create_alert s1 ("Low quality score for " ++ comp) WARNING "quality_checker"
  else s1.

End Monitor.

(** ** [ContentCacheService] *)

Module Cache.

(** The JSON object that [set] writes. Times are seconds on the clock
    that [datetime.now()] reads. *)
Record CacheData : Type := mkData {
  content : pyval;
  timestamp : Z;
  ttl_seconds : Z;
  expires_at : Z
}.

(** What a file of the cache directory holds: an object written by [set],
    or text that [json.load] rejects. *)
Inductive CacheFile : Type :=
| Entry : CacheData -> CacheFile
| Corrupt : CacheFile.

Record ContentCacheService : Type := mkCache { cache_dir : string }.

(** [__init__(cache_dir="cache/content")] *)
Definition init : ContentCacheService := mkCache "cache/content".

Section WithHash.

(** [hashlib.md5(key.encode()).hexdigest()] *)
Variable md5 : string -> string.

Definition _get_cache_path (self : ContentCacheService) (key : string) : string :=
  cache_dir self ++ "/" ++ md5 key ++ ".json".

(** [get]: the stored ["content"], or [None] when the file is missing or
    unreadable. Neither the clock nor ["expires_at"] is consulted. *)
Definition get (self : ContentCacheService) (fs : gmap string CacheFile)
    (key : string) : pyval :=
  match fs !! _get_cache_path self key with
  | None => PNone
  | Some (Entry data) => content data
  | Some Corrupt => PNone
  end.

(** [set]: [now] is the reading of [datetime.now()]. Writing the file is
    taken to succeed, so the result is [True]. The [ttl] is one for which
    [datetime.now() + timedelta(seconds=ttl)] exists, as the 3600 that the
    orchestrator passes; beyond the range of [datetime] the source raises
    [OverflowError] before it writes. *)
Definition set (self : ContentCacheService) (fs : gmap string CacheFile)
    (now : Z) (key : string) (value : pyval) (ttl : Z)
  : bool * gmap string CacheFile :=
  let cache_data := mkData value now ttl (now + ttl) in
  (true, <[_get_cache_path self key := Entry cache_data]> fs).

Definition delete (self : ContentCacheService) (fs : gmap string CacheFile)
    (key : string) : bool * gmap string CacheFile :=
  (true, base.delete (_get_cache_path self key) fs).

Definition exists_ (self : ContentCacheService) (fs : gmap string CacheFile)
    (key : string) : bool :=
  match fs !! _get_cache_path self key with Some _ => true | None => false end.

Definition is_expired (self : ContentCacheService) (fs : gmap string CacheFile)
    (now : Z) (key : string) : bool :=
  match fs !! _get_cache_path self key with
  | None => true
  | Some (Entry data) => (expires_at data <? now)%Z
  | Some Corrupt => true
  end.

End WithHash.

End Cache.

(** ** The world the services act on, and computations over it *)

Module Effects.

(** What one call of [client.messages.create] does: it raises, or it
    returns a message with its text and its token usage. [elapsed] is the
    time the call took. *)
Inductive ApiOutcome : Type :=
| ApiError : string -> ApiOutcome
| ApiMessage : string -> Z -> Z -> ApiOutcome.

Record ApiReply : Type := mkReply {
  elapsed : float;
  outcome : ApiOutcome
}.

(** The cache directory, the clock, the prompts sent to the external
    generator so far (oldest first) and the monitoring service. *)
Record World : Type := mkWorld {
  files : gmap string Cache.CacheFile;
  clock : Z;
  sent : list string;
  monitor : Monitor.WatchdogService
}.

Definition with_files (w : World) (fs : gmap string Cache.CacheFile) : World :=
  mkWorld fs (clock w) (sent w) (monitor w).
Definition with_sent (w : World) (l : list string) : World :=
  mkWorld (files w) (clock w) l (monitor w).
Definition with_monitor (w : World) (m : Monitor.WatchdogService) : World :=
  mkWorld (files w) (clock w) (sent w) m.

(** A computation returns or raises, and leaves a world either way. *)
Definition M (A : Type) : Type := World -> result A * World.

Definition ret {A : Type} (a : A) : M A := fun w => (Ok a, w).

Definition raise {A : Type} (e : exn) : M A := fun w => (Raise e, w).

Definition bind {A B : Type} (m : M A) (k : A -> M B) : M B :=
  fun w =>
    match m w with
    | (Ok a, w') => k a w'
    | (Raise e, w') => (Raise e, w')
    end.

(** [try: m  except Exception as e: h(e)] *)
Definition try_except {A : Type} (m : M A) (h : exn -> M A) : M A :=
  fun w =>
    match m w with
    | (Ok a, w') => (Ok a, w')
    | (Raise e, w') => h e w'
    end.

Definition lift {A : Type} (r : result A) : M A := fun w => (r, w).

Definition observe {A : Type} (f : World -> A) : M A := fun w => (Ok (f w), w).

Definition update (f : World -> World) : M unit := fun w => (Ok tt, f w).

Definition on_monitor (f : Monitor.WatchdogService -> Monitor.WatchdogService)
  : M unit :=
  update (fun w => with_monitor w (f (monitor w))).

Definition when (b : bool) (m : M unit) : M unit := if b then m else ret tt.

End Effects.

Declare Scope py_scope.
Delimit Scope py_scope with py.
Notation "x <- m ;; k" := (Effects.bind m (fun x => k))
  (at level 100, m at next level, right associativity) : py_scope.
Notation "m ;;; k" := (Effects.bind m (fun _ => k))
  (at level 100, right associativity) : py_scope.

(** ** [ClaudeAIService] *)

Module AI.
Import Effects.
Local Open Scope py_scope.

(** The section generators of the service, by method name. *)
Inductive Generator : Type :=
| generate_introduction | generate_setting | generate_background
| generate_structure | generate_locations_content | generate_npcs_content
| generate_encounters_content | generate_treasures_content
| generate_appendices_content.

(** [client]: whether the SDK client was created; [watchdog_service]:
    whether a monitoring service was passed in. *)
Record ClaudeAIService : Type := mkAI {
  client : bool;
  watchdog_service : bool;
  content_integrity_watchdog : Watchdog.ContentIntegrityWatchdog
}.

(** What the service is given from outside: the external generator (the
    outcome of its [n]-th call, on a prompt), the prompt builders, the
    parser of a generated campaign concept (which catches its own
    exceptions, so it always returns a value), [json.loads] on generated
    text ([None] when it raises) and the time the mock branch measures. *)
Record Provider : Type := mkProvider {
  messages_create : nat -> string -> ApiReply;
  section_prompt : Generator -> Campaign -> option string -> string -> string;
  _build_campaign_concept_prompt : PlayerPreferences -> string;
  _parse_campaign_concept_response : pyval -> pyval;
  _build_story_arcs_prompt : list (string * pyval) -> pyval -> string;
  _build_npcs_prompt : nat -> list (string * pyval) -> string;
  _build_locations_prompt : nat -> list (string * pyval) -> string;
  _build_quality_validation_prompt : Campaign -> string -> string;
  json_loads : string -> option pyval;
  mock_elapsed : float
}.

(** [a / b] on non-negative integers below 2^53. *)
Definition true_div (a b : Z) : float :=
  (PrimFloat.of_uint63 (Uint63.of_Z a) / PrimFloat.of_uint63 (Uint63.of_Z b))%float.

(** The value that [json.dumps] serialises; callers read it back with
    [json.loads], so the text in between is left out. *)
Definition response_data (text : string) (input_tokens output_tokens : Z) : pyval :=
  PDict [ ("content", PStr text);
          ("usage", PDict [ ("input_tokens", PInt input_tokens);
                            ("output_tokens", PInt output_tokens) ]) ].

Definition mock_response : pyval :=
  response_data "Mock Claude response - client not available" 100 200.

Definition fallback_response : pyval :=
  response_data "Error generating content with Claude API" 0 0.

Section WithProvider.

Variable provider : Provider.

(** The external call itself: the reply is that of the next call number,
    and the prompt is recorded as sent. *)
Definition call_client (prompt : string) : M ApiReply :=
  fun w =>
    (Ok (messages_create provider (List.length (sent w)) prompt),
     with_sent w (List.app (sent w) [prompt])).

Definition _call_claude_api (self : ClaudeAIService) (prompt : string) : M pyval :=
  if negb (client self) then
    when (watchdog_service self)
      (on_monitor (fun m =>
         Monitor.track_api_call m "claude" 300 (mock_elapsed provider)
                                (Some 0%float))) ;;;
    ret mock_response
  else
    reply <- call_client prompt ;;
    let response_time := elapsed reply in
    try_except
      (match outcome reply with
       | ApiError msg => raise (OtherError msg)
       | ApiMessage text input_tokens output_tokens =>
           (if negb (String.eqb text "")
               && Watchdog.is_active (content_integrity_watchdog self) then
              if 50 <? String.length (strip text) then
                match Watchdog.validate_text_content
                        (content_integrity_watchdog self) "ai_response"
                        (PStr text) with
                | Ok _ => ret tt
                | Raise e =>
                    if is_ContentIntegrityError e then
                      raise (ContentIntegrityError
                        ("AI generated content contains mock/placeholder data: "
                         ++ message e))
                    else raise e
                end
              else ret tt
            else ret tt) ;;;
           when (watchdog_service self)
             (let total_tokens := (input_tokens + output_tokens)%Z in
              let estimated_cost :=
                true_div (input_tokens * 3 + output_tokens * 15) 1000000 in
              on_monitor (fun m =>
                Monitor.track_api_call m "claude" total_tokens response_time
                                       (Some estimated_cost)) ;;;
              when (negb (String.eqb text ""))
                (on_monitor (fun m =>
                   snd (Monitor.verify_ai_response m text "campaign_content"
                                                   "claude")))) ;;;
           ret (response_data text input_tokens output_tokens)
       end)
      (fun e =>
         when (watchdog_service self)
           (on_monitor (fun m =>
              Monitor.track_api_call m "claude" 0 response_time (Some 0%float)) ;;;
            on_monitor (fun m =>
              Monitor._create_alert m
                ("Claude API call failed: " ++ message e)
                Monitor.ERROR "claude_api")) ;;;
         ret fallback_response).

(** [_parse_section_content_response] on the value [json.loads] yields. *)
Definition _parse_section_content_response (response : pyval) : string :=
  match response with
  | PDict data =>
      match get_default "content" data (PStr "") with
      | PStr text =>
          if negb (String.eqb text "") && negb (startswith "{" (strip text))
          then text
          else if negb (String.eqb text "") then text
          else "Content generation failed"
      | other =>
          if truthy other then "Error parsing generated content"
          else "Content generation failed"
      end
  | _ => "Error parsing generated content"
  end.

(** [generate_introduction], [generate_setting], ... : the nine methods
    differ in the prompt builder only. The [except] clause logs and
    re-raises. *)
Definition generate (self : ClaudeAIService) (g : Generator)
    (campaign_data : Campaign) (custom_instructions : option string)
    (mode : string) : M string :=
  let prompt := section_prompt provider g campaign_data custom_instructions mode in
  response <- _call_claude_api self prompt ;;
  ret (_parse_section_content_response response).

(** The common shape of the [_parse_*_response] methods: text enclosed in
    the given brackets goes through [json.loads], other text through the
    fallback extraction, and any exception yields [failed]. *)
Definition parse_or_extract (opening closing : string)
    (extract : string -> pyval) (failed : pyval) (response : pyval) : pyval :=
  match response with
  | PDict data =>
      match get_default "content" data (PStr "") with
      | PStr text =>
          if startswith opening (strip text) && endswith closing (strip text)
          then match json_loads provider text with
               | Some v => v
               | None => failed
               end
          else extract text
      | _ => failed
      end
  | _ => failed
  end.

Definition _extract_story_arcs_from_text (text : string) : pyval :=
  PList [ PDict [ ("title", PStr "Main Story Arc");
                  ("description",
                   PStr (if negb (String.eqb text "") then take 200 text
                         else "The primary storyline"));
                  ("acts", PList [ PDict [("title", PStr "Beginning")];
                                   PDict [("title", PStr "Middle")];
                                   PDict [("title", PStr "End")] ]);
                  ("climax", PStr "Epic confrontation");
                  ("resolution", PStr "Satisfying conclusion") ] ].

Definition _extract_npcs_from_text (text : string) : pyval :=
  PList [ PDict [ ("name", PStr "Mysterious Stranger");
                  ("race", PStr "human");
                  ("character_class", PStr "rogue");
                  ("background", PStr "criminal");
                  ("personality",
                   PDict [ ("traits", PList [PStr "mysterious"]);
                           ("ideals", PList [PStr "freedom"]);
                           ("bonds", PList [PStr "none"]);
                           ("flaws", PList [PStr "secretive"]) ]);
                  ("motivation", PStr "Personal gain");
                  ("role_in_story", PStr "Guide and informant") ] ].

Definition _extract_locations_from_text (text : string) : pyval :=
  PList [ PDict [ ("name", PStr "Ancient Ruins");
                  ("type", PStr "dungeon");
                  ("description",
                   PStr (if negb (String.eqb text "") then take 200 text
                         else "Forgotten ruins filled with mystery"));
                  ("significance", PStr "Contains ancient secrets");
                  ("encounters",
                   PList [ PDict [ ("type", PStr "combat");
                                   ("description", PStr "Guardian creatures") ] ]) ] ].

Definition _extract_quality_validation_from_text (text : string) : pyval :=
  PDict [ ("completeness_score", PFloat 3.5%float);
          ("engagement_score", PFloat 3%float);
          ("balance_score", PFloat 3.5%float);
          ("technical_quality_score", PFloat 4%float);
          ("overall_score", PFloat 3.5%float);
          ("issues", PList []);
          ("recommendations", PList [PStr "Content looks good"]) ].

Definition _parse_story_arcs_response : pyval -> pyval :=
  parse_or_extract "[" "]" _extract_story_arcs_from_text (PList []).
Definition _parse_npcs_response : pyval -> pyval :=
  parse_or_extract "[" "]" _extract_npcs_from_text (PList []).
Definition _parse_locations_response : pyval -> pyval :=
  parse_or_extract "[" "]" _extract_locations_from_text (PList []).
Definition _parse_quality_validation_response : pyval -> pyval :=
  parse_or_extract "{" "}" _extract_quality_validation_from_text (PDict []).

(** What the next external call will answer. *)
Definition next_reply (prompt : string) (w : World) : ApiReply :=
  messages_create provider (List.length (sent w)) prompt.

(** The external generator answers every call with the text [t]. *)
Definition always_answers (t : string) : Prop :=
  forall n prompt, exists i o,
      outcome (messages_create provider n prompt) = ApiMessage t i o.

(** [generate_campaign_concept]: a concept that fails the service's own
    watchdog is re-raised by both [except] clauses. *)
Definition generate_campaign_concept (self : ClaudeAIService)
    (preferences : PlayerPreferences) : M pyval :=
  let prompt := _build_campaign_concept_prompt provider preferences in
  response <- _call_claude_api self prompt ;;
  let concept := _parse_campaign_concept_response provider response in
  (if truthy concept && Watchdog.is_active (content_integrity_watchdog self)
   then lift (Watchdog.validate_campaign_concept
                (content_integrity_watchdog self) concept)
   else ret true) ;;;
  ret concept.

Definition generate_story_arcs (self : ClaudeAIService)
    (campaign_overview : list (string * pyval)) (duration : pyval) : M pyval :=
  response <- _call_claude_api self
                (_build_story_arcs_prompt provider campaign_overview duration) ;;
  ret (_parse_story_arcs_response response).

Definition generate_npcs (self : ClaudeAIService) (count : nat)
    (campaign_context : list (string * pyval)) : M pyval :=
  response <- _call_claude_api self
                (_build_npcs_prompt provider count campaign_context) ;;
  ret (_parse_npcs_response response).

Definition generate_locations (self : ClaudeAIService) (count : nat)
    (campaign_context : list (string * pyval)) : M pyval :=
  response <- _call_claude_api self
                (_build_locations_prompt provider count campaign_context) ;;
  ret (_parse_locations_response response).

Definition validate_content_quality (self : ClaudeAIService)
    (campaign_data : Campaign) (content_type : string) : M pyval :=
  response <- _call_claude_api self
                (_build_quality_validation_prompt provider campaign_data
                                                  content_type) ;;
  ret (_parse_quality_validation_response response).

End WithProvider.

End AI.

(** ** [CompleteCampaignGenerationService] *)

Module Orchestrator.
Import Effects.
Local Open Scope py_scope.

Record CompleteCampaignGenerationService : Type := mkOrchestrator {
  ai_service : AI.ClaudeAIService;
  content_cache : Cache.ContentCacheService;
  content_integrity_watchdog : Watchdog.ContentIntegrityWatchdog
}.

(** The arguments of [generate_campaign]. *)
Record Request : Type := mkRequest {
  req_theme : string;
  req_difficulty : string;
  req_party_size : string;
  req_starting_level : Z;
  req_duration : string;
  req_user_id : string;
  req_custom_instructions : option string;
  req_mode : string
}.

(** What the orchestrator is given from outside, besides the generator:
    the hash functions, the identifier [uuid4()] draws, the image services
    (their result for the cover and for one section: a path, nothing, or
    an exception) and the wall-clock duration of the run. *)
Record Outside : Type := mkOutside {
  md5 : string -> string;
  provider : AI.Provider;
  uuid4 : string;
  py_hash : string -> Z;
  cover_image : pyval -> result (option string);
  section_image : Campaign -> string -> result (option string);
  generation_time : float
}.

(** Enum classes of [value_objects.py], by their values. *)
Definition CampaignTheme : list string :=
  [ "fantasy"; "horror"; "mystery"; "exploration"; "political_intrigue";
    "war"; "supernatural"; "custom" ].
Definition DifficultyLevel : list string := [ "easy"; "medium"; "hard"; "deadly" ].
Definition PartySize : list string := [ "solo"; "duo"; "small"; "medium"; "large" ].
Definition Duration : list string :=
  [ "one_shot"; "short"; "medium"; "long"; "epic" ].

Definition inb (x : string) (l : list string) : bool := existsb (String.eqb x) l.

(** [Cls(value)]: the member, or [ValueError]. *)
Definition enum (cls : string) (values : list string) (v : string) : result string :=
  if inb v values then Ok v
  else Raise (OtherError ("'" ++ v ++ "' is not a valid " ++ cls)).

(** [Cls(value) if value != "any" else None] *)
Definition enum_or_any (cls : string) (values : list string) (v : string)
  : result (option string) :=
  if String.eqb v "any" then Ok None
  else Watchdog.andThen (enum cls values v) (fun x => Ok (Some x)).

Definition _create_preferences_from_params (r : Request) : result PlayerPreferences :=
  Watchdog.andThen (enum_or_any "CampaignTheme" CampaignTheme (req_theme r)) (fun t =>
  Watchdog.andThen (enum_or_any "DifficultyLevel" DifficultyLevel (req_difficulty r)) (fun d =>
  Watchdog.andThen (enum_or_any "Duration" Duration (req_duration r)) (fun l =>
  Ok (mkPreferences t d l (req_custom_instructions r))))).

Definition opt_str (o : option string) : string :=
  match o with Some s => s | None => "" end.

Section WithOutside.

Variable out : Outside.
Variable self : CompleteCampaignGenerationService.

Definition cache_get (key : string) : M pyval :=
  observe (fun w => Cache.get (md5 out) (content_cache self) (files w) key).

Definition cache_set (key : string) (value : pyval) (ttl : Z) : M bool :=
  fun w =>
    let '(ok, fs) :=
      Cache.set (md5 out) (content_cache self) (files w) (clock w) key value ttl in
    (Ok ok, with_files w fs).

Definition _get_concept_cache_key (preferences : PlayerPreferences) : string :=
  let part := fun (tag : string) (o : option string) =>
                match o with Some v => tag ++ v | None => "" end in
  let pref_str :=
    part "_theme_" (pref_theme preferences) ++
    part "_diff_" (pref_difficulty preferences) ++
    part "_length_" (story_length preferences) in
  let freeform_str := opt_str (freeform_input preferences) in
  let additional_hash := (py_hash out ("" ++ freeform_str) mod 10000)%Z in
  "campaign_concept" ++ pref_str ++ "_" ++ str_of_nat (Z.to_nat additional_hash).

(** The file that holds the concept of given preferences. *)
Definition concept_path (preferences : PlayerPreferences) : string :=
  Cache._get_cache_path (md5 out) (content_cache self)
                        (_get_concept_cache_key preferences).

(** Lines 85-113 of [generate_campaign]: the concept, from the cache or
    from the generator. *)
Definition obtain_concept (preferences : PlayerPreferences) : M pyval :=
  let w := content_integrity_watchdog self in
  let concept_cache_key := _get_concept_cache_key preferences in
  cached <- cache_get concept_cache_key ;;
  let concept :=
    if truthy cached then
      match Watchdog.validate_campaign_concept w cached with
      | Ok _ => cached
      | Raise _ => PNone
      end
    else cached in
  if negb (truthy concept) then
    try_except
      (concept <- AI.generate_campaign_concept (provider out) (ai_service self)
                     preferences ;;
       if truthy concept then
         match Watchdog.validate_campaign_concept w concept with
         | Ok _ =>
             cache_set concept_cache_key concept 3600 ;;;
             ret concept
         | Raise e =>
             raise (ContentIntegrityError
               ("Generated concept contains mock/placeholder content: "
                ++ message e))
         end
       else raise (ExternalServiceError "AI service returned empty concept"))
      (fun e =>
         raise (ExternalServiceError
           ("Campaign concept generation failed: " ++ message e)))
  else ret concept.

(** [concept.get(k, default)] as a dict entry. *)
Definition entry (k : string) (concept : list (string * pyval)) (dflt : string)
  : string * pyval :=
  (k, get_default k concept (PStr dflt)).

Definition basic_story_arc : pyval :=
  PDict [ ("title", PStr "Basic Adventure");
          ("description", PStr "A simple adventure story");
          ("key_events", PList [PStr "Introduction"; PStr "Conflict";
                                PStr "Resolution"]);
          ("duration", PStr "medium") ].

(** [_generate_story_arcs]: a concept that is no dict makes [concept.get]
    raise, and then, as after any other exception, the minimal arc is
    returned. *)
Definition _generate_story_arcs (concept : pyval) (mode : string) : M (list pyval) :=
  match concept with
  | PDict c =>
      let campaign_data :=
        [ ("name", get_default "title" c (PStr "Campaign"));
          entry "description" c ""; entry "theme" c "fantasy";
          entry "difficulty" c "medium";
          ("expected_duration", get_default "duration" c (PStr "medium")) ] in
      story_arcs_data <-
        AI.generate_story_arcs (provider out) (ai_service self) campaign_data
          (get_default "expected_duration" campaign_data (PStr "medium")) ;;
      match story_arcs_data with
      | PStr text =>
          ret [ PDict [ ("title", PStr "Main Story Arc");
                        ("description", PStr text);
                        ("key_events", PList [PStr "Adventure begins";
                                              PStr "Climax";
                                              PStr "Resolution"]);
                        ("duration", PStr "medium") ] ]
      | PList l => ret l
      | _ => ret []
      end
  | _ => ret [basic_story_arc]
  end.

Definition minimal_npcs : list pyval :=
  [ PDict [ ("name", PStr "Quest Giver"); ("role", PStr "Mentor");
            ("personality", PStr "Wise and mysterious");
            ("background", PStr "Ancient guardian of the realm");
            ("motivation", PStr "Protect the balance of power") ];
    PDict [ ("name", PStr "Antagonist"); ("role", PStr "Villain");
            ("personality", PStr "Cunning and ambitious");
            ("background", PStr "Former hero turned dark");
            ("motivation", PStr "Seize ultimate power") ] ].

Definition minimal_locations : list pyval :=
  [ PDict [ ("name", PStr "Starting Village"); ("type", PStr "Settlement");
            ("description", PStr "A peaceful village where the adventure begins");
            ("key_features", PList [PStr "Inn"; PStr "Shop"; PStr "Town square"]);
            ("significance", PStr "Adventure starting point") ];
    PDict [ ("name", PStr "Ancient Ruins"); ("type", PStr "Dungeon");
            ("description", PStr "Mysterious ruins filled with secrets and danger");
            ("key_features", PList [PStr "Hidden chambers";
                                    PStr "Ancient artifacts"; PStr "Traps"]);
            ("significance", PStr "Main adventure location") ] ].

Definition at_least_two (data : pyval) (minimal : list pyval) : list pyval :=
  match data with
  | PList l => if 2 <=? List.length l then l else minimal
  | _ => minimal
  end.

Definition _generate_key_npcs (concept : pyval) (mode : string) : M (list pyval) :=
  match concept with
  | PDict c =>
      let num_npcs := if String.eqb mode "sample" then 2 else 5 in
      let campaign_data :=
        [ ("name", get_default "title" c (PStr "Campaign"));
          entry "description" c ""; entry "theme" c "fantasy";
          entry "setting" c "medieval_fantasy" ] in
      npcs_data <- AI.generate_npcs (provider out) (ai_service self)
                                    num_npcs campaign_data ;;
      ret (at_least_two npcs_data minimal_npcs)
  | _ => ret minimal_npcs
  end.

Definition _generate_key_locations (concept : pyval) (mode : string) : M (list pyval) :=
  match concept with
  | PDict c =>
      let num_locations := if String.eqb mode "sample" then 2 else 5 in
      let campaign_data :=
        [ ("name", get_default "title" c (PStr "Campaign"));
          entry "description" c ""; entry "theme" c "fantasy";
          entry "setting" c "medieval_fantasy" ] in
      locations_data <- AI.generate_locations (provider out) (ai_service self)
                                              num_locations campaign_data ;;
      ret (at_least_two locations_data minimal_locations)
  | _ => ret minimal_locations
  end.

(** [concept[k]]: [KeyError] when the key is missing, [TypeError] when the
    concept is no dict. *)
Definition subscript (concept : pyval) (k : string) : result pyval :=
  match concept with
  | PDict d =>
      match assoc k d with
      | Some v => Ok v
      | None => Raise (OtherError ("'" ++ k ++ "'"))
      end
  | _ => Raise (OtherError "object is not subscriptable")
  end.

(** [Campaign(...)] with its [__post_init__] validation. *)
Definition new_campaign (campaign_id : string) (concept : pyval) (r : Request)
    (arcs npcs locations : list pyval) (preferences : PlayerPreferences)
  : result Campaign :=
  Watchdog.andThen (subscript concept "title") (fun nm =>
  Watchdog.andThen (subscript concept "description") (fun descr =>
  Watchdog.andThen (enum "CampaignTheme" CampaignTheme (req_theme r)) (fun _ =>
  Watchdog.andThen (enum "DifficultyLevel" DifficultyLevel (req_difficulty r)) (fun _ =>
  Watchdog.andThen (enum "PartySize" PartySize (req_party_size r)) (fun _ =>
  Watchdog.andThen (enum "Duration" Duration (req_duration r)) (fun _ =>
  if negb ((1 <=? req_starting_level r)%Z && (req_starting_level r <=? 20)%Z) then
    Raise (OtherError "Starting level must be between 1 and 20")
  else if List.length arcs <? 1 then
    Raise (OtherError "Campaign must have at least one story arc")
  else if List.length npcs <? 2 then
    Raise (OtherError "Campaign must have at least 2 key NPCs")
  else if List.length locations <? 2 then
    Raise (OtherError "Campaign must have at least 2 key locations")
  else
    Ok (mkCampaign campaign_id nm descr arcs npcs locations
                   (req_starting_level r) [] None GENERATING 3.5%float
                   (Some preferences)))))))).

(** [validate_campaign_data] as called by [generate_campaign], which turns
    its [ValidationError] into a [CampaignGenerationError]. The identifier,
    theme and difficulty are never [None] here, and the starting level and
    party size were checked by the constructor. *)
Definition validate_campaign_data (campaign : Campaign) : result unit :=
  match name campaign, description campaign with
  | PNone, _ =>
      Raise (CampaignGenerationError
               "Invalid campaign data: Missing required field: name")
  | _, PNone =>
      Raise (CampaignGenerationError
               "Invalid campaign data: Missing required field: description")
  | _, _ => Ok tt
  end.

(** [f"section_{section_id}_{campaign.id}"] *)
Definition section_cache_key (section_id : string) (campaign : Campaign) : string :=
  "section_" ++ section_id ++ "_" ++ id campaign.

(** The file that holds a section of a campaign, and the entry that the
    write-through stores in it. *)
Definition section_path (section_id : string) (campaign : Campaign) : string :=
  Cache._get_cache_path (md5 out) (content_cache self)
                        (section_cache_key section_id campaign).

Definition written (value : pyval) (now : Z) : Cache.CacheFile :=
  Cache.Entry (Cache.mkData value now 3600 (now + 3600)).

(** No text is cached for a section of the campaign with identifier
    [cid]. *)
Definition no_text_cached (fs : gmap string Cache.CacheFile) (cid : string)
    (section_id : string) : bool :=
  negb (is_str (Cache.get (md5 out) (content_cache self) fs
                          ("section_" ++ section_id ++ "_" ++ cid))).

(** Lines 544-565 of [_generate_section_with_cache]: what runs after the
    cache lookup did not return. *)
Definition generate_new_content (campaign : Campaign)
    (section_id title : string) (generator_func : AI.Generator)
    (custom_instructions : option string) (mode : string) : M CampaignSection :=
  let w := content_integrity_watchdog self in
  let cache_key := section_cache_key section_id campaign in
  content <- AI.generate (provider out) (ai_service self) generator_func
                         campaign custom_instructions mode ;;
  (if negb (String.eqb content "") then
     match Watchdog.validate_text_content w section_id (PStr content) with
     | Ok _ => ret tt
     | Raise e =>
         raise (ContentIntegrityError
           ("Generated section '" ++ section_id ++
            "' contains mock/placeholder content: " ++ message e))
     end
   else ret tt) ;;;
  (if negb (String.eqb content "") then
     cache_set cache_key (PStr content) 3600 ;;; ret tt
   else ret tt) ;;;
  now <- observe clock ;;
  ret (mkSection section_id title
         (PStr (if negb (String.eqb content "") then content
                else "Error generating " ++ title ++ " section"))
         [] [("generation_time", PInt now)]).

Definition _generate_section_with_cache (campaign : Campaign)
    (section_id title : string) (generator_func : AI.Generator)
    (custom_instructions : option string) (mode : string) : M CampaignSection :=
  let w := content_integrity_watchdog self in
  let cache_key := section_cache_key section_id campaign in
  cached_content <- cache_get cache_key ;;
  if truthy cached_content && is_str cached_content then
    match Watchdog.validate_text_content w section_id cached_content with
    | Ok _ =>
        now <- observe clock ;;
        ret (mkSection section_id title cached_content []
               [("cached", PBool true); ("generation_time", PInt now)])
    | Raise _ =>
        generate_new_content campaign section_id title generator_func
                             custom_instructions mode
    end
  else
    generate_new_content campaign section_id title generator_func
                         custom_instructions mode.

Definition sections_config (mode : string) : list (string * string * AI.Generator) :=
  if String.eqb mode "sample" then
    [ ("introduction", "Introduction", AI.generate_introduction);
      ("setting", "The World", AI.generate_setting);
      ("background", "Adventure Background", AI.generate_background);
      ("structure", "Campaign Structure", AI.generate_structure);
      ("locations", "Key Locations", AI.generate_locations_content);
      ("npcs", "Key NPCs", AI.generate_npcs_content) ]
  else
    [ ("introduction", "Introduction", AI.generate_introduction);
      ("setting", "The World", AI.generate_setting);
      ("background", "Adventure Background", AI.generate_background);
      ("structure", "Campaign Structure", AI.generate_structure);
      ("locations", "Locations", AI.generate_locations_content);
      ("npcs", "Non-Player Characters", AI.generate_npcs_content);
      ("encounters", "Monsters & Encounters", AI.generate_encounters_content);
      ("treasures", "Treasures & Rewards", AI.generate_treasures_content);
      ("appendices", "Appendices", AI.generate_appendices_content) ].

Definition mode_instruction (mode : string) : string :=
  if String.eqb mode "sample" then
    "Generate concise content suitable for a 20-30 page campaign. Focus on essential elements and key details. Keep sections shorter and more focused."
  else
    "Generate comprehensive content suitable for a 60+ page campaign. Include detailed descriptions, multiple examples, and extensive world-building.".

Definition quality_issue_text : string :=
  "Content generation had quality issues. Please regenerate this section.".
Definition service_error_text : string :=
  "Service temporarily unavailable. Please try regenerating this section later.".
Definition unexpected_error_text : string :=
  "An unexpected error occurred while generating this section. Please try again.".

(** The section that an [except] clause of [_generate_all_sections] adds. *)
Definition error_section (section_id title text key : string) (e : exn)
    (now : Z) (mode : string) : CampaignSection :=
  mkSection section_id title (PStr text) []
    [ (key, PStr (message e)); ("generation_time", PInt now);
      ("mode", PStr mode) ].

(** One iteration of the loop of [_generate_all_sections]. *)
Definition generate_one_section (campaign : Campaign) (mode : string)
    (cfg : string * string * AI.Generator) : M Campaign :=
  let '(section_id, title, generator_func) := cfg in
  try_except
    (let custom_instructions :=
       match player_preferences campaign with
       | Some prefs =>
           match freeform_input prefs with
           | Some txt =>
               if negb (String.eqb txt "") then
                 Some (txt ++ " | " ++ mode_instruction mode)
               else Some (mode_instruction mode)
           | None => Some (mode_instruction mode)
           end
       | None => Some (mode_instruction mode)
       end in
     section <- _generate_section_with_cache campaign section_id title
                  generator_func custom_instructions mode ;;
     if truthy (content section)
        && (0 <? String.length (strip (Watchdog.str_value (content section))))
     then ret (add_section campaign section)
     else raise (ContentQualityError
                   ("Empty content generated for section " ++ section_id)))
    (fun e =>
       now <- observe clock ;;
       if is_ContentQualityError e then
         ret (add_section campaign
                (error_section section_id title quality_issue_text
                               "quality_warning" e now mode))
       else if is_ExternalServiceError e then
         ret (add_section campaign
                (error_section section_id title service_error_text
                               "service_error" e now mode))
       else
         ret (add_section campaign
                (error_section section_id title unexpected_error_text
                               "error" e now mode))).

Fixpoint generate_sections (campaign : Campaign) (mode : string)
    (cfgs : list (string * string * AI.Generator)) : M Campaign :=
  match cfgs with
  | [] => ret campaign
  | cfg :: rest =>
      campaign' <- generate_one_section campaign mode cfg ;;
      generate_sections campaign' mode rest
  end.

Definition _generate_all_sections (campaign : Campaign) (mode : string) : M Campaign :=
  generate_sections campaign mode (sections_config mode).

Definition key_sections : list string :=
  [ "introduction"; "setting"; "locations"; "npcs"; "encounters" ].

Definition illustrated_sections : list string :=
  [ "introduction"; "setting"; "background"; "structure"; "locations";
    "npcs"; "encounters"; "treasures"; "appendices" ].

(** [[s for s in sections if s.section_id in key_sections][:3]], as marks
    on the sections. *)
Fixpoint mark_sample (budget : nat) (l : list CampaignSection)
  : list (bool * CampaignSection) :=
  match l with
  | [] => []
  | s :: l' =>
      match budget with
      | S b =>
          if inb (section_id s) key_sections
          then (true, s) :: mark_sample b l'
          else (false, s) :: mark_sample budget l'
      | O => (false, s) :: mark_sample O l'
      end
  end.

(** The loop of [_generate_section_images]; an exception ends it, and is
    swallowed by the enclosing [try]. An image is appended only [if
    cached_image:], that is for a path that is not empty. *)
Fixpoint add_images (campaign_data : Campaign) (now : Z)
    (l : list (bool * CampaignSection)) : list CampaignSection :=
  match l with
  | [] => []
  | (selected, s) :: l' =>
      if selected && inb (section_id s) illustrated_sections then
        match section_image out campaign_data (section_id s) with
        | Raise _ => s :: List.map snd l'
        | Ok None => s :: add_images campaign_data now l'
        | Ok (Some path) =>
            if negb (String.eqb path "") then
              add_image s (PDict [ ("path", PStr path);
                                   ("type", PStr "section_illustration");
                                   ("generation_time", PInt now) ])
              :: add_images campaign_data now l'
            else s :: add_images campaign_data now l'
        end
      else s :: add_images campaign_data now l'
  end.

Definition _generate_section_images (campaign : Campaign) (mode : string) : M Campaign :=
  now <- observe clock ;;
  let marked :=
    if String.eqb mode "sample" then mark_sample 3 (sections campaign)
    else List.map (fun s => (true, s)) (sections campaign) in
  ret (set_sections campaign (add_images campaign now marked)).

(** [QualityScore(v)]: the value must lie between 0 and 5. *)
Definition QualityScore (v : pyval) : result float :=
  let check := fun f : float =>
    if (0 <=? f)%float && (f <=? 5)%float then Ok f
    else Raise (OtherError "Quality score must be between 0 and 5") in
  match v with
  | PFloat f => check f
  | PInt z =>
      if (0 <=? z)%Z && (z <=? 5)%Z
      then Ok (PrimFloat.of_uint63 (Uint63.of_Z z))
      else Raise (OtherError "Quality score must be between 0 and 5")
  | PBool b => Ok (if b then 1%float else 0%float)
  | _ => Raise (OtherError "'<=' not supported")
  end.

(** [_calculate_overall_quality_score]: a result that is no dict makes
    [.get] raise, and the default score is returned. *)
Definition _calculate_overall_quality_score (campaign : Campaign) : M pyval :=
  validation_result <-
    AI.validate_content_quality (provider out) (ai_service self) campaign
                                "campaign" ;;
  match validation_result with
  | PDict d => ret (get_default "overall_score" d (PFloat 3.5%float))
  | _ => ret (PFloat 3.5%float)
  end.

(** Lines 188-217 of [generate_campaign]: the final integrity pass, the
    status and score, and the metrics. *)
Definition finalize (campaign : Campaign) : M Campaign :=
  match Watchdog.validate_entire_campaign (content_integrity_watchdog self)
                                          campaign with
  | Raise e =>
      if is_ContentIntegrityError e then
        raise (ContentIntegrityError
          ("Generated campaign contains mock/placeholder content: " ++ message e))
      else raise e
  | Ok _ =>
      let campaign := set_status campaign COMPLETED in
      final_score <- _calculate_overall_quality_score campaign ;;
      score <- lift (QualityScore final_score) ;;
      let campaign := set_quality_score campaign score in
      on_monitor (fun m =>
        Monitor.track_metric m Monitor.GENERATION_TIME
          (Monitor.Float (generation_time out)) "campaign") ;;;
      on_monitor (fun m => Monitor.track_quality_score m "campaign" score) ;;;
      ret campaign
  end.

(** Lines 80-186 of [generate_campaign]: everything up to the assembled
    campaign. *)
Definition assemble (campaign_id : string) (r : Request) : M Campaign :=
  (* [validate_preferences] cannot raise on the preferences built here *)
  preferences <- lift (_create_preferences_from_params r) ;;
  concept <- obtain_concept preferences ;;
  story_arcs <- _generate_story_arcs concept (req_mode r) ;;
  key_npcs <- _generate_key_npcs concept (req_mode r) ;;
  key_locations <- _generate_key_locations concept (req_mode r) ;;
  campaign <- lift (new_campaign campaign_id concept r story_arcs key_npcs
                                 key_locations preferences) ;;
  lift (validate_campaign_data campaign) ;;;
  cover_image <- lift (cover_image out concept) ;;
  let campaign :=
    match cover_image with
    | Some path => if negb (String.eqb path "") then set_cover campaign path
                   else campaign
    | None => campaign
    end in
  campaign <- _generate_all_sections campaign (req_mode r) ;;
  _generate_section_images campaign (req_mode r).

(** [generate_campaign], returning the campaign object along with the
    identifier the source returns. The outer [except] records the failure
    and re-raises. *)
Definition generate_campaign (r : Request) : M (string * Campaign) :=
  let campaign_id := uuid4 out in
  try_except
    (campaign <- assemble campaign_id r ;;
     campaign <- finalize campaign ;;
     ret (campaign_id, campaign))
    (fun e =>
       on_monitor (fun m =>
         Monitor.track_metric m Monitor.ERROR_RATE (Monitor.Int 1) "campaign") ;;;
       raise e).

End WithOutside.

End Orchestrator.

(** ** Concrete inputs used by the examples *)

Module Scenarios.
Import Effects.

(** A 160-character text of 60 distinct words. *)
Definition npc_text : string :=
  "a b c d e f g h i j k l m n o p q r s aa ab ac ad ae af ag ah ai aj ak al am an ao ap aq ar as at au av aw ax ay az ba bb bc bd be bf bg bh bi bj bk bl bm bn bo".

(** A refusal of 348 characters; it contains four of the fallback phrases
    of [ContentVerifier] and none of the watchdog's forbidden patterns. *)
Definition apology : string :=
  "I'm sorry, I cannot assist with this request. I apologize, but I am unable to write the material you asked for right now. As an AI language model I must decline, and I cannot generate, create or provide this kind of text. Please rephrase the request or try again later, and accept my sincere apologies for the inconvenience this refusal causes you.".

Definition short_apology : string :=
  "I'm sorry, I cannot help with that request.".

Definition good_title : string :=
  "The Shattered Crown of the Ember Coast and the Long Road Through the Drowned Marches to the City of Bells".

Definition good_description : string :=
  "A band of unlikely heroes follows a broken crown across a drowned land, bargaining with river spirits and exiled lords before winter closes the passes.".

(** A concept that passes [validate_campaign_concept]. *)
Definition good_concept : pyval :=
  PDict [ ("title", PStr good_title); ("description", PStr good_description);
          ("level_range", PStr "1-5") ].

(** What [_parse_campaign_concept_response] returns for text without any
    of the fields it looks for. *)
Definition default_concept : pyval :=
  PDict [ ("title", PStr "Generated Campaign");
          ("subtitle", PStr "A D&D 5e Adventure");
          ("description", PStr "A campaign generated based on your preferences");
          ("level_range", PStr "1-5") ].

Definition failing : ApiReply := mkReply 1%float (ApiError "connection timed out").

Definition says (text : string) : ApiReply :=
  mkReply 1%float (ApiMessage text 120 80).

(** A generator that answers every call with [reply]. *)
Definition constant_provider (reply : ApiReply) : AI.Provider :=
  AI.mkProvider (fun _ _ => reply)
    (fun _ _ _ _ => "section prompt") (fun _ => "concept prompt")
    (fun _ => default_concept) (fun _ _ => "story arcs prompt")
    (fun _ _ => "npcs prompt") (fun _ _ => "locations prompt")
    (fun _ _ => "quality prompt") (fun _ => None) 0%float.

Definition outside (reply : ApiReply) : Orchestrator.Outside :=
  Orchestrator.mkOutside (fun key => key) (constant_provider reply)
    "campaign-1" (fun _ => 42%Z) (fun _ => Ok None) (fun _ _ => Ok None)
    12%float.

Definition service : AI.ClaudeAIService := AI.mkAI true true (Watchdog.init true).

Definition orchestrator : Orchestrator.CompleteCampaignGenerationService :=
  Orchestrator.mkOrchestrator service Cache.init (Watchdog.init true).

Definition request : Orchestrator.Request :=
  Orchestrator.mkRequest "fantasy" "medium" "small" 1 "short" "user-1" None
                         "production".

Definition preferences : PlayerPreferences :=
  mkPreferences (Some "fantasy") (Some "medium") (Some "short") None.

Definition campaign : Campaign :=
  mkCampaign "campaign-1" (PStr good_title) (PStr good_description)
    [Orchestrator.basic_story_arc] Orchestrator.minimal_npcs
    Orchestrator.minimal_locations 1 [] None GENERATING 3.5%float
    (Some preferences).

(** An empty cache directory, and one that holds [good_concept] under the
    concept key of [preferences]. *)
Definition fresh : World := mkWorld ∅ 0 [] (Monitor.init 3).

Definition concept_path : string :=
  Orchestrator.concept_path (outside failing) orchestrator preferences.

(** A cache directory that holds a placeholder text for the introduction
    of [campaign]. *)
Definition stale_text : string := "this is placeholder text".

Definition stale : World :=
  mkWorld (<[Cache._get_cache_path (fun key => key) Cache.init
               (Orchestrator.section_cache_key "introduction" campaign)
             := Cache.Entry (Cache.mkData (PStr stale_text) 0 3600 3600)]> ∅)
          100 [] (Monitor.init 3).

Definition with_concept : World :=
  mkWorld (<[concept_path := Cache.Entry (Cache.mkData good_concept 0 3600 3600)]> ∅)
          100 [] (Monitor.init 3).

End Scenarios.

(** ** The range of [datetime] and [timedelta] *)

Module Datetime.

(** Times are whole seconds on the clock that [datetime.now()] reads,
    counted from 1970-01-01T00:00:00. A [timedelta] holds at most
    999999999 days in either direction (its constructor raises
    [OverflowError] beyond), and a [datetime] lies in the years 1 to 9999
    (an addition that leaves them raises [OverflowError]). *)
Definition max_days : Z := 999999999.
Definition timedelta_min : Z := (- max_days * 86400)%Z.
Definition timedelta_max : Z := (max_days * 86400 + 86399)%Z.
Definition datetime_min : Z := (-62135596800)%Z.
Definition datetime_max : Z := 253402300799%Z.

(** [timedelta(days=n)] returns. *)
Definition timedelta_days_returns (n : Z) : bool :=
  ((- max_days <=? n) && (n <=? max_days))%Z.

(** [timedelta(seconds=n)] returns. *)
Definition timedelta_seconds_returns (n : Z) : bool :=
  ((timedelta_min <=? n) && (n <=? timedelta_max))%Z.

(** [now + timedelta(seconds=n)] returns. *)
Definition plus_seconds_returns (now n : Z) : bool :=
  timedelta_seconds_returns n
  && ((datetime_min <=? now + n) && (now + n <=? datetime_max))%Z.

End Datetime.

(** ** [ImageCacheService] *)

Module ImageCache.

(** One entry of the metadata file. A field is [None] when the key is
    missing from the entry; a timestamp that is present is a well-formed
    time, in seconds on the clock that [datetime.now()] reads. *)
Record Entry : Type := mkEntry {
  e_prompt : option string;
  e_size : option string;
  e_model : option string;
  e_quality : option string;
  e_timestamp : option Z;
  e_original_path : option string;
  e_cache_path : option string
}.

(** The files on disk (path to content) and [self.metadata]. *)
Record State : Type := mkState {
  disk : gmap string string;
  metadata : gmap string Entry
}.

Record ImageCacheService : Type := mkCache { cache_dir : string }.

(** [__init__(cache_dir="cache/images")] *)
Definition init : ImageCacheService := mkCache "cache/images".

(** [timedelta(days=n)] in seconds, for an [n] on which the constructor
    returns ([Datetime.timedelta_days_returns]), as the default of 30. *)
Definition days (n : Z) : Z := (n * 86400)%Z.

Section WithHash.

(** [hashlib.sha256(content.encode()).hexdigest()] *)
Variable sha256 : string -> string.

Variable self : ImageCacheService.

Definition _generate_cache_key (prompt size model quality : string) : string :=
  sha256 (prompt ++ "_" ++ size ++ "_" ++ model ++ "_" ++ quality).

Definition _get_cache_path (cache_key : string) : string :=
  cache_dir self ++ "/" ++ cache_key ++ ".png".

Definition _is_cache_valid (cache_entry : Entry) (max_age_days : Z) (now : Z) : bool :=
  match e_timestamp cache_entry with
  | None => false
  | Some cache_time => (now - cache_time <? days max_age_days)%Z
  end.

(** Removing the file and the metadata entry is taken to succeed. *)
Definition remove_cached_image (st : State) (cache_key : string) : State :=
  mkState (delete (_get_cache_path cache_key) (disk st))
          (delete cache_key (metadata st)).

(** [a != b] between a stored field and a requested parameter. *)
Definition differs (stored : option string) (wanted : string) : bool :=
  match stored with
  | Some s => negb (String.eqb s wanted)
  | None => true
  end.

Definition get_cached_image (st : State) (now : Z)
    (prompt size model quality : string) : option string * State :=
  let cache_key := _generate_cache_key prompt size model quality in
  let cache_path := _get_cache_path cache_key in
  match disk st !! cache_path with
  | None => (None, st)
  | Some _ =>
      match metadata st !! cache_key with
      | None => (None, st)
      | Some cache_entry =>
          if negb (_is_cache_valid cache_entry 30 now) then
            (None, remove_cached_image st cache_key)
          else if differs (e_prompt cache_entry) prompt
                  || differs (e_size cache_entry) size
                  || differs (e_model cache_entry) model
                  || differs (e_quality cache_entry) quality
          then (None, st)
          else (Some cache_path, st)
      end
  end.

(** [cache_image]: [shutil.copy2] raises when the source is missing or is
    the destination itself, and then the original path is returned and
    nothing is recorded. *)
Definition cache_image (st : State) (now : Z)
    (image_path prompt size model quality : string) : string * State :=
  let cache_key := _generate_cache_key prompt size model quality in
  let cache_path := _get_cache_path cache_key in
  match disk st !! image_path with
  | Some data =>
      if String.eqb image_path cache_path then (image_path, st)
      else
        (cache_path,
         mkState (<[cache_path := data]> (disk st))
                 (<[cache_key := mkEntry (Some prompt) (Some size) (Some model)
                                         (Some quality) (Some now)
                                         (Some image_path) (Some cache_path)]>
                    (metadata st)))
  | None => (image_path, st)
  end.

(** [clear_expired_cache]: the keys are collected first, then removed one
    by one. *)
Definition expired_keys (st : State) (max_age_days : Z) (now : Z) : list string :=
  List.map fst
    (List.filter (fun kv => negb (_is_cache_valid (snd kv) max_age_days now))
                 (map_to_list (metadata st))).

Definition clear_expired_cache (st : State) (max_age_days : Z) (now : Z) : State :=
  fold_left remove_cached_image (expired_keys st max_age_days now) st.

End WithHash.

End ImageCache.

(** ** [ContentIntegrityWatchdog.validate_batch_content] *)

Module Batch.
Import Watchdog.

(** One item of the batch: a dict whose ["type"] entry, when there is
    one, is a [str]. A field is [None] when the key is missing. *)
Record Item : Type := mkItem {
  item_type : option string;
  item_content : option pyval
}.

Inductive Status : Type := passed_status | failed_status.

(** One dict of [results["details"]]; [d_error] is the ["error"] entry,
    which only a failed item has. *)
Record Detail : Type := mkDetail {
  d_index : nat;
  d_type : string;
  d_status : Status;
  d_error : option string;
  d_length : nat
}.

Record Results : Type := mkResults {
  passed : nat;
  failed : nat;
  details : list Detail
}.

(** [item.get("type", "unknown")] and [item.get("content", "")] *)
Definition content_type (item : Item) : string :=
  match item_type item with Some t => t | None => "unknown" end.
Definition content_of (item : Item) : pyval :=
  match item_content item with Some c => c | None => PStr "" end.

(** The validation that the [try] block runs on one item. *)
Definition validate_item (w : ContentIntegrityWatchdog) (item : Item)
  : result bool :=
  if String.eqb (content_type item) "image_prompt"
  then validate_image_prompt w (content_of item)
  else validate_text_content w (content_type item) (content_of item).

(** The loop over [enumerate(content_batch)], from index [i] on. Only a
    [ContentIntegrityError] is caught. *)
Fixpoint batch_loop (w : ContentIntegrityWatchdog) (i : nat)
    (items : list Item) (results : Results) : result Results :=
  match items with
  | [] => Ok results
  | item :: rest =>
      match validate_item w item with
      | Ok _ =>
          batch_loop w (S i) rest
            (mkResults (passed results + 1) (failed results)
               (List.app (details results)
                  [mkDetail i (content_type item) passed_status None
                            (len (content_of item))]))
      | Raise e =>
          if is_ContentIntegrityError e then
            batch_loop w (S i) rest
              (mkResults (passed results) (failed results + 1)
                 (List.app (details results)
                    [mkDetail i (content_type item) failed_status
                              (Some (message e)) (len (content_of item))]))
          else Raise e
      end
  end.

Definition validate_batch_content (w : ContentIntegrityWatchdog)
    (content_batch : list Item) : result Results :=
  if negb (is_active w) then
    Ok (mkResults (List.length content_batch) 0 [])
  else batch_loop w 0 content_batch (mkResults 0 0 []).

End Batch.

(** ** [WatchdogService]: fallback check and error summary *)

Module Reports.
Import Monitor.

(** [type(v).__name__] *)
Definition type_name (v : pyval) : string :=
  match v with
  | PNone => "NoneType"
  | PBool _ => "bool"
  | PInt _ => "int"
  | PFloat _ => "float"
  | PStr _ => "str"
  | PList _ => "list"
  | PDict _ => "dict"
  end.

(** [p.lower() in content.lower()] *)
Definition occurs_in (content_text p : string) : bool :=
  contains (lower p) (lower content_text).

(** The [except] clause of [check_for_fallbacks]: it records the
    exception and re-raises it. *)
Definition reraise (s : WatchdogService) (e : exn)
  : result (pyval * bool) * WatchdogService :=
  (Raise e,
   _create_alert s ("Exception in generation function: " ++ message e)
                 ERROR "generator").

(** The two loops over the phrases and the patterns. *)
Definition scan (s : WatchdogService) (result_value : pyval)
    (content_text : string) : result (pyval * bool) * WatchdogService :=
  if existsb (occurs_in content_text) fallback_phrases then
    (Ok (result_value, true),
     _create_alert s "Fallback detected in generation" ERROR "generator")
  else if existsb (occurs_in content_text) placeholder_patterns then
    (Ok (result_value, true),
     _create_alert s "Placeholder detected in generation" ERROR "generator")
  else (Ok (result_value, false), s).

(** [check_for_fallbacks(generation_func, *args, **kwargs)], given what
    the call of [generation_func] did: it returned a value or raised. A
    ["content"] entry that is no [str] has no [lower], and the
    [AttributeError] goes the way of any exception. *)
Definition check_for_fallbacks (s : WatchdogService) (call : result pyval)
  : result (pyval * bool) * WatchdogService :=
  match call with
  | Raise e => reraise s e
  | Ok (PStr content_text) => scan s (PStr content_text) content_text
  | Ok (PDict d) =>
      match assoc "content" d with
      | Some (PStr content_text) => scan s (PDict d) content_text
      | Some other =>
          reraise s (OtherError ("'" ++ type_name other ++
                                 "' object has no attribute 'lower'"))
      | None => (Ok (PDict d, false), s)
      end
  | Ok other => (Ok (other, false), s)
  end.

(** [m.value > 0] *)
Definition positive (v : number) : bool :=
  match v with
  | Int z => (0 <? z)%Z
  | Float f => (0 <? f)%float
  end.

Definition is_error_rate (m : Metric) : bool :=
  match metric_type m with ERROR_RATE => true | _ => false end.

(** [[m for m in self.metrics if m.metric_type == MetricType.ERROR_RATE]] *)
Definition error_metrics (s : WatchdogService) : list Metric :=
  List.filter is_error_rate (metrics s).

(** [sum(1 for m in ms if m.value > 0)] *)
Definition count_errors (ms : list Metric) : nat :=
  List.length (List.filter (fun m => positive (value m)) ms).

(** The counts of one entry of ["error_by_component"]. *)
Record ComponentErrors : Type := mkComponentErrors {
  samples : nat;
  component_error_count : nat
}.

(** The entries of [get_error_summary()] that are counts; the two rates
    are quotients of these. [error_by_component] is given as the lookup
    of a component: it has an entry when an error-rate metric names it. *)
Record ErrorSummary : Type := mkErrorSummary {
  total_errors : nat;
  total_samples : nat;
  error_by_component : string -> option ComponentErrors
}.

Definition get_error_summary (s : WatchdogService) : ErrorSummary :=
  let error_metrics := error_metrics s in
  mkErrorSummary
    (count_errors error_metrics)
    (List.length error_metrics)
    (fun comp =>
       let component_metrics :=
         List.filter (fun m => String.eqb (component m) comp) error_metrics in
       match component_metrics with
       | [] => None
       | _ => Some (mkComponentErrors (List.length component_metrics)
                                      (count_errors component_metrics))
       end).

(** One call of a method of the service that changes its state, with
    its arguments; for [check_for_fallbacks], what the generation
    function did. *)
Inductive Operation : Type :=
| TrackMetric : MetricType -> number -> string -> Operation
| TrackApiCall : string -> Z -> float -> option float -> Operation
| VerifyAiResponse : string -> string -> string -> Operation
| TrackQualityScore : string -> float -> Operation
| CreateAlert : string -> AlertSeverity -> string -> Operation
| CheckForFallbacks : result pyval -> Operation.

Definition perform (s : WatchdogService) (op : Operation) : WatchdogService :=
  match op with
  | TrackMetric t v comp => track_metric s t v comp
  | TrackApiCall api tokens time cost => track_api_call s api tokens time cost
  | VerifyAiResponse c content_type src =>
      snd (verify_ai_response s c content_type src)
  | TrackQualityScore comp score => track_quality_score s comp score
  | CreateAlert msg sev src => _create_alert s msg sev src
  | CheckForFallbacks call => snd (check_for_fallbacks s call)
  end.

(** A sequence of calls, oldest first. *)
Definition perform_all (s : WatchdogService) (ops : list Operation)
  : WatchdogService :=
  fold_left perform ops s.

End Reports.

(** ** The image pass of the orchestrator *)

Module ImagePass.


End ImagePass.

(** ** Further scenarios *)

Module MoreScenarios.
Import Effects.

(** The preferences of a request that leaves the theme open. *)
Definition any_theme_request : Orchestrator.Request :=
  Orchestrator.mkRequest "any" "medium" "small" 1 "short" "user-1" None
                         "production".

Definition any_theme_preferences : PlayerPreferences :=
  mkPreferences None (Some "medium") (Some "short") None.

(** A cache directory that holds [Scenarios.good_concept] under the concept
    key of [any_theme_preferences]. *)
Definition with_any_theme_concept : World :=
  mkWorld (<[Orchestrator.concept_path (Scenarios.outside Scenarios.failing)
               Scenarios.orchestrator any_theme_preferences
             := Cache.Entry (Cache.mkData Scenarios.good_concept 0 3600 3600)]> ∅)
          100 [] (Monitor.init 3).

(** A request with custom instructions of 42 characters. *)
Definition short_instructions : string :=
  "Include a dragon and a haunted lighthouse.".

Definition instructed_request : Orchestrator.Request :=
  Orchestrator.mkRequest "fantasy" "medium" "small" 1 "short" "user-1"
                         (Some short_instructions) "production".

End MoreScenarios.

(** * Properties *)

(** ** The integrity watchdog *)

Module WatchdogProps.
Import Watchdog.

Lemma min_length_ge_100 (section_name : string) : 100 <= min_length section_name.
Proof.
  unfold min_length, get_default, min_section_lengths. simpl.
  repeat (destruct (String.eqb _ _); [lia |]). lia.
Qed.

Lemma first_forbidden_None (ps : list string) (t : string) :
  first_forbidden ps t = None <->
  (forall p, In p ps -> contains (lower p) t = false).
Proof.
  unfold first_forbidden. split.
  - intros H p Hp. exact (find_none _ _ H p Hp).
  - induction ps as [| p ps IH]; intros H; simpl; [reflexivity |].
    rewrite (H p (or_introl eq_refl)). apply IH.
    intros q Hq. apply H. right. exact Hq.
Qed.

Lemma first_forbidden_Some (ps : list string) (t p : string) :
  first_forbidden ps t = Some p -> In p ps /\ contains (lower p) t = true.
Proof.
  unfold first_forbidden. intros H.
  exact (find_some (fun q => contains (lower q) t) ps H).
Qed.

(** [validate_text_content] returns [True] or raises. *)
Lemma validate_text_content_returns_True (w : ContentIntegrityWatchdog)
    (section_name : string) (c : pyval) (b : bool) :
  validate_text_content w section_name c = Ok b -> b = true.
Proof.
  unfold validate_text_content. intros Hv.
  repeat match type of Hv with
         | (if ?c then _ else _) = _ => destruct c; try discriminate
         | match ?c with _ => _ end = _ => destruct c; try discriminate
         end; congruence.
Qed.


Lemma validate_text_content_Ok_iff (section_name text : string) :
  validate_text_content (init true) section_name (PStr text) = Ok true <->
  text <> "" /\
  (forall p, In p forbidden_patterns -> contains (lower p) (lower text) = false) /\
  min_length section_name <= String.length (strip text) /\
  5 <= distinct (split (lower text)).
Proof.
  unfold validate_text_content.
  cbn [is_active init negb truthy is_str str_value].
  destruct (String.eqb_spec text "") as [-> | Hne]; cbn [negb orb].
  - split; [discriminate | intros [H _]; congruence].
  - destruct (first_forbidden forbidden_patterns (lower text)) as [p |] eqn:Hf.
    + split; [discriminate |]. intros (_ & Hall & _).
      apply first_forbidden_Some in Hf. destruct Hf as [Hin Hc].
      rewrite (Hall p Hin) in Hc. discriminate.
    + rewrite first_forbidden_None in Hf.
      destruct (Nat.ltb_spec (String.length (strip text)) (min_length section_name)).
      * split; [discriminate | intros (_ & _ & ? & _); lia].
      * destruct (Nat.ltb_spec (distinct (split (lower text))) 5).
        -- split; [discriminate | intros (_ & _ & _ & ?); lia].
        -- split; [intros _; repeat split; assumption | reflexivity].
Qed.



(** C10. A watchdog built with [is_active = False], or switched off with
    [set_active(False)], accepts everything: [validate_text_content],
    [validate_image_prompt], [validate_entire_campaign] and
    [validate_campaign_concept] all return [True] on every input, the empty
    string and text with a forbidden pattern included. *)
Theorem inactive_watchdog_accepts_everything :
  forall w : ContentIntegrityWatchdog,
    (w = init false \/ exists w0, w = set_active w0 false) ->
    (forall section_name content,
        validate_text_content w section_name content = Ok true) /\
    (forall image_prompt, validate_image_prompt w image_prompt = Ok true) /\
    (forall campaign, validate_entire_campaign w campaign = Ok true) /\
    (forall concept, validate_campaign_concept w concept = Ok true) /\
    validate_text_content w "description" (PStr "") = Ok true /\
    validate_text_content w "description" (PStr "this is placeholder text")
      = Ok true.
Proof.
  intros w Hw.
  assert (Hoff : is_active w = false).
  { destruct Hw as [-> | [w0 ->]]; reflexivity. }
  unfold validate_text_content, validate_image_prompt,
    validate_entire_campaign, validate_campaign_concept.
  rewrite Hoff. simpl. repeat split; reflexivity.
Qed.

Lemma inactive_watchdog_accepts_everything_witness :
  validate_text_content (set_active (init true) false) "npc" (PStr "mock")
    = Ok true.
Proof.
  apply (inactive_watchdog_accepts_everything (set_active (init true) false)).
  right. exists (init true). reflexivity.
Defined.

End WatchdogProps.

(** ** The content cache *)

Module CacheProps.
Import Cache.

Section WithHash.

Variable md5 : string -> string.
Variable self : ContentCacheService.

(** Reading back what was just written. *)
Lemma get_set (fs : gmap string CacheFile) (now : Z) (k : string)
    (v : pyval) (ttl : Z) :
  fst (set md5 self fs now k v ttl) = true /\
  get md5 self (snd (set md5 self fs now k v ttl)) k = v.
Proof.
  unfold set, get. cbn [fst snd]. rewrite lookup_insert_eq. split; reflexivity.
Qed.

(** Writing one key leaves the files of other paths alone. *)
Lemma set_other (fs : gmap string CacheFile) (now : Z) (k : string)
    (v : pyval) (ttl : Z) (path : string) :
  path <> _get_cache_path md5 self k ->
  snd (set md5 self fs now k v ttl) !! path = fs !! path.
Proof.
  intros Hne. unfold set. cbn [snd]. rewrite lookup_insert_ne; [reflexivity |].
  intros Heq. apply Hne. symmetry. exact Heq.
Qed.

Lemma delete_removes (fs : gmap string CacheFile) (k : string) :
  get md5 self (snd (delete md5 self fs k)) k = PNone /\
  exists_ md5 self (snd (delete md5 self fs k)) k = false.
Proof.
  unfold delete, get, exists_. cbn [snd]. rewrite lookup_delete_eq.
  split; reflexivity.
Qed.

End WithHash.

(** C1 (the code departs from it). After [set(k, v, ttl)] at time [now],
    a [get(k)] returns [v] whatever the time: once the ttl has elapsed
    [is_expired(k)] is true, and still [get(k)] returns [v] and the file
    stays where it is. The claim's first half (an immediate [get] returns
    [v]) holds; its second half (a miss after the ttl, the entry removed)
    does not. *)
Theorem get_serves_expired_entry :
  forall (md5 : string -> string) (self : ContentCacheService)
         (fs : gmap string CacheFile) (now later : Z) (k : string)
         (v : pyval) (ttl : Z),
    (now + ttl < later)%Z ->
    let fs' := snd (set md5 self fs now k v ttl) in
    is_expired md5 self fs' later k = true /\
    get md5 self fs' k = v /\
    exists_ md5 self fs' k = true.
Proof.
  intros md5 self fs now later k v ttl Hlate fs'. subst fs'.
  unfold set, is_expired, get, exists_. cbn [snd].
  rewrite lookup_insert_eq. cbn [expires_at content].
  repeat split. apply Z.ltb_lt. exact Hlate.
Qed.

Lemma get_serves_expired_entry_witness :
  let fs' := snd (set (fun k => k) init ∅ 0 "k"
                      (PStr "a sufficiently long and varied piece of content")
                      1) in
  is_expired (fun k => k) init fs' 2 "k" = true /\
  get (fun k => k) init fs' "k"
    = PStr "a sufficiently long and varied piece of content" /\
  exists_ (fun k => k) init fs' "k" = true.
Proof.
  apply (get_serves_expired_entry (fun k => k) init ∅ 0 2 "k"
           (PStr "a sufficiently long and varied piece of content") 1).
  lia.
Defined.

End CacheProps.

(** ** The monitoring service *)

Module MonitorProps.
Import Monitor.

Lemma sum_values_insert (d : gmap string nat) (k : string) (n : nat) :
  d !! k = None -> sum_values (<[k := n]> d) = n + sum_values d.
Proof.
  intros Hk. unfold sum_values.
  rewrite map_fold_insert_L; [reflexivity | | exact Hk].
  intros. lia.
Qed.

Lemma sum_values_lookup (d : gmap string nat) (k : string) (n : nat) :
  d !! k = Some n -> sum_values d = n + sum_values (base.delete k d).
Proof.
  intros Hk. unfold sum_values.
  rewrite (map_fold_delete_L _ _ k n d); [reflexivity | | exact Hk].
  intros. lia.
Qed.

Lemma sum_values_bump (d : gmap string nat) (k : string) :
  sum_values (match d !! k with
              | Some n => <[k := n + 1]> d
              | None => <[k := 1]> d
              end) = S (sum_values d).
Proof.
  destruct (d !! k) as [n |] eqn:Hk.
  - rewrite (sum_values_lookup d k n Hk).
    rewrite <- insert_delete_eq.
    rewrite sum_values_insert; [lia | apply lookup_delete_eq].
  - rewrite sum_values_insert; [lia | exact Hk].
Qed.

Lemma api_calls_track_api_call (s : WatchdogService) (api : string) (t : Z)
    (rt : float) (c : option float) :
  api_calls (track_api_call s api t rt c) =
  match api_calls s !! api with
  | Some n => <[api := n + 1]> (api_calls s)
  | None => <[api := 1]> (api_calls s)
  end.
Proof. unfold track_api_call. destruct c; reflexivity. Qed.

(** [total_calls] counts the invocations, whatever their arguments. *)
Lemma total_calls_counts (cs : list Call) (s : WatchdogService) :
  total_calls (get_api_usage_summary (track_all s cs)) =
  total_calls (get_api_usage_summary s) + List.length cs.
Proof.
  revert s. induction cs as [| c cs IH]; intros s.
  - simpl. lia.
  - unfold track_all in *. cbn [fold_left List.length]. rewrite IH.
    unfold get_api_usage_summary, track. cbn [total_calls].
    rewrite api_calls_track_api_call, sum_values_bump. lia.
Qed.

Lemma total_track_api_call (s : WatchdogService) (api : string) (t : Z)
    (rt : float) (c : option float) :
  api <> "total" ->
  total (track_api_call s api t rt c) =
  match c with Some x => (total s + x)%float | None => total s end.
Proof.
  intros Hapi. unfold total, track_api_call. destruct c as [x |]; [| reflexivity].
  cbn [cost_estimates with_cost_estimates track_metric with_metrics
       with_api_calls].
  unfold bump at 1. rewrite lookup_insert_eq. cbn [default].
  destruct (cost_estimates s !! api) eqn:Hl.
  - unfold bump. rewrite lookup_insert_ne; [reflexivity | exact Hapi].
  - rewrite lookup_insert_ne; [reflexivity | exact Hapi].
Qed.

(** For API names other than ["total"], the total cost is the sum of the
    cost arguments. *)
Lemma total_cost_sums (cs : list Call) (s : WatchdogService) :
  Forall (fun c => call_api c <> "total") cs ->
  total_estimated_cost (get_api_usage_summary (track_all s cs)) =
  sum_costs (total s) cs.
Proof.
  revert s. induction cs as [| c cs IH]; intros s Hall.
  - reflexivity.
  - inversion Hall as [| ? ? Hc Hcs]; subst.
    unfold track_all in *. cbn [fold_left]. rewrite (IH _ Hcs).
    unfold sum_costs. cbn [fold_left]. unfold track.
    rewrite (total_track_api_call _ _ _ _ _ Hc). reflexivity.
Qed.

(** C9 (the code departs from it). On a fresh service, one call
    [track_api_call("providerA", 500, 2.5, 0.02)] gives [total_calls = 1]
    and a total cost of [0.02], and [total_calls] always equals the number
    of invocations; but one call [track_api_call("total", 1, 1.0, 0.5)]
    gives a total cost of [1.0], twice the cost supplied, because the name
    collides with the key that holds the running total. *)
Theorem total_cost_doubles_for_api_named_total :
  (forall cs : list Call,
      total_calls (get_api_usage_summary (track_all (init 3) cs))
        = List.length cs) /\
  (let s := track_api_call (init 3) "providerA" 500 2.5%float (Some 0.02%float) in
   total_calls (get_api_usage_summary s) = 1 /\
   total_estimated_cost (get_api_usage_summary s) = 0.02%float) /\
  (let s := track_api_call (init 3) "total" 1 1%float (Some 0.5%float) in
   total_calls (get_api_usage_summary s) = 1 /\
   total_estimated_cost (get_api_usage_summary s) = 1%float /\
   total_estimated_cost (get_api_usage_summary s) <> 0.5%float).
Proof.
  split; [| split].
  - intros cs. rewrite total_calls_counts. vm_compute. reflexivity.
  - vm_compute. split; reflexivity.
  - vm_compute. repeat split. intros H. discriminate H.
Qed.

End MonitorProps.

(** ** The generator client *)

Module AIProps.
Import Effects AI.

Ltac run :=
  unfold bind, ret, raise, try_except, when, on_monitor, update, lift,
    observe, call_client in *;
  cbn [fst snd] in *; cbv beta iota in *.

Section WithProvider.

Variable provider : Provider.
Variable self : ClaudeAIService.

(** Without a client the mock response comes back and nothing is sent. *)
Lemma call_without_client (prompt : string) (w : World) :
  client self = false ->
  exists w', _call_claude_api provider self prompt w = (Ok mock_response, w') /\
             sent w' = sent w /\ files w' = files w /\ clock w' = clock w.
Proof.
  intros Hc. unfold _call_claude_api. rewrite Hc. cbn [negb]. run.
  destruct (watchdog_service self); eexists; repeat split.
Qed.

(** A failing external call is answered by the fallback response. *)
Lemma call_failing (prompt msg : string) (w : World) :
  client self = true ->
  outcome (next_reply provider prompt w) = ApiError msg ->
  exists w', _call_claude_api provider self prompt w = (Ok fallback_response, w') /\
             sent w' = List.app (sent w) [prompt] /\ files w' = files w /\
             clock w' = clock w.
Proof.
  intros Hc Hr. unfold _call_claude_api. rewrite Hc. cbn [negb]. run.
  unfold next_reply in Hr. rewrite Hr. run.
  destruct (watchdog_service self); run; eexists; repeat split.
Qed.

(** Every call returns: the mock response, the fallback response, or the
    text of the message, which then passed the service's watchdog if that
    is active and the text has more than 50 characters once stripped. *)
Lemma call_returns (prompt : string) (w : World) :
  exists v w',
    _call_claude_api provider self prompt w = (Ok v, w') /\
    files w' = files w /\ clock w' = clock w /\
    (exists extra, sent w' = List.app (sent w) extra) /\
    (v = mock_response \/ v = fallback_response \/
     exists text i o,
       v = response_data text i o /\
       outcome (next_reply provider prompt w) = ApiMessage text i o /\
       (Watchdog.is_active (content_integrity_watchdog self) = true ->
        50 < String.length (strip text) ->
        Watchdog.validate_text_content (content_integrity_watchdog self)
          "ai_response" (PStr text) = Ok true)).
Proof.
  destruct (client self) eqn:Hc.
  2:{ destruct (call_without_client prompt w Hc) as (w' & H & Hs & Hf & Hk).
      exists mock_response, w'. repeat split; try assumption.
      - exists []. rewrite Hs. symmetry. apply app_nil_r.
      - left. reflexivity. }
  destruct (outcome (next_reply provider prompt w)) as [msg | text i o] eqn:Hr.
  { destruct (call_failing prompt msg w Hc Hr) as (w' & H & Hs & Hf & Hk).
    exists fallback_response, w'. repeat split; try assumption.
    - exists [prompt]. exact Hs.
    - right; left. reflexivity. }
  unfold next_reply in Hr.
  destruct (watchdog_service self) eqn:Hm;
    destruct (String.eqb text "") eqn:Hne;
    destruct (Watchdog.is_active (content_integrity_watchdog self)) eqn:Hact;
    destruct (50 <? String.length (strip text)) eqn:Hlen;
    destruct (Watchdog.validate_text_content (content_integrity_watchdog self)
                "ai_response" (PStr text)) as [b0 | e] eqn:Hv;
    try destruct (is_ContentIntegrityError e) eqn:He;
    unfold _call_claude_api; rewrite Hc; cbn [negb]; run; rewrite Hr;
    repeat (progress (rewrite ?Hm, ?Hne, ?Hact, ?Hlen, ?Hv, ?He;
                      cbn [negb andb fst snd]; run));
    eexists _, _; (split; [reflexivity |]);
    (repeat split; [exists [prompt]; reflexivity |]);
    try (right; left; reflexivity);
    right; right; exists text, i, o; (split; [reflexivity |]);
    (split; [first [reflexivity | exact Hr] |]);
    intros Hact' Hlong; try discriminate;
    try (apply Nat.ltb_ge in Hlen; lia);
    try (rewrite Hv; f_equal;
         exact (WatchdogProps.validate_text_content_returns_True _ _ _ _ Hv));
    try (apply String.eqb_eq in Hne; subst text; cbn in Hlong; lia).
Qed.

(** What [_parse_section_content_response] makes of the three kinds of
    response. *)
Lemma parse_response_data (text : string) (i o : Z) :
  _parse_section_content_response (response_data text i o) =
  if String.eqb text "" then "Content generation failed" else text.
Proof.
  unfold _parse_section_content_response, response_data, get_default.
  cbn [assoc String.eqb Ascii.eqb Bool.eqb].
  destruct (String.eqb text ""); cbn [negb andb]; [reflexivity |].
  destruct (negb (startswith "{" (strip text))); reflexivity.
Qed.

(** [generate] always returns, and leaves the cache alone. Its content is
    one of three fixed texts or the text of the message. *)
Lemma generate_returns (g : Generator) (campaign : Campaign)
    (ci : option string) (mode : string) (w : World) :
  exists content w',
    generate provider self g campaign ci mode w = (Ok content, w') /\
    files w' = files w /\ clock w' = clock w /\ content <> "" /\
    (content = "Mock Claude response - client not available" \/
     content = "Error generating content with Claude API" \/
     content = "Content generation failed" \/
     ((exists i o,
          outcome (next_reply provider
                     (section_prompt provider g campaign ci mode) w)
            = ApiMessage content i o) /\
      (Watchdog.is_active (content_integrity_watchdog self) = true ->
       50 < String.length (strip content) ->
       Watchdog.validate_text_content (content_integrity_watchdog self)
         "ai_response" (PStr content) = Ok true))).
Proof.
  unfold generate.
  destruct (call_returns (section_prompt provider g campaign ci mode) w)
    as (v & w' & Hrun & Hf & Hk & _ & Hv).
  run. rewrite Hrun.
  eexists _, w'. split; [reflexivity |]. split; [exact Hf |].
  split; [exact Hk |].
  destruct Hv as [-> | [-> | (text & i & o & -> & Hr & Hok)]].
  - split; [discriminate |]. left. reflexivity.
  - split; [discriminate |]. right; left. reflexivity.
  - rewrite parse_response_data. destruct (String.eqb_spec text "").
    + split; [discriminate |]. right; right; left. reflexivity.
    + split; [assumption |].
      right; right; right. split; [exists i, o; exact Hr | exact Hok].
Qed.

End WithProvider.

(** C2, as the claim states it, fails: when the external call raises,
    [generate_introduction] returns the fixed text "Error generating
    content with Claude API" as its content and raises nothing. *)
Lemma generate_returns_canned_text_on_failure :
  fst (generate (Scenarios.constant_provider Scenarios.failing)
                Scenarios.service generate_introduction Scenarios.campaign
                None "production" Scenarios.fresh)
    = Ok "Error generating content with Claude API" /\
  raises (fst (generate (Scenarios.constant_provider Scenarios.failing)
                 Scenarios.service generate_introduction Scenarios.campaign
                 None "production" Scenarios.fresh)) = false.
Proof. vm_compute. split; reflexivity. Qed.

(** C2, amended. When the external call raises, the generator client does
    not raise: [_call_claude_api] returns the fallback response and
    [generate] returns its fixed text "Error generating content with Claude
    API"; when no client is configured they return the mock response and
    its text "Mock Claude response - client not available". *)
Theorem failed_call_yields_fallback_text :
  forall (provider : Provider) (self : ClaudeAIService) (g : Generator)
         (campaign : Campaign) (ci : option string) (mode : string)
         (w : World),
    (client self = true ->
     (exists msg,
         outcome (next_reply provider
                    (section_prompt provider g campaign ci mode) w)
           = ApiError msg) ->
     fst (_call_claude_api provider self
            (section_prompt provider g campaign ci mode) w)
       = Ok fallback_response /\
     fst (generate provider self g campaign ci mode w)
       = Ok "Error generating content with Claude API") /\
    (client self = false ->
     fst (_call_claude_api provider self
            (section_prompt provider g campaign ci mode) w)
       = Ok mock_response /\
     fst (generate provider self g campaign ci mode w)
       = Ok "Mock Claude response - client not available").
Proof.
  intros provider self g campaign ci mode w. split.
  - intros Hc [msg Hr].
    destruct (call_failing provider self _ msg w Hc Hr) as (w' & Hrun & _).
    unfold generate. run. rewrite Hrun. split; reflexivity.
  - intros Hc.
    destruct (call_without_client provider self
                (section_prompt provider g campaign ci mode) w Hc)
      as (w' & Hrun & _).
    unfold generate. run. rewrite Hrun. split; reflexivity.
Qed.

Lemma failed_call_yields_fallback_text_witness :
  fst (generate (Scenarios.constant_provider Scenarios.failing)
                Scenarios.service generate_setting Scenarios.campaign
                None "sample" Scenarios.fresh)
    = Ok "Error generating content with Claude API".
Proof.
  apply (failed_call_yields_fallback_text
           (Scenarios.constant_provider Scenarios.failing) Scenarios.service
           generate_setting Scenarios.campaign None "sample" Scenarios.fresh).
  - reflexivity.
  - exists "connection timed out". reflexivity.
Defined.

(** C3, as the claim states it, fails: with a generator that times out on
    every call, one [_call_claude_api] sends the prompt once, not twice,
    and returns the fallback response instead of raising. *)
Lemma no_retry_after_failure :
  let '(r, w') := _call_claude_api (Scenarios.constant_provider Scenarios.failing)
                    Scenarios.service "a prompt" Scenarios.fresh in
  sent w' = ["a prompt"] /\ sent w' <> ["a prompt"; "a prompt"] /\
  r = Ok fallback_response.
Proof. vm_compute. repeat split. intros H. discriminate H. Qed.

(** C3, amended. On a failure of the external call the generator client
    makes that one call and no other (the prompt is sent exactly once, there
    is no retry), and it returns the fallback response to the caller
    instead of surfacing an error. *)
Theorem failed_call_is_not_retried :
  forall (provider : Provider) (self : ClaudeAIService) (prompt msg : string)
         (w : World),
    client self = true ->
    outcome (next_reply provider prompt w) = ApiError msg ->
    sent (snd (_call_claude_api provider self prompt w))
      = List.app (sent w) [prompt] /\
    fst (_call_claude_api provider self prompt w) = Ok fallback_response.
Proof.
  intros provider self prompt msg w Hc Hr.
  destruct (call_failing provider self prompt msg w Hc Hr)
    as (w' & Hrun & Hs & _).
  rewrite Hrun. split; [exact Hs | reflexivity].
Qed.

Lemma failed_call_is_not_retried_witness :
  sent (snd (_call_claude_api (Scenarios.constant_provider Scenarios.failing)
               Scenarios.service "a prompt" Scenarios.fresh))
    = List.app (sent Scenarios.fresh) ["a prompt"] /\
  fst (_call_claude_api (Scenarios.constant_provider Scenarios.failing)
         Scenarios.service "a prompt" Scenarios.fresh)
    = Ok fallback_response.
Proof.
  apply (failed_call_is_not_retried
           (Scenarios.constant_provider Scenarios.failing) Scenarios.service
           "a prompt" "connection timed out" Scenarios.fresh);
    reflexivity.
Defined.

(** C8, as the claim states it, fails: when the generator answers "Short
    text.", [generate_introduction] returns these 11 characters, far below
    the 200 that the table asks of an introduction. *)
Lemma generate_returns_short_content :
  fst (generate (Scenarios.constant_provider (Scenarios.says "Short text."))
                Scenarios.service generate_introduction Scenarios.campaign
                None "production" Scenarios.fresh)
    = Ok "Short text." /\
  String.length "Short text." < Watchdog.min_length "introduction".
Proof. vm_compute. split; [reflexivity | lia]. Qed.

End AIProps.

(** ** The orchestrator *)

Module OrchestratorProps.
Import Effects Orchestrator.

Ltac run := unfold cache_get, cache_set in *; AIProps.run.

(** The generator client reads and writes nothing of the cache: run on a
    world with other files, it does the same and leaves those files. *)
Lemma call_frame (provider : AI.Provider) (self : AI.ClaudeAIService)
    (prompt : string) (w : World) (fs : gmap string Cache.CacheFile) :
  AI._call_claude_api provider self prompt (with_files w fs) =
  (fst (AI._call_claude_api provider self prompt w),
   with_files (snd (AI._call_claude_api provider self prompt w)) fs).
Proof.
  destruct w as [fs0 k s m]. unfold AI._call_claude_api.
  destruct (AI.client self); cbn [negb]; run.
  2:{ destruct (AI.watchdog_service self); reflexivity. }
  cbn [sent with_files].
  destruct (outcome (AI.messages_create provider (List.length s) prompt))
    as [msg | text i o]; run.
  { destruct (AI.watchdog_service self); reflexivity. }
  destruct (AI.watchdog_service self);
    destruct (String.eqb text "");
    destruct (Watchdog.is_active (AI.content_integrity_watchdog self));
    cbn [negb andb]; run; try reflexivity;
    destruct (50 <? String.length (strip text)); run; try reflexivity;
    destruct (Watchdog.validate_text_content _ "ai_response" (PStr text))
      as [b0 | e]; run; try reflexivity;
    destruct (is_ContentIntegrityError e); run; reflexivity.
Qed.

Lemma generate_frame (provider : AI.Provider) (self : AI.ClaudeAIService)
    (g : AI.Generator) (campaign : Campaign) (ci : option string)
    (mode : string) (w : World) (fs : gmap string Cache.CacheFile) :
  AI.generate provider self g campaign ci mode (with_files w fs) =
  (fst (AI.generate provider self g campaign ci mode w),
   with_files (snd (AI.generate provider self g campaign ci mode w)) fs).
Proof.
  unfold AI.generate. run. rewrite call_frame.
  destruct (AI._call_claude_api provider self _ w) as [[v | e] w']; reflexivity.
Qed.

(** A loop of validations passes only if every element passes, and
    raises as soon as one raises. *)
Lemma each_Ok {A : Type} (f : A -> result bool) (l : list A) (b : bool) :
  Watchdog.each f l = Ok b -> forall x, In x l -> exists b', f x = Ok b'.
Proof.
  induction l as [| y l IH]; intros H x Hx; [destruct Hx |].
  cbn [Watchdog.each] in H. unfold Watchdog.andThen in H.
  destruct (f y) as [by' | e] eqn:Hy; [| discriminate].
  destruct Hx as [<- | Hx]; [eauto | exact (IH H x Hx)].
Qed.

Lemma each_raises {A : Type} (f : A -> result bool) (l : list A) (x : A) :
  In x l -> raises (f x) = true -> raises (Watchdog.each f l) = true.
Proof.
  intros Hx Hr. destruct (Watchdog.each f l) as [b |] eqn:He; [| reflexivity].
  destruct (each_Ok f l b He x Hx) as [b' Hb]. rewrite Hb in Hr. discriminate.
Qed.

(** A section passes only if its content passes. *)
Lemma validate_section_Ok (wd : Watchdog.ContentIntegrityWatchdog)
    (s : CampaignSection) (b : bool) :
  Watchdog.validate_section wd s = Ok b ->
  Watchdog.validate_text_content wd (section_id s) (content s) = Ok true.
Proof.
  unfold Watchdog.validate_section, Watchdog.andThen.
  destruct (Watchdog.validate_text_content wd (section_id s) (content s))
    as [b0 |] eqn:Hv; [| discriminate].
  intros _. f_equal.
  exact (WatchdogProps.validate_text_content_returns_True _ _ _ _ Hv).
Qed.

(** What a passing whole-campaign validation covers. *)
Lemma validate_entire_campaign_Ok (wd : Watchdog.ContentIntegrityWatchdog)
    (c : Campaign) (b : bool) :
  Watchdog.is_active wd = true ->
  Watchdog.validate_entire_campaign wd c = Ok b ->
  Watchdog.validate_text_content wd "campaign_title" (name c) = Ok true /\
  Watchdog.validate_text_content wd "campaign_description" (description c)
    = Ok true /\
  forall s, In s (sections c) ->
            Watchdog.validate_text_content wd (section_id s) (content s)
              = Ok true.
Proof.
  intros Hact. unfold Watchdog.validate_entire_campaign, Watchdog.andThen.
  rewrite Hact. cbn [negb].
  destruct (Watchdog.validate_text_content wd "campaign_title" (name c))
    as [b1 |] eqn:H1; [| discriminate].
  destruct (Watchdog.validate_text_content wd "campaign_description" (description c))
    as [b2 |] eqn:H2; [| discriminate].
  destruct (Watchdog.each (Watchdog.validate_section wd) (sections c))
    as [b3 |] eqn:H3; [| discriminate].
  intros _.
  rewrite (WatchdogProps.validate_text_content_returns_True _ _ _ _ H1).
  rewrite (WatchdogProps.validate_text_content_returns_True _ _ _ _ H2).
  repeat split.
  intros s Hs. destruct (each_Ok _ _ _ H3 s Hs) as [b' Hb].
  exact (validate_section_Ok wd s b' Hb).
Qed.

(** A campaign with a section whose content the active watchdog rejects
    fails the whole-campaign validation. *)
Lemma validate_entire_campaign_raises (wd : Watchdog.ContentIntegrityWatchdog)
    (c : Campaign) (s : CampaignSection) :
  Watchdog.is_active wd = true ->
  In s (sections c) ->
  raises (Watchdog.validate_text_content wd (section_id s) (content s)) = true ->
  raises (Watchdog.validate_entire_campaign wd c) = true.
Proof.
  intros Hact Hs Hr.
  destruct (Watchdog.validate_entire_campaign wd c) as [b |] eqn:Hv;
    [| reflexivity].
  destruct (validate_entire_campaign_Ok wd c b Hact Hv) as (_ & _ & Hall).
  rewrite (Hall s Hs) in Hr. discriminate.
Qed.

Section WithOutside.

Variable out : Outside.
Variable self : CompleteCampaignGenerationService.

Local Abbreviation wd := (content_integrity_watchdog self).

(** The fresh generation, case by case on what the generator client
    returned. *)
Lemma generate_new_content_cases (campaign : Campaign)
    (section_id title : string) (g : AI.Generator) (ci : option string)
    (mode : string) (w : World) :
  exists content w1,
    AI.generate (provider out) (ai_service self) g campaign ci mode w
      = (Ok content, w1) /\
    files w1 = files w /\ clock w1 = clock w /\
    generate_new_content out self campaign section_id title g ci mode w =
    if String.eqb content "" then
      (Ok (mkSection section_id title
             (PStr ("Error generating " ++ title ++ " section")) []
             [("generation_time", PInt (clock w))]), w1)
    else
      match Watchdog.validate_text_content wd section_id (PStr content) with
      | Ok _ =>
          (Ok (mkSection section_id title (PStr content) []
                 [("generation_time", PInt (clock w))]),
           with_files w1 (<[section_path out self section_id campaign
                            := written (PStr content) (clock w)]> (files w)))
      | Raise e =>
          (Raise (ContentIntegrityError
                    ("Generated section '" ++ section_id ++
                     "' contains mock/placeholder content: " ++ message e)),
           w1)
      end.
Proof.
  destruct (AIProps.generate_returns (provider out) (ai_service self) g
              campaign ci mode w) as (content & w1 & Hrun & Hf & Hk & _ & _).
  exists content, w1. repeat split; try assumption.
  unfold generate_new_content. run. rewrite Hrun.
  destruct (String.eqb content "") eqn:Hne; cbn [negb]; run.
  - rewrite Hk. reflexivity.
  - destruct (Watchdog.validate_text_content wd section_id (PStr content));
      run; [| reflexivity].
    unfold Cache.set, section_path, written. cbn [fst snd].
    destruct w1 as [fs k s m]. cbn in *. subst. reflexivity.
Qed.

(** After the fresh generation, the cache is as before or holds, in the
    section's file, new content that the watchdog accepted. *)
Lemma generate_new_content_files (campaign : Campaign)
    (section_id title : string) (g : AI.Generator) (ci : option string)
    (mode : string) (w : World) :
  let run := generate_new_content out self campaign section_id title g ci mode w in
  clock (snd run) = clock w /\
  ((files (snd run) = files w /\
    (raises (fst run) = true \/
     exists s, fst run = Ok s /\ Entities.section_id s = section_id /\
               Entities.content s = PStr ("Error generating " ++ title ++ " section")))
   \/
   exists text,
     Watchdog.validate_text_content wd section_id (PStr text) = Ok true /\
     fst run = Ok (mkSection section_id title (PStr text) []
                     [("generation_time", PInt (clock w))]) /\
     files (snd run) = <[section_path out self section_id campaign
                         := written (PStr text) (clock w)]> (files w)).
Proof.
  destruct (generate_new_content_cases campaign section_id title g ci mode w)
    as (text & w1 & _ & Hf & Hk & Hrun).
  cbv zeta. rewrite Hrun.
  destruct (String.eqb text "").
  - cbn [fst snd]. split; [exact Hk |]. left. split; [exact Hf |].
    right. eexists. repeat split.
  - destruct (Watchdog.validate_text_content wd section_id (PStr text))
      as [b | e] eqn:Hv; cbn [fst snd].
    + split; [destruct w1; exact Hk |]. right. exists text.
      rewrite (WatchdogProps.validate_text_content_returns_True _ _ _ _ Hv) in Hv.
      split; [exact Hv |]. split; [reflexivity |]. destruct w1; reflexivity.
    + split; [exact Hk |]. left. split; [exact Hf |]. left. reflexivity.
Qed.

(** A lookup that finds nothing usable, or content that fails
    re-validation, continues with the fresh generation. *)
Lemma section_miss (campaign : Campaign) (section_id title : string)
    (g : AI.Generator) (ci : option string) (mode : string) (w : World) :
  let cached := Cache.get (md5 out) (content_cache self) (files w)
                          (section_cache_key section_id campaign) in
  truthy cached && is_str cached = false \/
  raises (Watchdog.validate_text_content wd section_id cached) = true ->
  _generate_section_with_cache out self campaign section_id title g ci mode w
  = generate_new_content out self campaign section_id title g ci mode w.
Proof.
  cbv zeta. intros H. unfold _generate_section_with_cache. run.
  destruct (truthy _ && is_str _) eqn:Hhit.
  - destruct H as [H | H]; [discriminate |].
    destruct (Watchdog.validate_text_content wd section_id _);
      [discriminate | reflexivity].
  - reflexivity.
Qed.

(** A lookup that finds content passing re-validation returns it and
    touches nothing. *)
Lemma section_hit (campaign : Campaign) (section_id title : string)
    (g : AI.Generator) (ci : option string) (mode : string) (w : World)
    (text : string) :
  Cache.get (md5 out) (content_cache self) (files w)
            (section_cache_key section_id campaign) = PStr text ->
  text <> "" ->
  Watchdog.validate_text_content wd section_id (PStr text) = Ok true ->
  _generate_section_with_cache out self campaign section_id title g ci mode w
  = (Ok (mkSection section_id title (PStr text) []
           [("cached", PBool true); ("generation_time", PInt (clock w))]), w).
Proof.
  intros Hget Hne Hv. unfold _generate_section_with_cache. run.
  rewrite Hget. cbn [truthy is_str].
  apply String.eqb_neq in Hne. rewrite Hne. cbn [negb andb].
  rewrite Hv. run. reflexivity.
Qed.

(** The quality score is always computed: the generator client returns. *)
Lemma quality_score_returns (campaign : Campaign) (w : World) :
  exists v w', _calculate_overall_quality_score out self campaign w = (Ok v, w') /\
               files w' = files w /\ clock w' = clock w.
Proof.
  unfold _calculate_overall_quality_score, AI.validate_content_quality. run.
  destruct (AIProps.call_returns (provider out) (ai_service self)
              (AI._build_quality_validation_prompt (provider out) campaign
                 "campaign") w) as (v & w' & Hrun & Hf & Hk & _).
  rewrite Hrun.
  destruct (AI._parse_quality_validation_response (provider out) v);
    eexists _, w'; repeat split; assumption.
Qed.

(** A failing final pass makes [finalize] raise at once. *)
Lemma finalize_raises (campaign : Campaign) (w : World) :
  raises (Watchdog.validate_entire_campaign wd campaign) = true ->
  exists e, finalize out self campaign w = (Raise e, w).
Proof.
  intros Hr. unfold finalize.
  destruct (Watchdog.validate_entire_campaign wd campaign) as [b | e];
    [discriminate |].
  destruct (is_ContentIntegrityError e); run; eauto.
Qed.

(** When [finalize] returns, the pass succeeded and the campaign comes
    back completed. *)
Lemma finalize_returns (campaign c : Campaign) (w w' : World) :
  finalize out self campaign w = (Ok c, w') ->
  Watchdog.validate_entire_campaign wd campaign = Ok true /\
  files w' = files w /\
  exists q, c = set_quality_score (set_status campaign COMPLETED) q.
Proof.
  unfold finalize.
  destruct (Watchdog.validate_entire_campaign wd campaign) as [b | e] eqn:Hv.
  2:{ destruct (is_ContentIntegrityError e); run; discriminate. }
  run.
  destruct (quality_score_returns (set_status campaign COMPLETED) w)
    as (v & w1 & Hq & Hf & _).
  rewrite Hq.
  destruct (QualityScore v) as [q | e]; [| discriminate].
  intros H. injection H as <- <-. split.
  - unfold Watchdog.validate_entire_campaign, Watchdog.andThen in Hv.
    repeat match type of Hv with
           | (if ?c then _ else _) = _ => destruct c; try discriminate
           | match ?c with _ => _ end = _ => destruct c; try discriminate
           end; congruence.
  - split; [destruct w1; exact Hf | exists q; reflexivity].
Qed.

End WithOutside.

(** C7, as the claim states it, fails: the introduction of the campaign is
    cached as a placeholder text, which fails re-validation; the generator
    answers with a text that is rejected too. After
    [_generate_section_with_cache] the stale entry is still in the store,
    unchanged: nothing deleted it. *)
Lemma stale_entry_is_not_purged :
  let out := Scenarios.outside (Scenarios.says Scenarios.short_apology) in
  let key := section_cache_key "introduction" Scenarios.campaign in
  let run := _generate_section_with_cache out Scenarios.orchestrator
               Scenarios.campaign "introduction" "Introduction"
               AI.generate_introduction None "production" Scenarios.stale in
  Cache.get (md5 out) Cache.init (files Scenarios.stale) key
    = PStr Scenarios.stale_text /\
  raises (Watchdog.validate_text_content (Watchdog.init true) "introduction"
            (PStr Scenarios.stale_text)) = true /\
  Cache.exists_ (md5 out) Cache.init (files (snd run)) key = true /\
  Cache.get (md5 out) Cache.init (files (snd run)) key
    = PStr Scenarios.stale_text.
Proof. vm_compute. repeat split. Qed.

(** C7, amended. When the cached content of a section is found at lookup
    and fails re-validation, the orchestrator does not delete the entry: it
    proceeds exactly as on a cache miss (same result, same calls to the
    generator and to monitoring as when the entry is absent), and no error
    is raised for the re-validation failure itself. The stale entry stays
    in the store unless the regenerated content passes validation, in which
    case that content overwrites it. *)
Theorem stale_entry_is_regenerated_not_deleted :
  forall (out : Outside) (self : CompleteCampaignGenerationService)
         (campaign : Campaign) (sid title : string) (g : AI.Generator)
         (ci : option string) (mode : string) (w : World) (text : string),
    Cache.get (md5 out) (content_cache self) (files w)
              (section_cache_key sid campaign) = PStr text ->
    text <> "" ->
    raises (Watchdog.validate_text_content (content_integrity_watchdog self)
              sid (PStr text)) = true ->
    let run := _generate_section_with_cache out self campaign sid title g ci
                 mode w in
    let miss := _generate_section_with_cache out self campaign sid title g ci
                  mode
                  (with_files w (base.delete (section_path out self sid campaign)
                                             (files w))) in
    (fst run = fst miss /\ sent (snd run) = sent (snd miss) /\
     monitor (snd run) = monitor (snd miss)) /\
    Cache.exists_ (md5 out) (content_cache self) (files (snd run))
                  (section_cache_key sid campaign) = true /\
    (files (snd run) = files w \/
     exists fresh,
       Watchdog.validate_text_content (content_integrity_watchdog self) sid
                                      (PStr fresh) = Ok true /\
       fst run = Ok (mkSection sid title (PStr fresh) []
                       [("generation_time", PInt (clock w))]) /\
       files (snd run) = <[section_path out self sid campaign
                           := written (PStr fresh) (clock w)]> (files w)).
Proof.
  intros out self campaign sid title g ci mode w text Hget Hne Hbad run0 miss.
  subst run0 miss.
  set (p := section_path out self sid campaign).
  set (w0 := with_files w (base.delete p (files w))).
  assert (Hrun : _generate_section_with_cache out self campaign sid title g ci mode w
                 = generate_new_content out self campaign sid title g ci mode w).
  { apply section_miss. right. rewrite Hget. exact Hbad. }
  assert (Hmiss : _generate_section_with_cache out self campaign sid title g ci mode w0
                  = generate_new_content out self campaign sid title g ci mode w0).
  { apply section_miss. left. unfold w0, Cache.get. destruct w; cbn [files with_files].
    fold (section_path out self sid campaign). fold p.
    rewrite lookup_delete_eq. reflexivity. }
  assert (Hthere : is_Some (files w !! p)).
  { unfold Cache.get in Hget. fold (section_path out self sid campaign) in Hget.
    fold p in Hget. destruct (files w !! p); [eauto | discriminate]. }
  rewrite Hrun, Hmiss.
  destruct (generate_new_content_cases out self campaign sid title g ci mode w)
    as (c & w1 & Hgen & Hf & Hk & Hcase).
  destruct (generate_new_content_cases out self campaign sid title g ci mode w0)
    as (c0 & w2 & Hgen0 & Hf0 & Hk0 & Hcase0).
  unfold w0 in Hgen0. rewrite generate_frame, Hgen in Hgen0. cbn [fst snd] in Hgen0.
  injection Hgen0 as <- <-.
  rewrite Hcase, Hcase0. fold p.
  assert (Hclock : clock w0 = clock w) by (destruct w; reflexivity).
  rewrite Hclock.
  destruct (String.eqb c "").
  - cbn [fst snd]. split; [destruct w1; repeat split |].
    split; [| left; exact Hf].
    unfold Cache.exists_. fold (section_path out self sid campaign). fold p.
    rewrite Hf. destruct Hthere as [x ->]. reflexivity.
  - destruct (Watchdog.validate_text_content (content_integrity_watchdog self)
                sid (PStr c)) as [b | e] eqn:Hv; cbn [fst snd].
    + split; [destruct w1; repeat split |].
      split.
      * unfold Cache.exists_. fold (section_path out self sid campaign). fold p.
        destruct w1; cbn [files with_files]. rewrite lookup_insert_eq. reflexivity.
      * right. exists c.
        rewrite (WatchdogProps.validate_text_content_returns_True _ _ _ _ Hv) in Hv.
        split; [exact Hv |]. split; [reflexivity |]. destruct w1; reflexivity.
    + split; [destruct w1; repeat split |].
      split; [| left; exact Hf].
      unfold Cache.exists_. fold (section_path out self sid campaign). fold p.
      rewrite Hf. destruct Hthere as [x ->]. reflexivity.
Qed.

Lemma stale_entry_is_regenerated_not_deleted_witness :
  let out := Scenarios.outside (Scenarios.says Scenarios.apology) in
  let run := _generate_section_with_cache out Scenarios.orchestrator
               Scenarios.campaign "introduction" "Introduction"
               AI.generate_introduction None "production" Scenarios.stale in
  Cache.exists_ (md5 out) (content_cache Scenarios.orchestrator)
                (files (snd run))
                (section_cache_key "introduction" Scenarios.campaign) = true.
Proof.
  cbv zeta.
  apply (stale_entry_is_regenerated_not_deleted
           (Scenarios.outside (Scenarios.says Scenarios.apology))
           Scenarios.orchestrator Scenarios.campaign "introduction"
           "Introduction" AI.generate_introduction None "production"
           Scenarios.stale Scenarios.stale_text).
  - vm_compute. reflexivity.
  - intros H. discriminate H.
  - vm_compute. reflexivity.
Defined.

(** C6. The final integrity pass runs on the assembled campaign, after
    every section is in place: when it passes (watchdog active), the title,
    the description and the content of every section passed
    [validate_text_content]; when it raises, [generate_campaign] raises; and
    a campaign comes back from [generate_campaign], with status COMPLETED,
    only if the assembled campaign passed it. *)
Theorem final_integrity_pass_is_fatal :
  forall (out : Outside) (self : CompleteCampaignGenerationService)
         (r : Request),
    (forall c,
        Watchdog.is_active (content_integrity_watchdog self) = true ->
        Watchdog.validate_entire_campaign (content_integrity_watchdog self) c
          = Ok true ->
        Watchdog.validate_text_content (content_integrity_watchdog self)
          "campaign_title" (name c) = Ok true /\
        Watchdog.validate_text_content (content_integrity_watchdog self)
          "campaign_description" (description c) = Ok true /\
        forall s, In s (sections c) ->
                  Watchdog.validate_text_content
                    (content_integrity_watchdog self) (section_id s)
                    (content s) = Ok true) /\
    (forall w,
        (exists c w1,
            assemble out self (uuid4 out) r w = (Ok c, w1) /\
            raises (Watchdog.validate_entire_campaign
                      (content_integrity_watchdog self) c) = true) ->
        raises (fst (generate_campaign out self r w)) = true) /\
    (forall w i c w',
        generate_campaign out self r w = (Ok (i, c), w') ->
        status c = COMPLETED /\
        exists c0 w1 q,
          assemble out self (uuid4 out) r w = (Ok c0, w1) /\
          Watchdog.validate_entire_campaign (content_integrity_watchdog self) c0
            = Ok true /\
          c = set_quality_score (set_status c0 COMPLETED) q).
Proof.
  intros out self r. split; [| split].
  - intros c Hact Hv. exact (validate_entire_campaign_Ok _ c true Hact Hv).
  - intros w (c & w1 & Hasm & Hr). unfold generate_campaign. run.
    rewrite Hasm. destruct (finalize_raises out self c w1 Hr) as [e He].
    rewrite He. reflexivity.
  - intros w i c w' Hrun. unfold generate_campaign in Hrun. run.
    destruct (assemble out self (uuid4 out) r w) as [[c0 | e] w1] eqn:Hasm;
      [| discriminate].
    destruct (finalize out self c0 w1) as [[c1 | e] w2] eqn:Hfin;
      [| discriminate].
    injection Hrun as <- <- <-.
    destruct (finalize_returns out self c0 c1 w1 w2 Hfin) as (Hv & _ & q & ->).
    split; [reflexivity |]. exists c0, w1, q. repeat split. exact Hv.
Qed.

Lemma final_integrity_pass_is_fatal_witness :
  raises (fst (generate_campaign
                 (Scenarios.outside (Scenarios.says Scenarios.short_apology))
                 Scenarios.orchestrator Scenarios.request
                 Scenarios.with_concept)) = true.
Proof.
  apply (proj1 (proj2 (final_integrity_pass_is_fatal
                         (Scenarios.outside (Scenarios.says Scenarios.short_apology))
                         Scenarios.orchestrator Scenarios.request))).
  eexists _, _. split; vm_compute; reflexivity.
Defined.

End OrchestratorProps.

(** ** What reaches the cache *)

Module WriteThroughProps.
Import Effects Orchestrator.

Ltac run := OrchestratorProps.run.

Section WithOutside.

Variable out : Outside.
Variable self : CompleteCampaignGenerationService.

Local Abbreviation wd := (content_integrity_watchdog self).

(** [_generate_section_with_cache] leaves the cache as it was, or stores
    in the section's file a text that the watchdog just accepted. *)
Lemma section_write_is_validated (campaign : Campaign)
    (section_id title : string) (g : AI.Generator) (ci : option string)
    (mode : string) (w : World) :
  let run := _generate_section_with_cache out self campaign section_id title
               g ci mode w in
  clock (snd run) = clock w /\
  (files (snd run) = files w \/
   exists text,
     Watchdog.validate_text_content wd section_id (PStr text) = Ok true /\
     files (snd run) = <[section_path out self section_id campaign
                         := written (PStr text) (clock w)]> (files w)).
Proof.
  cbv zeta.
  pose proof (OrchestratorProps.section_miss out self campaign section_id
                title g ci mode w) as Hmiss. cbv zeta in Hmiss.
  pose proof (OrchestratorProps.generate_new_content_files out self campaign
                section_id title g ci mode w) as Hnew. cbv zeta in Hnew.
  destruct (truthy (Cache.get (md5 out) (content_cache self) (files w)
                      (section_cache_key section_id campaign))
            && is_str (Cache.get (md5 out) (content_cache self) (files w)
                         (section_cache_key section_id campaign))) eqn:Hhit.
  - destruct (Watchdog.validate_text_content wd section_id
                (Cache.get (md5 out) (content_cache self) (files w)
                   (section_cache_key section_id campaign))) as [b | e] eqn:Hv.
    + unfold _generate_section_with_cache. run. rewrite Hhit, Hv. run.
      split; [reflexivity | left; reflexivity].
    + rewrite Hmiss; [| right; reflexivity].
      destruct Hnew as [Hk [[Hf _] | (text & Hok & _ & Hf)]];
        (split; [exact Hk |]); [left; exact Hf | right; eauto].
  - rewrite Hmiss; [| left; reflexivity].
    destruct Hnew as [Hk [[Hf _] | (text & Hok & _ & Hf)]];
      (split; [exact Hk |]); [left; exact Hf | right; eauto].
Qed.

(** The generator client's concept generation leaves cache and clock. *)
Lemma generate_campaign_concept_frame (preferences : PlayerPreferences)
    (w : World) :
  files (snd (AI.generate_campaign_concept (provider out) (ai_service self)
                preferences w)) = files w /\
  clock (snd (AI.generate_campaign_concept (provider out) (ai_service self)
                preferences w)) = clock w.
Proof.
  unfold AI.generate_campaign_concept. run.
  destruct (AIProps.call_returns (provider out) (ai_service self)
              (AI._build_campaign_concept_prompt (provider out) preferences) w)
    as (v & w' & Hrun & Hf & Hk & _).
  rewrite Hrun.
  destruct (truthy _ && Watchdog.is_active _); run;
    [destruct (Watchdog.validate_campaign_concept _ _) |];
    cbn [fst snd]; split; assumption.
Qed.

(** [validate_campaign_concept] returns [True] or raises. *)
Lemma validate_campaign_concept_returns_True (concept : pyval) (b : bool) :
  Watchdog.validate_campaign_concept wd concept = Ok b -> b = true.
Proof.
  unfold Watchdog.validate_campaign_concept, Watchdog.andThen. intros Hv.
  repeat match type of Hv with
         | (if ?c then _ else _) = _ => destruct c; try discriminate
         | match ?c with _ => _ end = _ => destruct c eqn:?; try discriminate
         end; congruence.
Qed.

(** [obtain_concept] leaves the cache as it was, or stores under the
    concept key a concept that the watchdog just accepted. *)
Lemma concept_write_is_validated (preferences : PlayerPreferences) (w : World) :
  let run := obtain_concept out self preferences w in
  clock (snd run) = clock w /\
  (files (snd run) = files w \/
   exists concept,
     Watchdog.validate_campaign_concept wd concept = Ok true /\
     fst run = Ok concept /\
     files (snd run) = <[concept_path out self preferences
                         := written concept (clock w)]> (files w)).
Proof.
  cbv zeta. unfold obtain_concept. run.
  set (cached := Cache.get (md5 out) (content_cache self) (files w)
                   (_get_concept_cache_key out preferences)).
  destruct (negb (truthy (if truthy cached
                          then match Watchdog.validate_campaign_concept wd cached with
                               | Ok _ => cached
                               | Raise _ => PNone
                               end
                          else cached))); run;
    [| split; [reflexivity | left; reflexivity]].
  destruct (generate_campaign_concept_frame preferences w) as [Hf Hk].
  destruct (AI.generate_campaign_concept (provider out) (ai_service self)
              preferences w) as [[concept | e] w1]; cbn [fst snd] in *; run;
    [| split; [exact Hk | left; exact Hf]].
  destruct (truthy concept); run; [| split; [exact Hk | left; exact Hf]].
  destruct (Watchdog.validate_campaign_concept wd concept) as [b | e] eqn:Hv;
    run; [| split; [exact Hk | left; exact Hf]].
  unfold Cache.set. cbn [fst snd]. destruct w1 as [fs k s m]. cbn in *. subst.
  split; [reflexivity |]. right. exists concept.
  rewrite (validate_campaign_concept_returns_True _ _ Hv) in Hv.
  repeat split. exact Hv.
Qed.

(** The three list generators call the generator client at most once and
    always return; they leave cache and clock. *)
Lemma generate_story_arcs_returns (concept : pyval) (mode : string) (w : World) :
  exists l w', _generate_story_arcs out self concept mode w = (Ok l, w') /\
               files w' = files w /\ clock w' = clock w.
Proof.
  unfold _generate_story_arcs. destruct concept; run;
    try (eexists _, w; repeat split; fail).
  unfold AI.generate_story_arcs. run.
  match goal with
  | |- context [AI._call_claude_api ?p ?s ?q w] =>
      destruct (AIProps.call_returns p s q w) as (v & w' & Hrun & Hf & Hk & _)
  end.
  rewrite Hrun.
  destruct (AI._parse_story_arcs_response (provider out) v);
    eexists _, w'; repeat split; assumption.
Qed.

Lemma generate_key_npcs_returns (concept : pyval) (mode : string) (w : World) :
  exists l w', _generate_key_npcs out self concept mode w = (Ok l, w') /\
               files w' = files w /\ clock w' = clock w.
Proof.
  unfold _generate_key_npcs. destruct concept; run;
    try (eexists _, w; repeat split; fail).
  unfold AI.generate_npcs. run.
  match goal with
  | |- context [AI._call_claude_api ?p ?s ?q w] =>
      destruct (AIProps.call_returns p s q w) as (v & w' & Hrun & Hf & Hk & _)
  end.
  rewrite Hrun. eexists _, w'; repeat split; assumption.
Qed.

Lemma generate_key_locations_returns (concept : pyval) (mode : string) (w : World) :
  exists l w', _generate_key_locations out self concept mode w = (Ok l, w') /\
               files w' = files w /\ clock w' = clock w.
Proof.
  unfold _generate_key_locations. destruct concept; run;
    try (eexists _, w; repeat split; fail).
  unfold AI.generate_locations. run.
  match goal with
  | |- context [AI._call_claude_api ?p ?s ?q w] =>
      destruct (AIProps.call_returns p s q w) as (v & w' & Hrun & Hf & Hk & _)
  end.
  rewrite Hrun. eexists _, w'; repeat split; assumption.
Qed.

(** An active watchdog rejects, for every section, a text of fewer than
    100 characters. *)
Lemma short_text_rejected (section_id text : string) :
  Watchdog.is_active wd = true ->
  String.length (strip text) < 100 ->
  raises (Watchdog.validate_text_content wd section_id (PStr text)) = true.
Proof.
  intros Hact Hshort.
  destruct (Watchdog.validate_text_content wd section_id (PStr text))
    as [b |] eqn:Hv; [| reflexivity].
  exfalso. destruct wd as [act]. cbn in Hact. subst act.
  rewrite (WatchdogProps.validate_text_content_returns_True _ _ _ _ Hv) in Hv.
  apply (WatchdogProps.validate_text_content_Ok_iff section_id text) in Hv.
  destruct Hv as (_ & _ & Hlen & _).
  pose proof (WatchdogProps.min_length_ge_100 section_id). lia.
Qed.

(** When the generator always answers a text that the watchdog rejects for
    a section, whatever the generator client returns is rejected too. *)
Lemma generated_content_rejected (t section_id : string) (g : AI.Generator)
    (campaign : Campaign) (ci : option string) (mode : string) (w : World) :
  Watchdog.is_active wd = true ->
  AI.always_answers (provider out) t ->
  raises (Watchdog.validate_text_content wd section_id (PStr t)) = true ->
  exists text w1,
    AI.generate (provider out) (ai_service self) g campaign ci mode w
      = (Ok text, w1) /\
    files w1 = files w /\ clock w1 = clock w /\ text <> "" /\
    raises (Watchdog.validate_text_content wd section_id (PStr text)) = true.
Proof.
  intros Hact Hall Hbad.
  destruct (AIProps.generate_returns (provider out) (ai_service self) g
              campaign ci mode w)
    as (text & w1 & Hrun & Hf & Hk & Hne & Hc).
  exists text, w1. repeat split; try assumption.
  destruct Hc as [-> | [-> | [-> | [(i & o & Hr) _]]]];
    try (apply short_text_rejected; [exact Hact | vm_compute; lia]).
  unfold AI.next_reply in Hr.
  destruct (Hall (List.length (sent w))
                 (AI.section_prompt (provider out) g campaign ci mode))
    as (i' & o' & Hr').
  rewrite Hr' in Hr. injection Hr as -> _ _. exact Hbad.
Qed.

(** The text that [generate_one_section] puts in place of a rejected
    section is itself rejected. *)
Lemma quality_issue_text_rejected (section_id : string) :
  Watchdog.is_active wd = true ->
  raises (Watchdog.validate_text_content wd section_id
            (PStr quality_issue_text)) = true.
Proof.
  intros Hact. apply short_text_rejected; [exact Hact | vm_compute; lia].
Qed.

(** One iteration of the section loop when the generator is rejected: the
    campaign gets the quality-warning section, and the cache is left. *)
Lemma rejected_section (t : string) (campaign : Campaign) (mode : string)
    (section_id title : string) (g : AI.Generator) (w : World) :
  Watchdog.is_active wd = true ->
  AI.always_answers (provider out) t ->
  raises (Watchdog.validate_text_content wd section_id (PStr t)) = true ->
  no_text_cached out self (files w) (id campaign) section_id = true ->
  exists s w1,
    generate_one_section out self campaign mode (section_id, title, g) w
      = (Ok (add_section campaign s), w1) /\
    files w1 = files w /\ clock w1 = clock w /\
    Entities.section_id s = section_id /\
    content s = PStr quality_issue_text.
Proof.
  intros Hact Hall Hbad Hno.
  unfold generate_one_section.
  set (ci := match player_preferences campaign with
             | Some prefs => _
             | None => _
             end).
  unfold try_except, bind at 1.
  rewrite (OrchestratorProps.section_miss out self campaign section_id title g
             ci mode w).
  2:{ left. unfold no_text_cached, section_cache_key in *.
      apply negb_true_iff in Hno. rewrite Hno. apply andb_false_r. }
  destruct (OrchestratorProps.generate_new_content_cases out self campaign
              section_id title g ci mode w)
    as (text & w1 & Hgen & Hf & Hk & Hcase).
  destruct (generated_content_rejected t section_id g campaign ci mode w
              Hact Hall Hbad)
    as (text' & w1' & Hgen' & _ & _ & Hne & Hrej).
  rewrite Hgen in Hgen'. injection Hgen' as <- <-.
  rewrite Hcase. apply String.eqb_neq in Hne. rewrite Hne.
  destruct (Watchdog.validate_text_content wd section_id (PStr text));
    [discriminate |].
  run. cbn [is_ContentQualityError].
  eexists _, w1. split; [reflexivity |]. repeat split; assumption.
Qed.

(** The whole loop in that situation: every configured section becomes a
    quality-warning section, and the cache is left. *)
Lemma rejected_sections (t : string) (mode : string)
    (cfgs : list (string * string * AI.Generator)) :
  Watchdog.is_active wd = true ->
  AI.always_answers (provider out) t ->
  forall (campaign : Campaign) (w : World),
    forallb (fun cfg =>
               raises (Watchdog.validate_text_content wd (fst (fst cfg))
                                                      (PStr t))) cfgs = true ->
    forallb (fun cfg => no_text_cached out self (files w) (id campaign) (fst (fst cfg)))
            cfgs = true ->
    exists campaign' w1,
      generate_sections out self campaign mode cfgs w = (Ok campaign', w1) /\
      files w1 = files w /\ clock w1 = clock w /\
      (cfgs <> [] ->
       exists s, In s (sections campaign') /\
                 content s = PStr quality_issue_text).
Proof.
  intros Hact Hall. induction cfgs as [| [[sid title] g] cfgs IH];
    intros campaign w Hbad Hno.
  - exists campaign, w. repeat split. intros H. congruence.
  - cbn [forallb fst] in Hbad, Hno.
    apply andb_true_iff in Hbad. destruct Hbad as [Hbad1 Hbad].
    apply andb_true_iff in Hno. destruct Hno as [Hno1 Hno].
    destruct (rejected_section t campaign mode sid title g w Hact Hall Hbad1 Hno1)
      as (s & w1 & Hone & Hf & Hk & Hsid & Hc).
    cbn [generate_sections]. unfold bind at 1. rewrite Hone.
    destruct (IH (add_section campaign s) w1 Hbad) as (c' & w2 & Hrest & Hf2 & Hk2 & Hin).
    { rewrite Hf. exact Hno. }
    exists c', w2. split; [exact Hrest |].
    split; [congruence |]. split; [congruence |]. intros _.
    destruct cfgs as [| cfg cfgs'].
    + cbn [generate_sections] in Hrest. run. injection Hrest as <- <-.
      exists s. split; [| exact Hc].
      unfold add_section, set_sections. cbn [sections]. apply in_or_app.
      right. left. reflexivity.
    + apply Hin. discriminate.
Qed.

(** Illustrating the sections changes neither their number nor their
    content. *)
Lemma add_images_content (campaign_data : Campaign) (now : Z)
    (l : list (bool * CampaignSection)) :
  List.map content (add_images out campaign_data now l)
  = List.map content (List.map snd l).
Proof.
  induction l as [| [selected s] l IH]; [reflexivity |].
  cbn [add_images List.map snd].
  destruct (selected && inb (section_id s) illustrated_sections).
  - destruct (section_image out campaign_data (section_id s)) as [[path |] | e];
      try destruct (negb (String.eqb path ""));
      cbn [List.map]; rewrite ?IH; reflexivity.
  - cbn [List.map]. rewrite IH. reflexivity.
Qed.

Lemma mark_sample_sections (budget : nat) (l : list CampaignSection) :
  List.map snd (mark_sample budget l) = l.
Proof.
  revert budget. induction l as [| s l IH]; intros budget; [reflexivity |].
  cbn [mark_sample]. destruct budget as [| b].
  - cbn [List.map snd]. rewrite IH. reflexivity.
  - destruct (inb (section_id s) key_sections); cbn [List.map snd];
      rewrite IH; reflexivity.
Qed.

Lemma generate_section_images_content (campaign : Campaign) (mode : string)
    (w : World) :
  exists campaign',
    _generate_section_images out campaign mode w = (Ok campaign', w) /\
    List.map content (sections campaign') = List.map content (sections campaign) /\
    name campaign' = name campaign /\
    description campaign' = description campaign.
Proof.
  unfold _generate_section_images. run. eexists. split; [reflexivity |].
  unfold set_sections. cbn [sections name description].
  rewrite add_images_content. split; [| split; reflexivity].
  destruct (String.eqb mode "sample").
  - rewrite mark_sample_sections. reflexivity.
  - f_equal. induction (sections campaign) as [| s l IH]; [reflexivity |].
    cbn [List.map snd]. rewrite IH. reflexivity.
Qed.

(** A freshly constructed campaign has the identifier it was given and no
    section. *)
Lemma new_campaign_Ok (campaign_id : string) (concept : pyval) (r : Request)
    (arcs npcs locations : list pyval) (preferences : PlayerPreferences)
    (c : Campaign) :
  new_campaign campaign_id concept r arcs npcs locations preferences = Ok c ->
  id c = campaign_id /\ sections c = [].
Proof.
  unfold new_campaign, Watchdog.andThen. intros H.
  repeat match type of H with
         | (if ?b then _ else _) = _ => destruct b; try discriminate
         | match ?b with _ => _ end = _ => destruct b; try discriminate
         end.
  injection H as <-. split; reflexivity.
Qed.

(** A concept that an active watchdog accepts is a dict, so never a
    cached section text. *)
Lemma valid_concept_is_no_text (concept : pyval) (b : bool) :
  Watchdog.is_active wd = true ->
  Watchdog.validate_campaign_concept wd concept = Ok b ->
  is_str concept = false.
Proof.
  intros Hact. unfold Watchdog.validate_campaign_concept. rewrite Hact.
  cbn [negb]. destruct concept; cbn [is_dict is_str negb orb];
    rewrite ?orb_true_r; intros H; try discriminate; reflexivity.
Qed.

Lemma no_text_cached_after_concept (fs : gmap string Cache.CacheFile)
    (cid section_id path : string) (concept : pyval) (now : Z) :
  is_str concept = false ->
  no_text_cached out self fs cid section_id = true ->
  no_text_cached out self (<[path := written concept now]> fs) cid section_id = true.
Proof.
  unfold no_text_cached, Cache.get, written. intros Hc Hno.
  destruct (decide (path = Cache._get_cache_path (md5 out) (content_cache self)
                             ("section_" ++ section_id ++ "_" ++ cid)))
    as [-> | Hne].
  - rewrite lookup_insert_eq. cbn [Cache.content]. rewrite Hc. reflexivity.
  - rewrite lookup_insert_ne; [exact Hno | exact Hne].
Qed.

(** The configuration of either mode has sections. *)
Lemma sections_config_nonempty (mode : string) : sections_config mode <> [].
Proof. unfold sections_config. destruct (String.eqb mode "sample"); discriminate. Qed.

(** The run up to the assembled campaign, when the generator is rejected
    for every section: only the concept can have reached the cache, and an
    assembled campaign fails the final pass. *)
Lemma assemble_rejected (t : string) (r : Request) (w : World) :
  Watchdog.is_active wd = true ->
  AI.always_answers (provider out) t ->
  forallb (fun cfg =>
             raises (Watchdog.validate_text_content wd (fst (fst cfg)) (PStr t)))
          (sections_config (req_mode r)) = true ->
  forallb (fun cfg => no_text_cached out self (files w) (uuid4 out) (fst (fst cfg)))
          (sections_config (req_mode r)) = true ->
  exists res w1,
    assemble out self (uuid4 out) r w = (res, w1) /\
    (files w1 = files w \/
     exists preferences concept,
       Watchdog.validate_campaign_concept wd concept = Ok true /\
       files w1 = <[concept_path out self preferences
                    := written concept (clock w)]> (files w)) /\
    (forall c, res = Ok c ->
               raises (Watchdog.validate_entire_campaign wd c) = true).
Proof.
  intros Hact Hall Hbad Hno. unfold assemble.
  destruct (_create_preferences_from_params r) as [prefs | e] eqn:Hp.
  2:{ run. eexists _, _. split; [reflexivity |].
      split; [left; reflexivity | intros c H; discriminate]. }
  unfold lift at 1. unfold bind at 1.
  pose proof (concept_write_is_validated prefs w) as Hcon. cbv zeta in Hcon.
  destruct Hcon as [Hk0 Hf0]. unfold bind at 1.
  destruct (obtain_concept out self prefs w) as [[concept | e] w1] eqn:Hoc;
    cbn [fst snd] in Hk0, Hf0.
  2:{ eexists _, _. split; [reflexivity |]. split; [| intros c H; discriminate].
      destruct Hf0 as [Hf0 | (c0 & Hv & _ & Hf0)]; [left; exact Hf0 |].
      right. exists prefs, c0. split; assumption. }
  assert (Hfiles : files w1 = files w \/
     exists preferences concept,
       Watchdog.validate_campaign_concept wd concept = Ok true /\
       files w1 = <[concept_path out self preferences
                    := written concept (clock w)]> (files w)).
  { destruct Hf0 as [Hf0 | (c0 & Hv & _ & Hf0)]; [left; exact Hf0 |].
    right. exists prefs, c0. split; assumption. }
  assert (Hno1 : forallb (fun cfg => no_text_cached out self (files w1) (uuid4 out)
                                       (fst (fst cfg)))
                         (sections_config (req_mode r)) = true).
  { destruct Hf0 as [-> | (c0 & Hv & _ & ->)]; [exact Hno |].
    apply forallb_forall. intros cfg Hcfg.
    apply no_text_cached_after_concept.
    - exact (valid_concept_is_no_text c0 true Hact Hv).
    - exact (proj1 (forallb_forall _ _) Hno cfg Hcfg). }
  clear Hf0 Hno Hoc.
  destruct (generate_story_arcs_returns concept (req_mode r) w1)
    as (arcs & w2 & Harcs & Hf2 & Hk2).
  unfold bind at 1. rewrite Harcs.
  destruct (generate_key_npcs_returns concept (req_mode r) w2)
    as (npcs & w3 & Hnpcs & Hf3 & Hk3).
  unfold bind at 1. rewrite Hnpcs.
  destruct (generate_key_locations_returns concept (req_mode r) w3)
    as (locs & w4 & Hlocs & Hf4 & Hk4).
  unfold bind at 1. rewrite Hlocs.
  assert (Hf14 : files w4 = files w1) by congruence.
  unfold bind at 1, lift at 1.
  destruct (new_campaign (uuid4 out) concept r arcs npcs locs prefs)
    as [c0 | e] eqn:Hnew.
  2:{ eexists _, _. split; [reflexivity |].
      split; [rewrite Hf14; exact Hfiles | intros c H; discriminate]. }
  destruct (new_campaign_Ok _ _ _ _ _ _ _ _ Hnew) as [Hid Hsec].
  unfold bind at 1, lift at 1.
  destruct (validate_campaign_data c0) as [u | e].
  2:{ eexists _, _. split; [reflexivity |].
      split; [rewrite Hf14; exact Hfiles | intros c H; discriminate]. }
  unfold bind at 1, lift at 1.
  destruct (cover_image out concept) as [cover | e].
  2:{ eexists _, _. split; [reflexivity |].
      split; [rewrite Hf14; exact Hfiles | intros c H; discriminate]. }
  set (c1 := match cover with
             | Some path => if negb (String.eqb path "") then set_cover c0 path
                            else c0
             | None => c0
             end).
  assert (Hid1 : id c1 = uuid4 out).
  { unfold c1. destruct cover as [path |]; [| exact Hid].
    destruct (negb (String.eqb path "")); exact Hid. }
  destruct (rejected_sections t (req_mode r) (sections_config (req_mode r))
              Hact Hall c1 w4 Hbad)
    as (c2 & w5 & Hsecs & Hf5 & Hk5 & Hin).
  { rewrite Hid1, Hf14. exact Hno1. }
  unfold bind at 1. unfold _generate_all_sections. rewrite Hsecs.
  destruct (generate_section_images_content c2 (req_mode r) w5)
    as (c3 & Himg & Hcontent & _).
  rewrite Himg. eexists _, _. split; [reflexivity |].
  split; [rewrite Hf5, Hf14; exact Hfiles |].
  intros c Hc. injection Hc as <-.
  destruct (Hin (sections_config_nonempty (req_mode r))) as (s & Hs & Hcs).
  assert (Hs3 : In (content s) (List.map content (sections c3))).
  { rewrite Hcontent. apply in_map. exact Hs. }
  apply in_map_iff in Hs3. destruct Hs3 as (s3 & Hc3 & Hin3).
  apply (OrchestratorProps.validate_entire_campaign_raises wd c3 s3 Hact Hin3).
  rewrite Hc3, Hcs. apply quality_issue_text_rejected. exact Hact.
Qed.

End WithOutside.

(** C5, as the claim states it, fails. The store holds a valid concept
    and no section; the generator answers every call with one refusal (it
    contains "I'm sorry, I cannot" and three more of the fallback phrases
    of [ContentVerifier], and none of the watchdog's forbidden patterns;
    it has 348 characters). [generate_campaign] returns a completed
    campaign, and the refusal is written to the cache as the introduction. *)
Lemma refusal_is_cached_and_campaign_completes :
  let out := Scenarios.outside (Scenarios.says Scenarios.apology) in
  let run := generate_campaign out Scenarios.orchestrator Scenarios.request
               Scenarios.with_concept in
  let key := section_cache_key "introduction" Scenarios.campaign in
  (forall n prompt,
      outcome (AI.messages_create (provider out) n prompt)
        = ApiMessage Scenarios.apology 120 80) /\
  List.length (List.filter (fun p => contains (lower p) (lower Scenarios.apology))
                           Monitor.fallback_phrases) = 4 /\
  (exists c, fst run = Ok ("campaign-1", c) /\ status c = COMPLETED) /\
  Cache.get (md5 out) Cache.init (files Scenarios.with_concept) key = PNone /\
  Cache.get (md5 out) Cache.init (files (snd run)) key
    = PStr Scenarios.apology.
Proof.
  cbv zeta. split; [intros n prompt; reflexivity |].
  split; [vm_compute; reflexivity |].
  split; [eexists; split; vm_compute; reflexivity |].
  split; vm_compute; reflexivity.
Qed.

(** C5, amended. Whatever the orchestrator writes into a cache entry has
    just passed the integrity validator: a section's write-through stores a
    text that [validate_text_content] accepted for that section, and the
    concept cache stores a concept that [validate_campaign_concept]
    accepted. Consequently, when the generator always returns a string
    that the active validator rejects for every section of the request
    (an apology or refusal is such a string only if it is too short, too
    uniform or contains a forbidden pattern), and no text is cached for a
    section of the new campaign, no cache entry is written for any section
    (at most the concept is) and [generate_campaign] raises. *)
Theorem cache_writes_are_validated :
  forall (out : Outside) (self : CompleteCampaignGenerationService),
    (forall campaign sid title g ci mode w,
        let run := _generate_section_with_cache out self campaign sid title g
                     ci mode w in
        files (snd run) = files w \/
        exists text,
          Watchdog.validate_text_content (content_integrity_watchdog self) sid
                                         (PStr text) = Ok true /\
          files (snd run) = <[section_path out self sid campaign
                              := written (PStr text) (clock w)]> (files w)) /\
    (forall preferences w,
        let run := obtain_concept out self preferences w in
        files (snd run) = files w \/
        exists concept,
          Watchdog.validate_campaign_concept (content_integrity_watchdog self)
                                             concept = Ok true /\
          files (snd run) = <[concept_path out self preferences
                              := written concept (clock w)]> (files w)) /\
    (forall t r w,
        Watchdog.is_active (content_integrity_watchdog self) = true ->
        AI.always_answers (provider out) t ->
        forallb (fun cfg =>
                   raises (Watchdog.validate_text_content
                             (content_integrity_watchdog self)
                             (fst (fst cfg)) (PStr t)))
                (sections_config (req_mode r)) = true ->
        forallb (fun cfg => no_text_cached out self (files w) (uuid4 out)
                                           (fst (fst cfg)))
                (sections_config (req_mode r)) = true ->
        let run := generate_campaign out self r w in
        raises (fst run) = true /\
        (files (snd run) = files w \/
         exists preferences concept,
           Watchdog.validate_campaign_concept (content_integrity_watchdog self)
                                              concept = Ok true /\
           files (snd run) = <[concept_path out self preferences
                               := written concept (clock w)]> (files w))).
Proof.
  intros out self. split; [| split].
  - intros campaign sid title g ci mode w.
    exact (proj2 (section_write_is_validated out self campaign sid title g ci
                    mode w)).
  - intros preferences w run0. subst run0.
    destruct (concept_write_is_validated out self preferences w)
      as [_ [H | (concept & Hv & _ & Hf)]]; [left; exact H |].
    right. exists concept. split; assumption.
  - intros t r w Hact Hall Hbad Hno run0. subst run0.
    destruct (assemble_rejected out self t r w Hact Hall Hbad Hno)
      as (res & w1 & Hasm & Hfiles & Hfail).
    assert (Hrun : exists e w2,
               generate_campaign out self r w = (Raise e, w2) /\
               files w2 = files w1).
    { unfold generate_campaign. run. rewrite Hasm. destruct res as [c | e].
      - destruct (OrchestratorProps.finalize_raises out self c w1
                    (Hfail c eq_refl)) as [e He].
        rewrite He. eexists _, _. split; [reflexivity |].
        destruct w1; reflexivity.
      - eexists _, _. split; [reflexivity |]. destruct w1; reflexivity. }
    destruct Hrun as (e & w2 & Hrun & Hf2). rewrite Hrun. cbn [fst snd raises].
    split; [reflexivity |]. rewrite Hf2. exact Hfiles.
Qed.

Lemma cache_writes_are_validated_witness :
  let out := Scenarios.outside (Scenarios.says Scenarios.short_apology) in
  let run := generate_campaign out Scenarios.orchestrator Scenarios.request
               Scenarios.with_concept in
  (raises (fst run) = true /\
   (files (snd run) = files Scenarios.with_concept \/
    exists preferences concept,
      Watchdog.validate_campaign_concept
        (content_integrity_watchdog Scenarios.orchestrator) concept = Ok true /\
      files (snd run)
        = <[concept_path out Scenarios.orchestrator preferences
            := written concept (clock Scenarios.with_concept)]>
            (files Scenarios.with_concept))) /\
  List.length (sent (snd run)) = 12 /\
  forallb (fun cfg => no_text_cached out Scenarios.orchestrator
                        (files (snd run)) "campaign-1" (fst (fst cfg)))
          (sections_config "production") = true.
Proof.
  split.
  - apply (proj2 (proj2 (cache_writes_are_validated
                           (Scenarios.outside
                              (Scenarios.says Scenarios.short_apology))
                           Scenarios.orchestrator))
             Scenarios.short_apology Scenarios.request Scenarios.with_concept).
    + reflexivity.
    + intros n prompt. exists 120%Z, 80%Z. reflexivity.
    + vm_compute. reflexivity.
    + vm_compute. reflexivity.
  - split; vm_compute; reflexivity.
Defined.

End WriteThroughProps.

(** * Further properties *)

(** ** The image cache *)

Module ImageCacheProps.
Import ImageCache.

Section WithHash.

Variable sha256 : string -> string.
Variable self : ImageCacheService.

Local Abbreviation key := (_generate_cache_key sha256).
Local Abbreviation path := (_get_cache_path self).

(** Removing a list of keys: what is left of the metadata and the disk. *)
Lemma remove_all_metadata (keys : list string) (st : State) (k : string) :
  metadata (fold_left (remove_cached_image self) keys st) !! k =
  if decide (k ∈ keys) then None else metadata st !! k.
Proof.
  revert st. induction keys as [| k0 keys IH]; intros st.
  - cbn [fold_left]. destruct (decide (k ∈ [])) as [H | _]; [| reflexivity].
    apply elem_of_nil in H. destruct H.
  - cbn [fold_left]. rewrite IH. cbn [remove_cached_image metadata].
    destruct (decide (k ∈ keys)) as [Hin | Hnin].
    + destruct (decide (k ∈ k0 :: keys)) as [_ | H]; [reflexivity |].
      exfalso. apply H. apply elem_of_cons. right. exact Hin.
    + destruct (decide (k = k0)) as [-> | Hne].
      * rewrite lookup_delete_eq.
        destruct (decide (k0 ∈ k0 :: keys)) as [_ | H]; [reflexivity |].
        exfalso. apply H. apply elem_of_cons. left. reflexivity.
      * rewrite lookup_delete_ne; [| congruence].
        destruct (decide (k ∈ k0 :: keys)) as [H | _]; [| reflexivity].
        apply elem_of_cons in H. destruct H; [congruence | contradiction].
Qed.

Lemma remove_all_disk (keys : list string) (st : State) (p : string) :
  disk (fold_left (remove_cached_image self) keys st) !! p =
  if decide (p ∈ List.map path keys) then None else disk st !! p.
Proof.
  revert st. induction keys as [| k0 keys IH]; intros st.
  - cbn [fold_left List.map].
    destruct (decide (p ∈ [])) as [H | _]; [| reflexivity].
    apply elem_of_nil in H. destruct H.
  - cbn [fold_left List.map]. rewrite IH. cbn [remove_cached_image disk].
    destruct (decide (p ∈ List.map path keys)) as [Hin | Hnin].
    + destruct (decide (p ∈ path k0 :: List.map path keys)) as [_ | H];
        [reflexivity |].
      exfalso. apply H. apply elem_of_cons. right. exact Hin.
    + destruct (decide (p = path k0)) as [-> | Hne].
      * rewrite lookup_delete_eq.
        destruct (decide (path k0 ∈ path k0 :: List.map path keys)) as [_ | H];
          [reflexivity |].
        exfalso. apply H. apply elem_of_cons. left. reflexivity.
      * rewrite lookup_delete_ne; [| congruence].
        destruct (decide (p ∈ path k0 :: List.map path keys)) as [H | _];
          [| reflexivity].
        apply elem_of_cons in H. destruct H; [congruence | contradiction].
Qed.

Lemma expired_keys_spec (st : State) (max_age_days now : Z) (k : string) :
  k ∈ expired_keys st max_age_days now <->
  exists e, metadata st !! k = Some e /\
            _is_cache_valid e max_age_days now = false.
Proof.
  unfold expired_keys. rewrite list_elem_of_In, in_map_iff. split.
  - intros ([k' e] & Hk & Hin). cbn [fst] in Hk. subst k'.
    apply filter_In in Hin. destruct Hin as [Hin Hbad]. cbn [snd] in Hbad.
    exists e. split.
    + apply elem_of_map_to_list. apply list_elem_of_In. exact Hin.
    + apply negb_true_iff. exact Hbad.
  - intros (e & Hk & Hbad). exists (k, e). split; [reflexivity |].
    apply filter_In. split.
    + apply list_elem_of_In. apply elem_of_map_to_list. exact Hk.
    + cbn [snd]. rewrite Hbad. reflexivity.
Qed.

End WithHash.





(** X3. A lookup that returns a path changes nothing, and the path is the
    cache path of the request, of a file that exists, whose metadata entry
    is at most 30 days old and records exactly the requested prompt, size,
    model and quality: an image is never served for other parameters, even
    if their keys collide. *)
Theorem served_image_matches_request :
  forall (sha256 : string -> string) (self : ImageCacheService) (st st' : State)
         (now : Z) (prompt size model quality p : string),
    get_cached_image sha256 self st now prompt size model quality
      = (Some p, st') ->
    let cache_key := _generate_cache_key sha256 prompt size model quality in
    st' = st /\ p = _get_cache_path self cache_key /\
    is_Some (disk st !! p) /\
    exists e,
      metadata st !! cache_key = Some e /\
      e_prompt e = Some prompt /\ e_size e = Some size /\
      e_model e = Some model /\ e_quality e = Some quality /\
      exists t, e_timestamp e = Some t /\ (now - t < days 30)%Z.
Proof.
  intros sha256 self st st' now prompt size model quality p Hget cache_key.
  unfold get_cached_image in Hget. fold cache_key in Hget.
  destruct (disk st !! _get_cache_path self cache_key) as [data |] eqn:Hd;
    [| discriminate].
  destruct (metadata st !! cache_key) as [e |] eqn:Hm; [| discriminate].
  destruct (_is_cache_valid e 30 now) eqn:Hv; cbn [negb] in Hget;
    [| discriminate].
  destruct (differs (e_prompt e) prompt) eqn:H1; [discriminate |].
  destruct (differs (e_size e) size) eqn:H2; [discriminate |].
  destruct (differs (e_model e) model) eqn:H3; [discriminate |].
  destruct (differs (e_quality e) quality) eqn:H4; [discriminate |].
  cbn [orb] in Hget. injection Hget as <- <-.
  assert (Hsame : forall o s, differs o s = false -> o = Some s).
  { intros [x |] s H; cbn in H; [| discriminate].
    apply negb_false_iff, String.eqb_eq in H. congruence. }
  split; [reflexivity |]. split; [reflexivity |]. split; [rewrite Hd; eauto |].
  exists e. split; [reflexivity |].
  repeat (split; [apply Hsame; assumption |]).
  unfold _is_cache_valid in Hv. destruct (e_timestamp e) as [t |];
    [| discriminate].
  exists t. split; [reflexivity |]. apply Z.ltb_lt. exact Hv.
Qed.

Lemma served_image_matches_request_witness :
  let st := snd (cache_image (fun s => s) init
                   (mkState (<["out/dragon.png" := "PNG"]> ∅) ∅) 0
                   "out/dragon.png" "a red dragon" "1024x1024" "dall-e-3"
                   "standard") in
  is_Some (disk st !! "cache/images/a red dragon_1024x1024_dall-e-3_standard.png").
Proof.
  intros st.
  apply (served_image_matches_request (fun s => s) init st st 5 "a red dragon"
           "1024x1024" "dall-e-3" "standard"
           "cache/images/a red dragon_1024x1024_dall-e-3_standard.png").
  vm_compute. reflexivity.
Defined.

(** X4. For a maximum age that [timedelta] accepts (at most 999999999
    days in either direction), [clear_expired_cache] leaves exactly the
    metadata entries that are still valid, unchanged, and removes the
    cached file of every entry it drops; files that are no cache path of a
    dropped entry stay. *)
Theorem clear_expired_cache_keeps_valid_entries :
  forall (sha256 : string -> string) (self : ImageCacheService) (st : State)
         (max_age_days now : Z),
    Datetime.timedelta_days_returns max_age_days = true ->
    let st' := clear_expired_cache self st max_age_days now in
    (forall k,
        metadata st' !! k =
        match metadata st !! k with
        | Some e => if _is_cache_valid e max_age_days now then Some e else None
        | None => None
        end) /\
    (forall k e,
        metadata st !! k = Some e ->
        _is_cache_valid e max_age_days now = false ->
        disk st' !! _get_cache_path self k = None) /\
    (forall p,
        (forall k e, metadata st !! k = Some e ->
                     _is_cache_valid e max_age_days now = false ->
                     p <> _get_cache_path self k) ->
        disk st' !! p = disk st !! p).
Proof.
  intros sha256 self st max_age_days now _ st'. subst st'.
  unfold clear_expired_cache. split; [| split].
  - intros k. rewrite remove_all_metadata.
    destruct (decide (k ∈ expired_keys st max_age_days now)) as [Hin | Hnin].
    + apply expired_keys_spec in Hin. destruct Hin as (e & -> & ->). reflexivity.
    + destruct (metadata st !! k) as [e |] eqn:Hk; [| reflexivity].
      destruct (_is_cache_valid e max_age_days now) eqn:Hv; [reflexivity |].
      exfalso. apply Hnin. apply expired_keys_spec. eauto.
  - intros k e Hk Hv. rewrite remove_all_disk.
    destruct (decide (_ ∈ _)) as [_ | Hnin]; [reflexivity |].
    exfalso. apply Hnin. apply list_elem_of_In, in_map, list_elem_of_In.
    apply expired_keys_spec. eauto.
  - intros p Hp. rewrite remove_all_disk.
    destruct (decide (_ ∈ _)) as [Hin | _]; [| reflexivity].
    exfalso. apply list_elem_of_In, in_map_iff in Hin.
    destruct Hin as (k & Hpk & Hk). apply list_elem_of_In, expired_keys_spec in Hk.
    destruct Hk as (e & Hk & Hv). exact (Hp k e Hk Hv (eq_sym Hpk)).
Qed.

Lemma clear_expired_cache_keeps_valid_entries_witness :
  let old_entry := mkEntry (Some "a red dragon") (Some "1024x1024")
                           (Some "dall-e-3") (Some "standard") (Some 0%Z)
                           (Some "out/dragon.png")
                           (Some "cache/images/k1.png") in
  let new_entry := mkEntry (Some "a white tower") (Some "1024x1024")
                           (Some "dall-e-3") (Some "standard")
                           (Some (days 40)) (Some "out/tower.png")
                           (Some "cache/images/k2.png") in
  let st := mkState (<["cache/images/k1.png" := "PNG1"]>
                       (<["cache/images/k2.png" := "PNG2"]> ∅))
                    (<["k1" := old_entry]> (<["k2" := new_entry]> ∅)) in
  let st' := clear_expired_cache init st 30 (days 45) in
  metadata st' !! "k1" = None /\ metadata st' !! "k2" = Some new_entry /\
  disk st' !! "cache/images/k1.png" = None.
Proof.
  cbv zeta.
  pose proof (clear_expired_cache_keeps_valid_entries (fun s => s) init
                (mkState (<["cache/images/k1.png" := "PNG1"]>
                            (<["cache/images/k2.png" := "PNG2"]> ∅))
                         (<["k1" := mkEntry (Some "a red dragon")
                                      (Some "1024x1024") (Some "dall-e-3")
                                      (Some "standard") (Some 0%Z)
                                      (Some "out/dragon.png")
                                      (Some "cache/images/k1.png")]>
                            (<["k2" := mkEntry (Some "a white tower")
                                         (Some "1024x1024") (Some "dall-e-3")
                                         (Some "standard") (Some (days 40))
                                         (Some "out/tower.png")
                                         (Some "cache/images/k2.png")]> ∅)))
                30 (days 45) eq_refl) as H.
  cbv zeta in H. destruct H as (Hmeta & Hgone & _).
  split; [rewrite Hmeta; vm_compute; reflexivity |].
  split; [rewrite Hmeta; vm_compute; reflexivity |].
  apply (Hgone "k1" (mkEntry (Some "a red dragon") (Some "1024x1024")
                             (Some "dall-e-3") (Some "standard") (Some 0%Z)
                             (Some "out/dragon.png")
                             (Some "cache/images/k1.png")));
    vm_compute; reflexivity.
Defined.

End ImageCacheProps.

(** ** The content cache: expiry and deletion *)

Module ContentCacheProps.
Import Cache.

(** X5. When [set] writes an entry at [now] with a ttl for which
    [datetime.now() + timedelta(seconds=ttl)] exists (so that [set] gets
    as far as writing), the entry counts as expired exactly at the times
    strictly after [now + ttl]: at the instant [now + ttl] itself, and
    before, [is_expired] is false. *)
Theorem is_expired_after_set :
  forall (md5 : string -> string) (self : ContentCacheService)
         (fs : gmap string CacheFile) (now later : Z) (k : string)
         (v : pyval) (ttl : Z),
    Datetime.plus_seconds_returns now ttl = true ->
    (is_expired md5 self (snd (set md5 self fs now k v ttl)) later k = true
     <-> (now + ttl < later)%Z).
Proof.
  intros md5 self fs now later k v ttl _.
  unfold set, is_expired. cbn [snd]. rewrite lookup_insert_eq.
  cbn [expires_at]. apply Z.ltb_lt.
Qed.

Lemma is_expired_after_set_witness :
  is_expired (fun k => k) init
    (snd (set (fun k => k) init ∅ 1700000000 "k" (PStr "content") 3600))
    1700003600 "k" = false /\
  is_expired (fun k => k) init
    (snd (set (fun k => k) init ∅ 1700000000 "k" (PStr "content") 3600))
    1700003601 "k" = true.
Proof.
  pose proof (is_expired_after_set (fun k => k) init ∅ 1700000000 1700003600
                "k" (PStr "content") 3600 eq_refl) as Hat.
  pose proof (is_expired_after_set (fun k => k) init ∅ 1700000000 1700003601
                "k" (PStr "content") 3600 eq_refl) as Hafter.
  split.
  - destruct (is_expired _ _ _ 1700003600 "k"); [| reflexivity].
    exfalso. assert (H : (1700000000 + 3600 < 1700003600)%Z)
      by (apply Hat; reflexivity). lia.
  - apply Hafter. lia.
Defined.

(** X6. [delete] forgets its key and nothing else: afterwards the key is
    a miss, does not exist and counts as expired, while every key whose
    file is another one reads, exists and expires as before. Deleting a
    key that was never written succeeds and changes nothing. *)
Theorem delete_forgets_only_its_key :
  forall (md5 : string -> string) (self : ContentCacheService)
         (fs : gmap string CacheFile) (now : Z) (k : string),
    let fs' := snd (delete md5 self fs k) in
    fst (delete md5 self fs k) = true /\
    get md5 self fs' k = PNone /\
    exists_ md5 self fs' k = false /\
    is_expired md5 self fs' now k = true /\
    (forall k',
        _get_cache_path md5 self k' <> _get_cache_path md5 self k ->
        get md5 self fs' k' = get md5 self fs k' /\
        exists_ md5 self fs' k' = exists_ md5 self fs k' /\
        is_expired md5 self fs' now k' = is_expired md5 self fs now k') /\
    (exists_ md5 self fs k = false -> fs' = fs).
Proof.
  intros md5 self fs now k fs'. subst fs'.
  unfold delete, get, exists_, is_expired. cbn [fst snd].
  rewrite !lookup_delete_eq. repeat split.
  - rewrite lookup_delete_ne; [reflexivity | congruence].
  - rewrite lookup_delete_ne; [reflexivity | congruence].
  - rewrite lookup_delete_ne; [reflexivity | congruence].
  - intros H. apply delete_id.
    destruct (fs !! _get_cache_path md5 self k); [discriminate | reflexivity].
Qed.

End ContentCacheProps.

(** ** The watchdog: image prompts, concepts, campaigns and batches *)

Module WatchdogMoreProps.
Import Watchdog.

Lemma active_is_init (w : ContentIntegrityWatchdog) :
  is_active w = true -> w = init true.
Proof. destruct w as [b]. cbn. intros ->. reflexivity. Qed.

Lemma validate_image_prompt_returns_True (w : ContentIntegrityWatchdog)
    (v : pyval) (b : bool) :
  validate_image_prompt w v = Ok b -> b = true.
Proof.
  unfold validate_image_prompt. intros Hv.
  repeat match type of Hv with
         | (if ?c then _ else _) = _ => destruct c; try discriminate
         | match ?c with _ => _ end = _ => destruct c; try discriminate
         end; congruence.
Qed.

(** The validators raise nothing but [ContentIntegrityError]. *)
Lemma validate_text_content_raises_integrity (w : ContentIntegrityWatchdog)
    (section_name : string) (v : pyval) (e : exn) :
  validate_text_content w section_name v = Raise e ->
  is_ContentIntegrityError e = true.
Proof.
  unfold validate_text_content. intros Hv.
  repeat match type of Hv with
         | (if ?c then _ else _) = _ => destruct c; try discriminate
         | match ?c with _ => _ end = _ => destruct c; try discriminate
         end; injection Hv as <-; reflexivity.
Qed.

Lemma validate_image_prompt_raises_integrity (w : ContentIntegrityWatchdog)
    (v : pyval) (e : exn) :
  validate_image_prompt w v = Raise e -> is_ContentIntegrityError e = true.
Proof.
  unfold validate_image_prompt. intros Hv.
  repeat match type of Hv with
         | (if ?c then _ else _) = _ => destruct c; try discriminate
         | match ?c with _ => _ end = _ => destruct c; try discriminate
         end; injection Hv as <-; reflexivity.
Qed.

(** An accepted value is a string that satisfies the four rules. *)
Lemma validate_text_content_accepts (w : ContentIntegrityWatchdog)
    (section_name : string) (v : pyval) (b : bool) :
  is_active w = true ->
  validate_text_content w section_name v = Ok b ->
  exists text,
    v = PStr text /\ text <> "" /\
    (forall p, In p forbidden_patterns ->
               contains (lower p) (lower text) = false) /\
    min_length section_name <= String.length (strip text) /\
    5 <= distinct (split (lower text)).
Proof.
  intros Hact Hv. apply active_is_init in Hact. subst w.
  assert (Hstr : is_str v = true).
  { unfold validate_text_content in Hv. cbn [is_active init negb] in Hv.
    destruct (is_str v); [reflexivity |].
    cbn [negb] in Hv. rewrite orb_true_r in Hv. discriminate. }
  destruct v as [| b0 | z | f | text | l | d]; try discriminate.
  exists text. split; [reflexivity |].
  apply WatchdogProps.validate_text_content_Ok_iff.
  rewrite Hv. f_equal.
  exact (WatchdogProps.validate_text_content_returns_True _ _ _ _ Hv).
Qed.

Lemma each_Ok_iff {A : Type} (f : A -> result bool) (l : list A) :
  (forall x b, f x = Ok b -> b = true) ->
  (each f l = Ok true <-> forall x, In x l -> f x = Ok true).
Proof.
  intros Htrue. induction l as [| x l IH]; cbn [each].
  - split; [intros _ y [] | reflexivity].
  - unfold andThen. destruct (f x) as [b |] eqn:Hx.
    + rewrite IH. split.
      * intros H y [<- | Hy]; [| exact (H y Hy)].
        rewrite Hx. f_equal. exact (Htrue _ _ Hx).
      * intros H y Hy. apply H. right. exact Hy.
    + split; [discriminate |]. intros H.
      specialize (H x (or_introl eq_refl)). congruence.
Qed.

(** X7. With the watchdog active, an image prompt is accepted exactly
    when it is a non-empty string that contains none of the forbidden
    image patterns (whatever the case), has at least 20 characters once
    stripped, and contains none of the characters [ ] { } < >. Everything
    else raises a [ContentIntegrityError], and nothing but that. *)
Theorem validate_image_prompt_rules :
  forall (w : ContentIntegrityWatchdog) (v : pyval),
    is_active w = true ->
    (validate_image_prompt w v = Ok true <->
     exists text,
       v = PStr text /\ text <> "" /\
       (forall p, In p forbidden_image_patterns ->
                  contains (lower p) (lower text) = false) /\
       20 <= String.length (strip text) /\
       has_template_marker text = false) /\
    (validate_image_prompt w v = Ok true \/
     exists msg, validate_image_prompt w v = Raise (ContentIntegrityError msg)).
Proof.
  intros w v Hact. unfold validate_image_prompt. rewrite Hact. cbn [negb].
  destruct (is_str v) eqn:Hstr.
  2:{ cbn [negb]. rewrite orb_true_r.
      split; [| right; eauto].
      split; [discriminate |]. intros (t & -> & _). discriminate. }
  destruct v as [| b0 | z | f | text | l | d]; try discriminate.
  cbn [truthy negb orb str_value].
  destruct (String.eqb_spec text "") as [-> | Hne]; cbn [negb orb].
  { split; [| right; eauto].
    split; [discriminate |]. intros (t & Ht & Hn & _).
    injection Ht as <-. congruence. }
  destruct (first_forbidden forbidden_image_patterns (lower text)) as [p |] eqn:Hf.
  { split; [| right; eauto].
    split; [discriminate |]. intros (t & Ht & _ & Hall & _).
    injection Ht as <-.
    apply WatchdogProps.first_forbidden_Some in Hf. destruct Hf as [Hin Hc].
    rewrite (Hall p Hin) in Hc. discriminate. }
  rewrite WatchdogProps.first_forbidden_None in Hf.
  destruct (Nat.ltb_spec (String.length (strip text)) 20).
  { split; [| right; eauto].
    split; [discriminate |]. intros (t & Ht & _ & _ & Hlen & _).
    injection Ht as <-. lia. }
  destruct (has_template_marker text) eqn:Hm.
  { split; [| right; eauto].
    split; [discriminate |]. intros (t & Ht & _ & _ & _ & Hmark).
    injection Ht as <-. congruence. }
  split; [| left; reflexivity].
  split; [| reflexivity]. intros _. exists text. repeat split; assumption.
Qed.

Lemma validate_image_prompt_rules_witness :
  validate_image_prompt (init true)
    (PStr "A ruined watchtower above a stormy northern sea at dusk") = Ok true.
Proof.
  apply (validate_image_prompt_rules (init true)
           (PStr "A ruined watchtower above a stormy northern sea at dusk")).
  - reflexivity.
  - exists "A ruined watchtower above a stormy northern sea at dusk".
    split; [reflexivity |]. split; [discriminate |].
    split; [apply WatchdogProps.first_forbidden_None; vm_compute; reflexivity |].
    split; [vm_compute; lia | vm_compute; reflexivity].
Defined.

(** X8. A concept that an active watchdog accepts is a dict whose title
    and description are strings of at least 100 characters once stripped
    (the names ["concept_title"] and ["concept_description"] are no keys
    of the table of minimum lengths, so the default applies), and so is
    its subtitle when it has one. It has a ["level_range"] entry, but the
    value of that entry is never looked at: any value does. *)
Theorem accepted_concept_has_long_title :
  forall (w : ContentIntegrityWatchdog) (concept : pyval) (b : bool),
    is_active w = true ->
    validate_campaign_concept w concept = Ok b ->
    exists d title descr,
      concept = PDict d /\
      assoc "title" d = Some (PStr title) /\
      100 <= String.length (strip title) /\
      assoc "description" d = Some (PStr descr) /\
      100 <= String.length (strip descr) /\
      has_key "level_range" d = true /\
      (forall sub, assoc "subtitle" d = Some sub ->
                   exists s, sub = PStr s /\ 100 <= String.length (strip s)) /\
      (forall v, validate_campaign_concept w
                   (PDict (("level_range", v) :: d)) = Ok true).
Proof.
  intros w concept b Hact Hv.
  assert (Hrun := Hv).
  unfold validate_campaign_concept in Hv. rewrite Hact in Hv. cbn [negb] in Hv.
  destruct (is_dict concept) eqn:Hdict.
  2:{ cbn [negb] in Hv. rewrite orb_true_r in Hv. discriminate. }
  destruct concept as [| b0 | z | f | text | l | d]; try discriminate.
  destruct (negb (truthy (PDict d)) || negb true) eqn:Hshape;
    [discriminate |].
  destruct (List.find (fun field => negb (has_key field d)) required_fields)
    as [field |] eqn:Hreq; [discriminate |].
  assert (Hkeys : forall k, In k required_fields -> has_key k d = true).
  { intros k Hk. pose proof (find_none _ _ Hreq k Hk) as H.
    apply negb_false_iff in H. exact H. }
  assert (Ht : has_key "title" d = true) by (apply Hkeys; cbn; tauto).
  assert (Hd : has_key "description" d = true) by (apply Hkeys; cbn; tauto).
  assert (Hl : has_key "level_range" d = true) by (apply Hkeys; cbn; tauto).
  unfold has_key in Ht, Hd.
  unfold item, get_default, andThen in Hv.
  destruct (assoc "title" d) as [tv |] eqn:Hta; [| discriminate].
  destruct (assoc "description" d) as [dv |] eqn:Hda; [| discriminate].
  destruct (validate_text_content w "concept_title" tv) as [b1 |] eqn:H1;
    [| discriminate].
  destruct (validate_text_content w "concept_description" dv) as [b2 |] eqn:H2;
    [| discriminate].
  destruct (validate_text_content_accepts _ _ _ _ Hact H1)
    as (title & -> & _ & _ & Hlen1 & _).
  destruct (validate_text_content_accepts _ _ _ _ Hact H2)
    as (descr & -> & _ & _ & Hlen2 & _).
  exists d, title, descr.
  split; [reflexivity |]. split; [exact Hta |].
  split; [exact Hlen1 |]. split; [exact Hda |]. split; [exact Hlen2 |].
  split; [exact Hl |]. split.
  - intros sub Hsub. rewrite Hsub in Hv.
    destruct (validate_text_content w "concept_subtitle" sub) as [b3 |] eqn:H3;
      [| discriminate].
    destruct (validate_text_content_accepts _ _ _ _ Hact H3)
      as (s & -> & _ & _ & Hlen3 & _).
    exists s. split; [reflexivity | exact Hlen3].
  - intros v. unfold validate_campaign_concept. rewrite Hact.
    cbn [negb truthy is_dict orb].
    assert (Hreq' : List.find (fun field => negb (has_key field
                                 (("level_range", v) :: d))) required_fields
                    = None).
    { unfold required_fields. cbn [List.find].
      assert (Hk : forall k, has_key k d = true ->
                             has_key k (("level_range", v) :: d) = true).
      { intros k Hk. unfold has_key in *. cbn [assoc].
        destruct (String.eqb k "level_range"); [reflexivity | exact Hk]. }
      rewrite (Hk "title"), (Hk "description"), (Hk "level_range");
        try reflexivity; try exact Hl;
        unfold has_key; rewrite ?Hta, ?Hda; reflexivity. }
    rewrite Hreq'. unfold item, get_default, andThen.
    cbn [assoc String.eqb Ascii.eqb Bool.eqb]. rewrite Hta, Hda, H1, H2.
    destruct (assoc "subtitle" d) as [sub |] eqn:Hsub; [| reflexivity].
    destruct (validate_text_content w "concept_subtitle" sub) as [b3 |] eqn:H3;
      [reflexivity | discriminate].
Qed.

Lemma accepted_concept_has_long_title_witness :
  exists d title descr,
    Scenarios.good_concept = PDict d /\
    assoc "title" d = Some (PStr title) /\
    100 <= String.length (strip title) /\
    assoc "description" d = Some (PStr descr) /\
    100 <= String.length (strip descr) /\
    has_key "level_range" d = true /\
    (forall sub, assoc "subtitle" d = Some sub ->
                 exists s, sub = PStr s /\ 100 <= String.length (strip s)) /\
    (forall v, validate_campaign_concept (init true)
                 (PDict (("level_range", v) :: d)) = Ok true).
Proof.
  apply (accepted_concept_has_long_title (init true) Scenarios.good_concept true).
  - reflexivity.
  - vm_compute. reflexivity.
Defined.

End WatchdogMoreProps.

Module CampaignIntegrityProps.
Import Watchdog.

Lemma validate_section_image_returns_True (w : ContentIntegrityWatchdog)
    (image : pyval) (b : bool) :
  validate_section_image w image = Ok b -> b = true.
Proof.
  unfold validate_section_image. intros H.
  destruct image as [| b0 | z | f | text | l | d]; try congruence.
  destruct (assoc "prompt" d) as [prompt |]; [| congruence].
  exact (WatchdogMoreProps.validate_image_prompt_returns_True _ _ _ H).
Qed.

Lemma validate_section_returns_True (w : ContentIntegrityWatchdog)
    (s : CampaignSection) (b : bool) :
  validate_section w s = Ok b -> b = true.
Proof.
  unfold validate_section, andThen. intros H.
  destruct (validate_text_content w (section_id s) (content s)); [| discriminate].
  destruct (each (validate_section_image w) (images s)) as [b' |] eqn:He;
    [| discriminate].
  injection H as <-.
  destruct b'; [reflexivity |]. exfalso.
  assert (Hall : forall x, In x (images s) ->
                           exists b0, validate_section_image w x = Ok b0).
  { exact (OrchestratorProps.each_Ok _ _ _ He). }
  clear -He. revert He. induction (images s) as [| x l IH]; cbn [each].
  - discriminate.
  - unfold andThen. destruct (validate_section_image w x); [exact IH | discriminate].
Qed.

Lemma validate_section_Ok_iff (w : ContentIntegrityWatchdog)
    (s : CampaignSection) :
  validate_section w s = Ok true <->
  validate_text_content w (section_id s) (content s) = Ok true /\
  forall d prompt, In (PDict d) (images s) ->
                   assoc "prompt" d = Some prompt ->
                   validate_image_prompt w prompt = Ok true.
Proof.
  unfold validate_section, andThen.
  destruct (validate_text_content w (section_id s) (content s)) as [b |] eqn:Ht.
  2:{ split; [discriminate | intros [H _]; discriminate]. }
  pose proof (WatchdogProps.validate_text_content_returns_True _ _ _ _ Ht). subst b.
  rewrite (WatchdogMoreProps.each_Ok_iff (validate_section_image w) (images s)
             (validate_section_image_returns_True w)).
  split.
  - intros H. split; [reflexivity |]. intros d prompt Hin Hp.
    specialize (H _ Hin). unfold validate_section_image in H.
    rewrite Hp in H. exact H.
  - intros [_ H] image Hin. unfold validate_section_image.
    destruct image as [| b0 | z | f | text | l | d]; try reflexivity.
    destruct (assoc "prompt" d) as [prompt |] eqn:Hp; [| reflexivity].
    exact (H d prompt Hin Hp).
Qed.

(** The final pass, rule by rule. *)
Lemma entire_campaign_Ok_iff :
  forall (w : ContentIntegrityWatchdog) (c : Campaign),
    is_active w = true ->
    (validate_entire_campaign w c = Ok true <->
     validate_text_content w "campaign_title" (name c) = Ok true /\
     validate_text_content w "campaign_description" (description c) = Ok true /\
     (forall s, In s (sections c) ->
                validate_text_content w (section_id s) (content s) = Ok true /\
                forall d prompt,
                  In (PDict d) (images s) ->
                  assoc "prompt" d = Some prompt ->
                  validate_image_prompt w prompt = Ok true) /\
     (forall prefs txt,
         player_preferences c = Some prefs ->
         freeform_input prefs = Some txt ->
         txt <> "" ->
         validate_text_content w "player_input" (PStr txt) = Ok true)).
Proof.
  intros w c Hact. unfold validate_entire_campaign. rewrite Hact.
  cbn [negb]. unfold andThen.
  destruct (validate_text_content w "campaign_title" (name c)) as [b1 |] eqn:H1.
  2:{ split; [discriminate | intros (H & _); discriminate]. }
  pose proof (WatchdogProps.validate_text_content_returns_True _ _ _ _ H1). subst b1.
  destruct (validate_text_content w "campaign_description" (description c))
    as [b2 |] eqn:H2.
  2:{ split; [discriminate | intros (_ & H & _); discriminate]. }
  pose proof (WatchdogProps.validate_text_content_returns_True _ _ _ _ H2). subst b2.
  destruct (each (validate_section w) (sections c)) as [b3 |] eqn:H3.
  2:{ split; [discriminate |]. intros (_ & _ & Hs & _). exfalso.
      assert (He : each (validate_section w) (sections c) = Ok true).
      { apply (WatchdogMoreProps.each_Ok_iff (validate_section w) (sections c)
                 (validate_section_returns_True w)).
        intros s Hin. apply validate_section_Ok_iff. exact (Hs s Hin). }
      congruence. }
  assert (Hsec : forall s, In s (sections c) ->
             validate_text_content w (section_id s) (content s) = Ok true /\
             forall d prompt, In (PDict d) (images s) ->
                              assoc "prompt" d = Some prompt ->
                              validate_image_prompt w prompt = Ok true).
  { intros s Hin. apply validate_section_Ok_iff.
    destruct (OrchestratorProps.each_Ok _ _ _ H3 s Hin) as [b' Hb'].
    rewrite Hb'. f_equal. exact (validate_section_returns_True _ _ _ Hb'). }
  destruct (player_preferences c) as [prefs |] eqn:Hprefs.
  2:{ split; [| reflexivity]. intros _. split; [reflexivity | split; [reflexivity | split; [exact Hsec |]]].
      intros ? ? Hp. discriminate Hp. }
  destruct (freeform_input prefs) as [txt |] eqn:Hfree.
  2:{ split; [| reflexivity]. intros _. split; [reflexivity | split; [reflexivity | split; [exact Hsec |]]].
      intros ? ? Hp Hf. injection Hp as <-. congruence. }
  destruct (String.eqb_spec txt "") as [-> | Hne]; cbn [negb].
  { split; [| reflexivity]. intros _. split; [reflexivity | split; [reflexivity | split; [exact Hsec |]]].
    intros ? ? Hp Hf Hn. injection Hp as <-. congruence. }
  destruct (validate_text_content w "player_input" (PStr txt)) as [b4 |] eqn:H4.
  - pose proof (WatchdogProps.validate_text_content_returns_True _ _ _ _ H4). subst b4.
    split; [| reflexivity]. intros _. split; [reflexivity | split; [reflexivity | split; [exact Hsec |]]].
    intros ? ? Hp Hf _. injection Hp as <-. congruence.
  - split; [discriminate |]. intros (_ & _ & _ & Hp).
    specialize (Hp prefs txt eq_refl Hfree Hne). congruence.
Qed.

(** X9. With the watchdog active, a campaign passes
    [validate_entire_campaign] exactly when its name passes as
    ["campaign_title"], its description as ["campaign_description"], the
    content of every section under the section's own identifier, every
    ["prompt"] of a section image as an image prompt, and the player's
    non-empty free-form input as ["player_input"]. *)
Theorem validate_entire_campaign_rules :
  forall (w : ContentIntegrityWatchdog) (c : Campaign),
    is_active w = true ->
    (validate_entire_campaign w c = Ok true <->
     validate_text_content w "campaign_title" (name c) = Ok true /\
     validate_text_content w "campaign_description" (description c) = Ok true /\
     (forall s, In s (sections c) ->
                validate_text_content w (section_id s) (content s) = Ok true /\
                forall d prompt,
                  In (PDict d) (images s) ->
                  assoc "prompt" d = Some prompt ->
                  validate_image_prompt w prompt = Ok true) /\
     (forall prefs txt,
         player_preferences c = Some prefs ->
         freeform_input prefs = Some txt ->
         txt <> "" ->
         validate_text_content w "player_input" (PStr txt) = Ok true)).
Proof. exact entire_campaign_Ok_iff. Qed.

Lemma validate_entire_campaign_rules_witness :
  validate_text_content (init true) "campaign_title" (name Scenarios.campaign)
    = Ok true.
Proof.
  apply (proj1 (validate_entire_campaign_rules (init true) Scenarios.campaign
                  eq_refl)).
  vm_compute. reflexivity.
Defined.

End CampaignIntegrityProps.

Module BatchProps.
Import Watchdog Batch.

Lemma validate_item_raises_integrity (w : ContentIntegrityWatchdog)
    (item : Item) (e : exn) :
  validate_item w item = Raise e -> is_ContentIntegrityError e = true.
Proof.
  unfold validate_item. destruct (String.eqb _ _).
  - apply WatchdogMoreProps.validate_image_prompt_raises_integrity.
  - apply WatchdogMoreProps.validate_text_content_raises_integrity.
Qed.

(** The loop, from any index and any intermediate result. *)
Lemma batch_loop_spec (w : ContentIntegrityWatchdog) (items : list Item) :
  forall (i : nat) (results : Results),
  exists res ds,
    batch_loop w i items results = Ok res /\
    details res = List.app (details results) ds /\
    List.length ds = List.length items /\
    passed res + failed res
      = passed results + failed results + List.length items /\
    failed res = failed results
                 + List.length (List.filter
                                  (fun item => raises (validate_item w item))
                                  items) /\
    forall k item,
      nth_error items k = Some item ->
      exists d,
        nth_error ds k = Some d /\ d_index d = i + k /\
        d_type d = content_type item /\
        d_length d = len (content_of item) /\
        match validate_item w item with
        | Ok _ => d_status d = passed_status /\ d_error d = None
        | Raise e => d_status d = failed_status /\ d_error d = Some (message e)
        end.
Proof.
  induction items as [| item rest IH]; intros i results.
  - exists results, []. cbn [batch_loop List.length List.filter].
    split; [reflexivity |]. split; [symmetry; apply app_nil_r |].
    split; [reflexivity |]. split; [lia |]. split; [lia |].
    intros k it Hk. destruct k; discriminate Hk.
  - cbn [batch_loop List.filter].
    destruct (validate_item w item) as [b | e] eqn:Hv.
    + destruct (IH (S i)
                   (mkResults (passed results + 1) (failed results)
                      (List.app (details results)
                         [mkDetail i (content_type item) passed_status None
                                   (len (content_of item))])))
        as (res & ds & Hrun & Hd & Hlen & Hsum & Hfail & Hnth).
      cbn [passed failed details] in *.
      exists res, (mkDetail i (content_type item) passed_status None
                            (len (content_of item)) :: ds).
      split; [exact Hrun |].
      split; [rewrite Hd, <- app_assoc; reflexivity |].
      split; [cbn [List.length]; lia |].
      split; [cbn [List.length]; lia |].
      split; [cbn [raises]; exact Hfail |].
      intros k it Hk. destruct k as [| k].
      * cbn in Hk. injection Hk as <-. eexists. split; [reflexivity |].
        cbn [d_index d_type d_length d_status d_error]. rewrite Hv.
        repeat split. lia.
      * cbn in Hk. destruct (Hnth k it Hk) as (d & Hdk & Hi & Hrest).
        exists d. split; [exact Hdk |]. split; [lia | exact Hrest].
    + rewrite (validate_item_raises_integrity _ _ _ Hv).
      destruct (IH (S i)
                   (mkResults (passed results) (failed results + 1)
                      (List.app (details results)
                         [mkDetail i (content_type item) failed_status
                                   (Some (message e)) (len (content_of item))])))
        as (res & ds & Hrun & Hd & Hlen & Hsum & Hfail & Hnth).
      cbn [passed failed details] in *.
      exists res, (mkDetail i (content_type item) failed_status
                            (Some (message e)) (len (content_of item)) :: ds).
      split; [exact Hrun |].
      split; [rewrite Hd, <- app_assoc; reflexivity |].
      split; [cbn [List.length]; lia |].
      split; [cbn [List.length]; lia |].
      split; [cbn [raises List.length]; lia |].
      intros k it Hk. destruct k as [| k].
      * cbn in Hk. injection Hk as <-. eexists. split; [reflexivity |].
        cbn [d_index d_type d_length d_status d_error]. rewrite Hv.
        repeat split. lia.
      * cbn in Hk. destruct (Hnth k it Hk) as (d & Hdk & Hi & Hrest).
        exists d. split; [exact Hdk |]. split; [lia | exact Hrest].
Qed.

(** X10. [validate_batch_content] never raises, and its two counts add up
    to the size of the batch. With the watchdog active there is one
    detail per item, in batch order: the detail at position [i] carries
    the index [i], the item's type and content length, and the status
    "passed" exactly when the item's validation returned, otherwise
    "failed" with the message of the error; ["failed"] counts the items
    whose validation raised. With the watchdog inactive every item
    counts as passed and the details stay empty. *)
Theorem validate_batch_content_accounts_for_every_item :
  forall (w : ContentIntegrityWatchdog) (content_batch : list Item),
  exists res,
    validate_batch_content w content_batch = Ok res /\
    passed res + failed res = List.length content_batch /\
    (is_active w = false ->
     passed res = List.length content_batch /\ details res = []) /\
    (is_active w = true ->
     List.length (details res) = List.length content_batch /\
     failed res = List.length (List.filter
                                 (fun item => raises (validate_item w item))
                                 content_batch) /\
     forall i item,
       nth_error content_batch i = Some item ->
       exists d,
         nth_error (details res) i = Some d /\ d_index d = i /\
         d_type d = content_type item /\
         d_length d = len (content_of item) /\
         match validate_item w item with
         | Ok _ => d_status d = passed_status /\ d_error d = None
         | Raise e => d_status d = failed_status /\ d_error d = Some (message e)
         end).
Proof.
  intros w content_batch. unfold validate_batch_content.
  destruct (is_active w) eqn:Hact; cbn [negb].
  - destruct (batch_loop_spec w content_batch 0 (mkResults 0 0 []))
      as (res & ds & Hrun & Hd & Hlen & Hsum & Hfail & Hnth).
    cbn [passed failed details List.app] in *.
    exists res. split; [exact Hrun |]. split; [lia |].
    split; [discriminate |]. intros _.
    rewrite Hd. split; [exact Hlen |]. split; [exact Hfail |].
    intros i item Hi. destruct (Hnth i item Hi) as (d & Hdk & Hidx & Hrest).
    exists d. split; [exact Hdk |]. split; [exact Hidx | exact Hrest].
  - eexists. split; [reflexivity |]. cbn [passed failed details].
    split; [lia |]. split; [intros _; split; reflexivity | discriminate].
Qed.

End BatchProps.

(** ** The monitoring service *)

Module MonitoringProps.
Import Monitor Reports.

Lemma filter_nil_iff {A : Type} (f : A -> bool) (l : list A) :
  List.filter f l = [] <-> forall x, In x l -> f x = false.
Proof.
  induction l as [| x l IH]; cbn [List.filter].
  - split; [intros _ y [] | reflexivity].
  - destruct (f x) eqn:Hx.
    + split; [discriminate |]. intros H.
      rewrite (H x (or_introl eq_refl)) in Hx. discriminate.
    + rewrite IH. split.
      * intros H y [<- | Hy]; [exact Hx | exact (H y Hy)].
      * intros H y Hy. apply H. right. exact Hy.
Qed.

Lemma map_nil_iff {A B : Type} (f : A -> B) (l : list A) :
  List.map f l = [] <-> l = [].
Proof. destruct l; cbn; split; congruence. Qed.

Lemma app_nil_iff {A : Type} (l1 l2 : list A) :
  List.app l1 l2 = [] <-> l1 = [] /\ l2 = [].
Proof.
  destruct l1; cbn; split.
  - intros ->. split; reflexivity.
  - intros [_ H]. exact H.
  - discriminate.
  - intros [H _]. discriminate.
Qed.

Lemma is_nil_true {A : Type} (l : list A) :
  match l with [] => true | _ => false end = true <-> l = [].
Proof. destruct l; split; congruence. Qed.

(** The check that depends on the content type. *)
Lemma specific_issue_nil (c content_type : string) :
  (if String.eqb content_type "monster" then
     if _validate_monster_content c then []
     else ["Monster content format validation failed"]
   else if String.eqb content_type "location" then
     if _validate_location_content c then []
     else ["Location content format validation failed"]
   else if String.eqb content_type "npc" then
     if _validate_npc_content c then []
     else ["NPC content format validation failed"]
   else []) = [] <->
  (content_type = "monster" -> _validate_monster_content c = true) /\
  (content_type = "location" -> _validate_location_content c = true) /\
  (content_type = "npc" -> _validate_npc_content c = true).
Proof.
  destruct (String.eqb_spec content_type "monster") as [-> | Hm].
  { destruct (_validate_monster_content c); split;
      try discriminate; try (intros; repeat split; congruence).
    intros (H & _). specialize (H eq_refl). discriminate. }
  destruct (String.eqb_spec content_type "location") as [-> | Hl].
  { destruct (_validate_location_content c); split;
      try discriminate; try (intros; repeat split; congruence).
    intros (_ & H & _). specialize (H eq_refl). discriminate. }
  destruct (String.eqb_spec content_type "npc") as [-> | Hn].
  { destruct (_validate_npc_content c); split;
      try discriminate; try (intros; repeat split; congruence).
    intros (_ & _ & H). specialize (H eq_refl). discriminate. }
  split; [intros _; repeat split; congruence | reflexivity].
Qed.

Lemma short_content (c : string) :
  String.eqb c "" || (String.length (strip c) <? 10) = true <->
  String.length (strip c) < 10.
Proof.
  destruct (String.eqb_spec c "") as [-> | Hne]; cbn [orb].
  - split; [intros _; vm_compute; lia | reflexivity].
  - apply Nat.ltb_lt.
Qed.

(** The verdict of [verify_content] and its issues. *)
Lemma verify_content_spec :
  forall c content_type : string,
    (fst (verify_content c content_type) = true <->
     snd (verify_content c content_type) = []) /\
    (fst (verify_content c content_type) = true <->
     10 <= String.length (strip c) /\
     (forall p, In p fallback_phrases -> contains (lower p) (lower c) = false) /\
     (forall p, In p placeholder_patterns ->
                contains (lower p) (lower c) = false) /\
     (content_type = "monster" -> _validate_monster_content c = true) /\
     (content_type = "location" -> _validate_location_content c = true) /\
     (content_type = "npc" -> _validate_npc_content c = true)).
Proof.
  intros c content_type. unfold verify_content.
  destruct (String.eqb c "" || (String.length (strip c) <? 10)) eqn:Hshort.
  - apply short_content in Hshort. cbn [fst snd].
    split; (split; [discriminate |]); [discriminate |].
    intros (Hlen & _). lia.
  - assert (Hlong : 10 <= String.length (strip c)).
    { destruct (Nat.lt_ge_cases (String.length (strip c)) 10) as [Hlt | Hge];
        [| exact Hge].
      apply short_content in Hlt. congruence. }
    cbn [fst snd]. split; [apply is_nil_true |].
    rewrite is_nil_true, !app_nil_iff, !map_nil_iff, !filter_nil_iff,
      specific_issue_nil.
    split.
    + intros (H1 & H2 & H3). split; [exact Hlong |]. split; [exact H1 |].
      split; [exact H2 | exact H3].
    + intros (_ & H1 & H2 & H3). split; [exact H1 |].
      split; [exact H2 | exact H3].
Qed.

(** X11. [verify_content] accepts a text exactly when it has at least 10
    characters once stripped, contains no fallback phrase and no
    placeholder pattern (whatever the case) and, for the content types
    "monster", "location" and "npc", enough of the expected elements.
    The verdict is true exactly when the list of issues is empty, so a
    rejection always names at least one issue. *)
Theorem verify_content_rules :
  forall c content_type : string,
    (fst (verify_content c content_type) = true <->
     snd (verify_content c content_type) = []) /\
    (fst (verify_content c content_type) = true <->
     10 <= String.length (strip c) /\
     (forall p, In p fallback_phrases -> contains (lower p) (lower c) = false) /\
     (forall p, In p placeholder_patterns ->
                contains (lower p) (lower c) = false) /\
     (content_type = "monster" -> _validate_monster_content c = true) /\
     (content_type = "location" -> _validate_location_content c = true) /\
     (content_type = "npc" -> _validate_npc_content c = true)).
Proof. exact verify_content_spec. Qed.

(** One step of [verify_ai_response], by the verdict. *)
Lemma verify_ai_response_step (s : WatchdogService) (c content_type src : string) :
  snd (verify_ai_response s c content_type src) =
  if fst (verify_content c content_type) then
    track_metric (with_error_count s 0) ERROR_RATE (Float 0%float) src
  else
    _create_alert
      (track_metric (with_error_count s (error_count s + 1)) ERROR_RATE
                    (Float 1%float) src)
      ("Content verification failed for " ++ content_type)
      (if alert_threshold s <=? error_count s + 1 then CRITICAL else WARNING)
      src.
Proof.
  unfold verify_ai_response.
  pose proof (proj1 (verify_content_spec c content_type)) as Hnil.
  destruct (verify_content c content_type) as [is_valid issues].
  cbn [fst snd] in *. destruct is_valid; cbn [negb snd]; [reflexivity |].
  destruct issues as [| i issues]; [| reflexivity].
  exfalso. assert (H : false = true) by (apply Hnil; reflexivity).
  discriminate H.
Qed.

Lemma verify_ai_response_verdict (s : WatchdogService)
    (c content_type src : string) :
  fst (verify_ai_response s c content_type src) = verify_content c content_type.
Proof.
  unfold verify_ai_response.
  destruct (verify_content c content_type) as [is_valid issues].
  destruct is_valid; reflexivity.
Qed.

(** X12. Consecutive rejections escalate. After a run of responses that
    [verify_ai_response] rejects, the error count has grown by the length
    of the run, and each rejection added one unresolved alert from the
    source of the response: the [k]-th of the run (from 1) is CRITICAL
    when the count it reaches, [error_count + k], is at least the alert
    threshold, and a WARNING below that. *)
Theorem consecutive_rejections_escalate :
  forall (content_type src : string) (cs : list string) (s : WatchdogService),
    Forall (fun c => fst (verify_content c content_type) = false) cs ->
    let s' := perform_all s
                (List.map (fun c => VerifyAiResponse c content_type src) cs) in
    error_count s' = error_count s + List.length cs /\
    alert_threshold s' = alert_threshold s /\
    exists new,
      alerts s' = List.app (alerts s) new /\
      List.length new = List.length cs /\
      forall k a,
        nth_error new k = Some a ->
        severity a = (if alert_threshold s <=? error_count s + (k + 1)
                      then CRITICAL else WARNING) /\
        source a = src /\ resolved a = false.
Proof.
  intros content_type src cs. induction cs as [| c cs IH]; intros s Hall s'.
  - subst s'. cbn. split; [lia |]. split; [reflexivity |].
    exists []. split; [symmetry; apply app_nil_r |]. split; [reflexivity |].
    intros k a Hk. destruct k; discriminate Hk.
  - inversion Hall as [| ? ? Hc Hcs]; subst.
    subst s'. unfold perform_all. cbn [List.map fold_left perform].
    rewrite verify_ai_response_step, Hc.
    set (s1 := _create_alert _ _ _ _).
    destruct (IH s1 Hcs) as (Hcount & Hthr & new & Halerts & Hlen & Hsev).
    unfold perform_all in *.
    assert (Hc1 : error_count s1 = error_count s + 1) by reflexivity.
    assert (Ht1 : alert_threshold s1 = alert_threshold s) by reflexivity.
    split; [rewrite Hcount, Hc1; cbn [List.length]; lia |].
    split; [rewrite Hthr; exact Ht1 |].
    exists (mkAlert ("Content verification failed for " ++ content_type)
                    (if alert_threshold s <=? error_count s + 1
                     then CRITICAL else WARNING) src false :: new).
    split.
    { rewrite Halerts. subst s1. cbn [alerts _create_alert with_alerts].
      rewrite <- app_assoc. reflexivity. }
    split; [cbn [List.length]; lia |].
    intros k a Hk. destruct k as [| k].
    + cbn in Hk. injection Hk as <-. cbn [severity source resolved].
      repeat split.
    + cbn in Hk. destruct (Hsev k a Hk) as (Hs & Hsrc & Hres).
      rewrite Ht1, Hc1 in Hs.
      replace (error_count s + (S k + 1)) with (error_count s + 1 + (k + 1))
        by lia.
      repeat split; assumption.
Qed.

Lemma consecutive_rejections_escalate_witness :
  error_count (perform_all (init 3)
                 (List.map (fun c => VerifyAiResponse c "npc" "claude")
                           ["I cannot generate that."; "TODO: write the NPC";
                            "too short"])) = 3.
Proof.
  apply (consecutive_rejections_escalate "npc" "claude"
           ["I cannot generate that."; "TODO: write the NPC"; "too short"]
           (init 3)).
  repeat constructor.
Defined.

(** X13. An accepted response resets the error count to zero and adds no
    alert; a rejected one adds exactly one. Either way the verdict is
    that of [verify_content] and one error-rate metric is recorded. *)
Theorem accepted_response_resets_error_count :
  forall (s : WatchdogService) (c content_type src : string),
    let r := verify_ai_response s c content_type src in
    fst r = verify_content c content_type /\
    (fst (fst r) = true ->
     error_count (snd r) = 0 /\ alerts (snd r) = alerts s /\
     metrics (snd r)
       = List.app (metrics s) [mkMetric ERROR_RATE (Float 0%float) src]) /\
    (fst (fst r) = false ->
     error_count (snd r) = error_count s + 1 /\
     (exists a, alerts (snd r) = List.app (alerts s) [a]) /\
     metrics (snd r)
       = List.app (metrics s) [mkMetric ERROR_RATE (Float 1%float) src]).
Proof.
  intros s c content_type src r. subst r.
  rewrite verify_ai_response_verdict, verify_ai_response_step.
  split; [reflexivity |].
  destruct (fst (verify_content c content_type)).
  - split; [intros _ | discriminate]. repeat split.
  - split; [discriminate | intros _]. split; [reflexivity |].
    split; [eexists; reflexivity | reflexivity].
Qed.

End MonitoringProps.

Module ReportsProps.
Import Monitor Reports.

Lemma existsb_false_iff {A : Type} (f : A -> bool) (l : list A) :
  existsb f l = false <-> forall x, In x l -> f x = false.
Proof.
  induction l as [| x l IH]; cbn [existsb].
  - split; [intros _ y [] | reflexivity].
  - rewrite orb_false_iff, IH. split.
    + intros [Hx H] y [<- | Hy]; [exact Hx | exact (H y Hy)].
    + intros H. split; [apply H; left; reflexivity |].
      intros y Hy. apply H. right. exact Hy.
Qed.

(** The scan of a text: the flag and the alert. *)
Lemma scan_spec (s : WatchdogService) (v : pyval) (c : string) :
  exists flag,
    fst (scan s v c) = Ok (v, flag) /\
    (flag = false <->
     (forall p, In p fallback_phrases -> occurs_in c p = false) /\
     (forall p, In p placeholder_patterns -> occurs_in c p = false)) /\
    (flag = false -> snd (scan s v c) = s) /\
    (flag = true ->
     exists msg, snd (scan s v c) = _create_alert s msg ERROR "generator").
Proof.
  unfold scan.
  destruct (existsb (occurs_in c) fallback_phrases) eqn:Hf.
  - exists true. cbn [fst snd]. split; [reflexivity |]. split.
    + split; [discriminate |]. intros [H _].
      apply existsb_false_iff in H. congruence.
    + split; [discriminate | intros _; eauto].
  - destruct (existsb (occurs_in c) placeholder_patterns) eqn:Hp.
    + exists true. cbn [fst snd]. split; [reflexivity |]. split.
      * split; [discriminate |]. intros [_ H].
        apply existsb_false_iff in H. congruence.
      * split; [discriminate | intros _; eauto].
    + exists false. cbn [fst snd]. split; [reflexivity |]. split.
      * split; [| reflexivity]. intros _.
        split; apply existsb_false_iff; assumption.
      * split; [reflexivity | discriminate].
Qed.

(** X14. [check_for_fallbacks] hands back what the generation function
    returned, unchanged, with a flag. For a text the flag is set exactly
    when a fallback phrase or a placeholder pattern occurs in it
    (whatever the case); a set flag comes with one ERROR alert from the
    source "generator", a clear flag leaves the service as it was. On
    texts of at least 10 characters once stripped, and content types
    other than "monster", "location" and "npc", the flag is the negation
    of the verdict of [verify_content]. An exception of the generation
    function is raised again, after an ERROR alert. *)
Theorem check_for_fallbacks_flags_texts :
  forall (s : WatchdogService) (c : string),
    (exists flag,
        fst (check_for_fallbacks s (Ok (PStr c))) = Ok (PStr c, flag) /\
        (flag = false <->
         (forall p, In p fallback_phrases ->
                    contains (lower p) (lower c) = false) /\
         (forall p, In p placeholder_patterns ->
                    contains (lower p) (lower c) = false)) /\
        (flag = false -> snd (check_for_fallbacks s (Ok (PStr c))) = s) /\
        (flag = true ->
         exists msg,
           snd (check_for_fallbacks s (Ok (PStr c)))
             = _create_alert s msg ERROR "generator") /\
        (forall content_type,
            10 <= String.length (strip c) ->
            content_type <> "monster" -> content_type <> "location" ->
            content_type <> "npc" ->
            fst (verify_content c content_type) = negb flag)) /\
    (forall e,
        check_for_fallbacks s (Raise e) =
        (Raise e,
         _create_alert s ("Exception in generation function: " ++ message e)
                       ERROR "generator")).
Proof.
  intros s c. split; [| reflexivity].
  cbn [check_for_fallbacks].
  destruct (scan_spec s (PStr c) c) as (flag & Hrun & Hflag & Hsame & Halert).
  exists flag. split; [exact Hrun |]. split; [exact Hflag |].
  split; [exact Hsame |]. split; [exact Halert |].
  intros content_type Hlen Hm Hl Hn.
  pose proof (proj2 (MonitoringProps.verify_content_spec c content_type)) as Hv.
  destruct flag; cbn [negb].
  - destruct (fst (verify_content c content_type)) eqn:Hfst; [| reflexivity].
    exfalso. destruct (proj1 Hv eq_refl) as (_ & H1 & H2 & _).
    assert (Hno : true = false) by (apply Hflag; split; assumption).
    discriminate Hno.
  - apply Hv. destruct (proj1 Hflag eq_refl) as [H1 H2].
    split; [exact Hlen |]. split; [exact H1 |]. split; [exact H2 |].
    repeat split; intros; congruence.
Qed.

(** X15. A result that is neither a text nor a dict with a ["content"]
    entry is passed as valid without a look at it; a dict whose
    ["content"] is a text is scanned like that text; a dict whose
    ["content"] is no text makes [check_for_fallbacks] itself raise,
    after an ERROR alert. *)
Theorem check_for_fallbacks_by_result_shape :
  forall (s : WatchdogService) (v : pyval),
    (is_str v = false -> is_dict v = false ->
     check_for_fallbacks s (Ok v) = (Ok (v, false), s)) /\
    (forall d,
        v = PDict d -> assoc "content" d = None ->
        check_for_fallbacks s (Ok v) = (Ok (v, false), s)) /\
    (forall d c,
        v = PDict d -> assoc "content" d = Some (PStr c) ->
        exists flag,
          fst (check_for_fallbacks s (Ok v)) = Ok (v, flag) /\
          fst (check_for_fallbacks s (Ok (PStr c))) = Ok (PStr c, flag) /\
          alerts (snd (check_for_fallbacks s (Ok v)))
            = alerts (snd (check_for_fallbacks s (Ok (PStr c))))) /\
    (forall d other,
        v = PDict d -> assoc "content" d = Some other -> is_str other = false ->
        raises (fst (check_for_fallbacks s (Ok v))) = true /\
        exists msg,
          snd (check_for_fallbacks s (Ok v))
            = _create_alert s msg ERROR "generator").
Proof.
  intros s v. split; [| split; [| split]].
  - intros Hs Hd. destruct v; try discriminate; reflexivity.
  - intros d -> Hc. cbn [check_for_fallbacks]. rewrite Hc. reflexivity.
  - intros d c -> Hc. cbn [check_for_fallbacks]. rewrite Hc.
    unfold scan.
    destruct (existsb (occurs_in c) fallback_phrases);
      [exists true; repeat split |].
    destruct (existsb (occurs_in c) placeholder_patterns);
      [exists true; repeat split | exists false; repeat split].
  - intros d other -> Hc Hs. cbn [check_for_fallbacks]. rewrite Hc.
    destruct other; try discriminate; cbn [reraise fst snd raises];
      (split; [reflexivity | eexists; reflexivity]).
Qed.

Lemma check_for_fallbacks_by_result_shape_witness :
  check_for_fallbacks (init 3) (Ok (PInt 7)) = (Ok (PInt 7, false), init 3).
Proof.
  apply (check_for_fallbacks_by_result_shape (init 3) (PInt 7)); reflexivity.
Defined.

(** Error-rate metrics among appended metrics. *)
Lemma error_metrics_track_metric (s : WatchdogService) (t : MetricType)
    (v : number) (comp : string) :
  error_metrics (track_metric s t v comp) =
  List.app (error_metrics s)
           (if is_error_rate (mkMetric t v comp) then [mkMetric t v comp] else []).
Proof.
  unfold error_metrics, track_metric. cbn [metrics with_metrics].
  rewrite List.filter_app. reflexivity.
Qed.

Lemma count_errors_app (l1 l2 : list Metric) :
  count_errors (List.app l1 l2) = count_errors l1 + count_errors l2.
Proof. unfold count_errors. rewrite List.filter_app, List.length_app. reflexivity. Qed.

Lemma count_errors_le (l : list Metric) : count_errors l <= List.length l.
Proof.
  unfold count_errors. induction l as [| m l IH]; cbn [List.filter List.length].
  - lia.
  - destruct (positive (value m)); cbn [List.length]; lia.
Qed.

Lemma error_metrics_verify (s : WatchdogService) (c content_type src : string) :
  error_metrics (snd (verify_ai_response s c content_type src)) =
  List.app (error_metrics s)
    [mkMetric ERROR_RATE
              (Float (if fst (verify_content c content_type)
                      then 0%float else 1%float)) src].
Proof.
  rewrite MonitoringProps.verify_ai_response_step.
  destruct (fst (verify_content c content_type)).
  - rewrite error_metrics_track_metric. reflexivity.
  - unfold error_metrics. cbn [metrics _create_alert with_alerts track_metric
                                with_metrics with_error_count].
    rewrite List.filter_app. reflexivity.
Qed.

(** X16. The error summary counts verifications: each
    [verify_ai_response] adds one sample, overall and to the entry of its
    source, and one error exactly when the response was rejected.
    Tracking an API call or a quality score changes no count, and the
    errors never exceed the samples. *)
Theorem error_summary_counts_verifications :
  forall (s : WatchdogService) (c content_type src : string),
    let r := verify_ai_response s c content_type src in
    let before := get_error_summary s in
    let after := get_error_summary (snd r) in
    let rejected := if fst (fst r) then 0 else 1 in
    total_samples after = total_samples before + 1 /\
    total_errors after = total_errors before + rejected /\
    error_by_component after src =
      Some (match error_by_component before src with
            | Some e => mkComponentErrors (samples e + 1)
                                          (component_error_count e + rejected)
            | None => mkComponentErrors 1 rejected
            end) /\
    (forall comp, comp <> src ->
                  error_by_component after comp = error_by_component before comp) /\
    total_errors after <= total_samples after /\
    (forall api tokens time cost,
        error_metrics (track_api_call s api tokens time cost) = error_metrics s) /\
    (forall comp score,
        error_metrics (track_quality_score s comp score) = error_metrics s).
Proof.
  intros s c content_type src r before after rejected.
  subst r before after rejected.
  rewrite MonitoringProps.verify_ai_response_verdict.
  unfold get_error_summary.
  cbn [total_samples total_errors error_by_component].
  rewrite error_metrics_verify.
  set (valid := fst (verify_content c content_type)).
  set (m := mkMetric ERROR_RATE (Float (if valid then 0%float else 1%float)) src).
  assert (Hm : count_errors [m] = if valid then 0 else 1).
  { subst m. destruct valid; reflexivity. }
  split; [rewrite List.length_app; reflexivity |].
  split; [rewrite count_errors_app, Hm; reflexivity |].
  split.
  { rewrite List.filter_app. cbn [List.filter component m]. subst m.
    cbn [component]. rewrite String.eqb_refl.
    destruct (List.filter (fun m0 => String.eqb (component m0) src)
                          (error_metrics s)) as [| m0 l] eqn:Hf.
    - cbn [List.app List.length]. rewrite Hm. reflexivity.
    - rewrite <- Hf. f_equal.
      rewrite List.length_app, count_errors_app, Hm.
      destruct (List.app _ _) eqn:Happ.
      + apply app_eq_nil in Happ. destruct Happ as [_ H]. discriminate H.
      + rewrite Hf. reflexivity. }
  split.
  { intros comp Hne. rewrite List.filter_app. cbn [List.filter]. subst m.
    cbn [component].
    destruct (String.eqb_spec src comp) as [-> | _]; [congruence |].
    rewrite app_nil_r. reflexivity. }
  split.
  { rewrite count_errors_app, List.length_app, Hm.
    pose proof (count_errors_le (error_metrics s)).
    cbn [List.length]. destruct valid; lia. }
  split.
  - intros api tokens time cost. unfold track_api_call.
    destruct cost as [x |]; unfold error_metrics;
      cbn [metrics with_cost_estimates track_metric with_metrics with_api_calls];
      rewrite !List.filter_app; cbn [List.filter is_error_rate metric_type];
      rewrite !app_nil_r; reflexivity.
  - intros comp score. unfold track_quality_score.
    destruct (score <? 0.5)%float; unfold error_metrics;
      cbn [metrics _create_alert with_alerts track_metric with_metrics];
      rewrite List.filter_app; cbn [List.filter is_error_rate metric_type];
      rewrite app_nil_r; reflexivity.
Qed.

(** X17. The calls are counted per API: after any sequence of
    [track_api_call], the count of an API name is what it was plus the
    number of calls made under that name, a name that had no entry
    starting from zero. *)
Theorem calls_are_counted_per_api :
  forall (cs : list Call) (s : WatchdogService) (api : string),
    default 0 (calls_by_api (get_api_usage_summary (track_all s cs)) !! api) =
    default 0 (calls_by_api (get_api_usage_summary s) !! api)
    + List.length (List.filter (fun c => String.eqb (call_api c) api) cs).
Proof.
  intros cs. induction cs as [| c cs IH]; intros s api.
  - cbn. lia.
  - unfold track_all in *. cbn [fold_left List.filter]. rewrite IH.
    unfold get_api_usage_summary, track. cbn [calls_by_api].
    rewrite MonitorProps.api_calls_track_api_call.
    destruct (String.eqb_spec (call_api c) api) as [-> | Hne].
    + cbn [List.length].
      destruct (api_calls s !! api) as [n |] eqn:Hn.
      * rewrite lookup_insert_eq. unfold default. cbn [from_option].
        unfold Datatypes.id. lia.
      * rewrite lookup_insert_eq. unfold default. cbn [from_option].
        unfold Datatypes.id. lia.
    + destruct (api_calls s !! call_api c) as [n |];
        (rewrite lookup_insert_ne; [lia | exact Hne]).
Qed.

Lemma perform_extends (s : WatchdogService) (op : Operation) :
  alert_threshold (perform s op) = alert_threshold s /\
  (exists ms, metrics (perform s op) = List.app (metrics s) ms) /\
  (exists al, alerts (perform s op) = List.app (alerts s) al).
Proof.
  destruct op as [t v comp | api tokens time cost | c ct src | comp score
                 | msg sev src | call]; cbn [perform].
  - split; [reflexivity |]. split; [eexists; reflexivity |].
    exists []. symmetry. apply app_nil_r.
  - unfold track_api_call. destruct cost as [x |];
      cbn [alert_threshold metrics alerts with_cost_estimates track_metric
           with_metrics with_api_calls];
      (split; [reflexivity |]); (split; [| exists []; symmetry; apply app_nil_r]).
    + exists [mkMetric TOKEN_USAGE (Int tokens) api;
              mkMetric API_LATENCY (Float time) api;
              mkMetric COST (Float x) api].
      rewrite <- !app_assoc. reflexivity.
    + exists [mkMetric TOKEN_USAGE (Int tokens) api;
              mkMetric API_LATENCY (Float time) api].
      rewrite <- !app_assoc. reflexivity.
  - rewrite MonitoringProps.verify_ai_response_step.
    destruct (fst (verify_content c ct));
      cbn [alert_threshold metrics alerts _create_alert with_alerts track_metric
           with_metrics with_error_count];
      (split; [reflexivity |]); (split; [eexists; reflexivity |]).
    + exists []. symmetry. apply app_nil_r.
    + eexists. reflexivity.
  - unfold track_quality_score. destruct (score <? 0.5)%float;
      cbn [alert_threshold metrics alerts _create_alert with_alerts track_metric
           with_metrics];
      (split; [reflexivity |]); (split; [eexists; reflexivity |]).
    + eexists. reflexivity.
    + exists []. symmetry. apply app_nil_r.
  - split; [reflexivity |]. split; [exists []; symmetry; apply app_nil_r |].
    eexists. reflexivity.
  - assert (Hscan : forall v c,
              alert_threshold (snd (scan s v c)) = alert_threshold s /\
              (exists ms, metrics (snd (scan s v c)) = List.app (metrics s) ms) /\
              (exists al, alerts (snd (scan s v c)) = List.app (alerts s) al)).
    { intros v c. unfold scan.
      destruct (existsb _ fallback_phrases);
        [| destruct (existsb _ placeholder_patterns)]; cbn [snd];
        (split; [reflexivity |]);
        (split; [exists []; symmetry; apply app_nil_r |]);
        first [eexists; reflexivity | exists []; symmetry; apply app_nil_r]. }
    assert (Hre : forall e,
              alert_threshold (snd (reraise s e)) = alert_threshold s /\
              (exists ms, metrics (snd (reraise s e)) = List.app (metrics s) ms) /\
              (exists al, alerts (snd (reraise s e)) = List.app (alerts s) al)).
    { intros e. cbn [reraise snd]. split; [reflexivity |].
      split; [exists []; symmetry; apply app_nil_r | eexists; reflexivity]. }
    assert (Hid : alert_threshold s = alert_threshold s /\
                  (exists ms, metrics s = List.app (metrics s) ms) /\
                  (exists al, alerts s = List.app (alerts s) al)).
    { split; [reflexivity |].
      split; exists []; symmetry; apply app_nil_r. }
    destruct call as [v | e]; [| apply Hre].
    destruct v as [| b | z | f | c | l | d]; cbn [check_for_fallbacks snd];
      try exact Hid; [apply Hscan |].
    destruct (assoc "content" d) as [other |]; [| exact Hid].
    destruct other; first [apply Hscan | apply Hre].
Qed.

(** X18. The logs only grow. Whatever sequence of calls is made on the
    service (tracking a metric, an API call or a quality score, verifying
    a response, creating an alert, checking for fallbacks), the metrics
    and alerts recorded before are still there afterwards, unchanged and
    in the same order, followed by the new ones; and the alert threshold
    is what it was. *)
Theorem logs_only_grow :
  forall (ops : list Operation) (s : WatchdogService),
    alert_threshold (perform_all s ops) = alert_threshold s /\
    (exists ms, metrics (perform_all s ops) = List.app (metrics s) ms) /\
    (exists al, alerts (perform_all s ops) = List.app (alerts s) al).
Proof.
  intros ops. induction ops as [| op ops IH]; intros s.
  - cbn. split; [reflexivity |]. split; exists []; symmetry; apply app_nil_r.
  - unfold perform_all in *. cbn [fold_left].
    destruct (IH (perform s op)) as (Ht & (ms & Hms) & (al & Hal)).
    destruct (perform_extends s op) as (Ht0 & (ms0 & Hms0) & (al0 & Hal0)).
    split; [rewrite Ht; exact Ht0 |]. split.
    + exists (List.app ms0 ms). rewrite Hms, Hms0, app_assoc. reflexivity.
    + exists (List.app al0 al). rewrite Hal, Hal0, app_assoc. reflexivity.
Qed.

End ReportsProps.

(** ** The generator client: calls, monitoring and rejected replies *)

Module ClientProps.
Import Effects AI.

Ltac run := AIProps.run.

Lemma api_calls_verify (m : Monitor.WatchdogService) (c content_type src : string) :
  Monitor.api_calls (snd (Monitor.verify_ai_response m c content_type src))
  = Monitor.api_calls m.
Proof.
  rewrite MonitoringProps.verify_ai_response_step.
  destruct (fst (Monitor.verify_content c content_type)); reflexivity.
Qed.

Lemma total_calls_track (m : Monitor.WatchdogService) (api : string) (t : Z)
    (rt : float) (c : option float) :
  Monitor.sum_values (Monitor.api_calls (Monitor.track_api_call m api t rt c))
  = S (Monitor.sum_values (Monitor.api_calls m)).
Proof.
  rewrite MonitorProps.api_calls_track_api_call.
  apply MonitorProps.sum_values_bump.
Qed.

Section WithProvider.

Variable provider : Provider.
Variable self : ClaudeAIService.

(** The whole of one call, case by case: what is returned and what is
    left behind. *)
Lemma call_cases (prompt : string) (w : World) :
  let run := _call_claude_api provider self prompt w in
  let reply := next_reply provider prompt w in
  let rejected text :=
    negb (String.eqb text "")
    && Watchdog.is_active (content_integrity_watchdog self)
    && (50 <? String.length (strip text))
    && raises (Watchdog.validate_text_content (content_integrity_watchdog self)
                 "ai_response" (PStr text)) in
  let failed reason :=
    (Ok fallback_response,
     if watchdog_service self then
       Monitor._create_alert
         (Monitor.track_api_call (monitor w) "claude" 0 (elapsed reply)
                                 (Some 0%float))
         ("Claude API call failed: " ++ reason) Monitor.ERROR "claude_api"
     else monitor w) in
  files (snd run) = files w /\ clock (snd run) = clock w /\
  sent (snd run) = (if client self then List.app (sent w) [prompt] else sent w) /\
  (fst run, monitor (snd run)) =
  if negb (client self) then
    (Ok mock_response,
     if watchdog_service self then
       Monitor.track_api_call (monitor w) "claude" 300 (mock_elapsed provider)
                              (Some 0%float)
     else monitor w)
  else
    match outcome reply with
    | ApiError msg => failed msg
    | ApiMessage text i o =>
        if rejected text then
          match Watchdog.validate_text_content
                  (content_integrity_watchdog self) "ai_response" (PStr text) with
          | Raise e =>
              failed ("AI generated content contains mock/placeholder data: "
                      ++ message e)
          | Ok _ => failed ""
          end
        else
          (Ok (response_data text i o),
           if watchdog_service self then
             let m1 := Monitor.track_api_call (monitor w) "claude" (i + o)
                         (elapsed reply)
                         (Some (true_div (i * 3 + o * 15) 1000000)) in
             if String.eqb text "" then m1
             else snd (Monitor.verify_ai_response m1 text "campaign_content"
                                                  "claude")
           else monitor w)
    end.
Proof.
  cbv zeta.
  destruct (client self) eqn:Hc.
  2:{ unfold _call_claude_api. rewrite Hc. cbn [negb]. run.
      destruct (watchdog_service self); run; repeat split. }
  destruct (outcome (next_reply provider prompt w)) as [msg | text i o] eqn:Hr.
  { unfold _call_claude_api. rewrite Hc. cbn [negb]. run.
    unfold next_reply in Hr. rewrite Hr. run.
    destruct (watchdog_service self); run; repeat split. }
  unfold next_reply in Hr |- *.
  destruct (watchdog_service self) eqn:Hm;
    destruct (String.eqb text "") eqn:Hne;
    destruct (Watchdog.is_active (content_integrity_watchdog self)) eqn:Hact;
    destruct (50 <? String.length (strip text)) eqn:Hlen;
    destruct (Watchdog.validate_text_content (content_integrity_watchdog self)
                "ai_response" (PStr text)) as [b0 | e] eqn:Hv;
    try (pose proof (WatchdogMoreProps.validate_text_content_raises_integrity
                       _ _ _ _ Hv) as He);
    unfold _call_claude_api; rewrite Hc; cbn [negb]; run; rewrite Hr;
    repeat (progress (rewrite ?Hm, ?Hne, ?Hact, ?Hlen, ?Hv, ?He;
                      cbn [negb andb fst snd raises message]; run));
    repeat split.
Qed.

End WithProvider.

(** X19. One invocation of the generator client makes exactly one
    external call when a client is configured, with the prompt it was
    given, and none otherwise, whatever the reply is (an error, a text
    the watchdog rejects, an empty text); it never touches the cache or
    the clock. *)
Theorem one_external_call_per_invocation :
  forall (provider : Provider) (self : ClaudeAIService) (prompt : string)
         (w : World),
    let w' := snd (_call_claude_api provider self prompt w) in
    sent w' = (if client self then List.app (sent w) [prompt] else sent w) /\
    files w' = files w /\ clock w' = clock w /\
    raises (fst (_call_claude_api provider self prompt w)) = false.
Proof.
  intros provider self prompt w w'. subst w'.
  destruct (call_cases provider self prompt w) as (Hf & Hk & Hs & Hrun).
  split; [exact Hs |]. split; [exact Hf |]. split; [exact Hk |].
  apply (f_equal fst) in Hrun. cbn [fst] in Hrun. rewrite Hrun.
  destruct (negb (client self)); [reflexivity |].
  destruct (outcome _) as [msg | text i o]; [reflexivity |].
  destruct (_ && _); [| reflexivity].
  destruct (Watchdog.validate_text_content _ _ _); reflexivity.
Qed.

(** X20. With a monitoring service attached, every invocation of the
    generator client is counted as exactly one "claude" API call, whether
    it answered from the mock branch, succeeded or failed; without one,
    nothing is recorded. *)
Theorem every_invocation_is_counted_once :
  forall (provider : Provider) (self : ClaudeAIService) (prompt : string)
         (w : World),
    let m := monitor w in
    let m' := monitor (snd (_call_claude_api provider self prompt w)) in
    if watchdog_service self then
      Monitor.total_calls (Monitor.get_api_usage_summary m')
        = Monitor.total_calls (Monitor.get_api_usage_summary m) + 1 /\
      Monitor.api_calls m' !! "claude"
        = Some (default 0 (Monitor.api_calls m !! "claude") + 1) /\
      (forall api, api <> "claude" ->
                   Monitor.api_calls m' !! api = Monitor.api_calls m !! api)
    else m' = m.
Proof.
  intros provider self prompt w m m'. subst m m'.
  destruct (call_cases provider self prompt w) as (_ & _ & _ & Hrun).
  apply (f_equal snd) in Hrun. cbn [snd] in Hrun. rewrite Hrun. clear Hrun.
  assert (Hone : forall t rt c,
            let m' := Monitor.track_api_call (monitor w) "claude" t rt c in
            Monitor.sum_values (Monitor.api_calls m')
              = Monitor.sum_values (Monitor.api_calls (monitor w)) + 1 /\
            Monitor.api_calls m' !! "claude"
              = Some (default 0 (Monitor.api_calls (monitor w) !! "claude") + 1) /\
            (forall api, api <> "claude" ->
               Monitor.api_calls m' !! api = Monitor.api_calls (monitor w) !! api)).
  { intros t rt c m'. subst m'. rewrite total_calls_track.
    rewrite MonitorProps.api_calls_track_api_call.
    split; [lia |].
    destruct (Monitor.api_calls (monitor w) !! "claude") as [n |] eqn:Hn.
    - split; [apply lookup_insert_eq |].
      intros api Hne. apply lookup_insert_ne. congruence.
    - split; [apply lookup_insert_eq |].
      intros api Hne. apply lookup_insert_ne. congruence. }
  unfold Monitor.get_api_usage_summary. cbn [Monitor.total_calls].
  destruct (watchdog_service self).
  2:{ destruct (negb (client self)); [reflexivity |].
      destruct (outcome _) as [msg | text i o]; [reflexivity |].
      destruct (_ && _); [| reflexivity].
      destruct (Watchdog.validate_text_content _ _ _); reflexivity. }
  destruct (negb (client self)); cbn [snd]; [apply Hone |].
  destruct (outcome _) as [msg | text i o]; cbn [snd];
    [exact (Hone _ _ _) |].
  destruct (_ && _).
  - destruct (Watchdog.validate_text_content _ _ _); cbn [snd];
      exact (Hone _ _ _).
  - cbn [snd]. destruct (String.eqb text ""); [apply Hone |].
    rewrite api_calls_verify. apply Hone.
Qed.

(** X21. A reply that the service's own watchdog rejects does not come
    out as an error: when the text has more than 50 characters once
    stripped and the active watchdog raises on it, the integrity error is
    caught by the method's own handler, the caller gets the fallback
    response (and [generate] its fixed text), and a monitoring service,
    if attached, records an ERROR alert from "claude_api" that quotes the
    violation. *)
Theorem rejected_reply_becomes_fallback :
  forall (provider : Provider) (self : ClaudeAIService) (g : Generator)
         (campaign : Campaign) (ci : option string) (mode : string)
         (w : World) (text msg : string) (i o : Z),
    let prompt := section_prompt provider g campaign ci mode in
    client self = true ->
    outcome (next_reply provider prompt w) = ApiMessage text i o ->
    Watchdog.is_active (content_integrity_watchdog self) = true ->
    50 < String.length (strip text) ->
    Watchdog.validate_text_content (content_integrity_watchdog self)
      "ai_response" (PStr text) = Raise (ContentIntegrityError msg) ->
    fst (_call_claude_api provider self prompt w) = Ok fallback_response /\
    fst (generate provider self g campaign ci mode w)
      = Ok "Error generating content with Claude API" /\
    (watchdog_service self = true ->
     Monitor.alerts (monitor (snd (_call_claude_api provider self prompt w)))
       = List.app (Monitor.alerts (monitor w))
           [Monitor.mkAlert
              ("Claude API call failed: "
               ++ "AI generated content contains mock/placeholder data: " ++ msg)
              Monitor.ERROR "claude_api" false]).
Proof.
  intros provider self g campaign ci mode w text msg i o prompt Hc Hr Hact
         Hlen Hv.
  destruct (call_cases provider self prompt w) as (_ & _ & _ & Hrun).
  rewrite Hc, Hr, Hact, Hv in Hrun. cbn [negb raises andb message] in Hrun.
  apply Nat.ltb_lt in Hlen. rewrite Hlen in Hrun.
  assert (Hne : String.eqb text "" = false).
  { destruct (String.eqb_spec text "") as [-> | _]; [| reflexivity].
    apply Nat.ltb_lt in Hlen. vm_compute in Hlen. lia. }
  rewrite Hne in Hrun. cbn [negb andb] in Hrun.
  injection Hrun as Hres Hmon.
  split; [exact Hres |]. split.
  - unfold generate. fold prompt. run.
    destruct (_call_claude_api provider self prompt w) as [r w1].
    cbn [fst] in Hres. rewrite Hres. reflexivity.
  - intros Hm. rewrite Hmon, Hm. unfold Monitor.track_api_call.
    reflexivity.
Qed.

Lemma rejected_reply_becomes_fallback_witness :
  fst (generate (Scenarios.constant_provider
                   (Scenarios.says
                      "This chapter is a placeholder for the adventure, to be written later."))
                Scenarios.service generate_setting Scenarios.campaign
                None "sample" Scenarios.fresh)
    = Ok "Error generating content with Claude API".
Proof.
  refine (proj1 (proj2 (rejected_reply_becomes_fallback
           (Scenarios.constant_provider
              (Scenarios.says
                 "This chapter is a placeholder for the adventure, to be written later."))
           Scenarios.service generate_setting Scenarios.campaign None "sample"
           Scenarios.fresh
           "This chapter is a placeholder for the adventure, to be written later."
           _ 120 80 _ _ _ _ _))).
  - reflexivity.
  - reflexivity.
  - reflexivity.
  - vm_compute. lia.
  - vm_compute. reflexivity.
Defined.

End ClientProps.

(** ** The generator client and the minimum lengths *)

Module GeneratorLengthProps.
Import Effects AI.

Ltac run := AIProps.run.

Lemma too_short_is_rejected (wd : Watchdog.ContentIntegrityWatchdog)
    (kind text : string) :
  Watchdog.is_active wd = true ->
  String.length (strip text) < Watchdog.min_length kind ->
  raises (Watchdog.validate_text_content wd kind (PStr text)) = true.
Proof.
  intros Hact Hshort.
  destruct (Watchdog.validate_text_content wd kind (PStr text)) as [b | e] eqn:Hv;
    [| reflexivity].
  exfalso.
  destruct (WatchdogMoreProps.validate_text_content_accepts wd kind _ b Hact Hv)
    as (t & Ht & _ & _ & Hlen & _).
  injection Ht as <-. lia.
Qed.

(** What [generate] returns for a message of the external generator. *)
Lemma generate_of_message (provider : Provider) (self : ClaudeAIService)
    (g : Generator) (campaign : Campaign) (ci : option string) (mode : string)
    (w : World) (text : string) (i o : Z) :
  client self = true ->
  outcome (next_reply provider (section_prompt provider g campaign ci mode) w)
    = ApiMessage text i o ->
  text <> "" ->
  Watchdog.is_active (content_integrity_watchdog self)
  && (50 <? String.length (strip text))
  && raises (Watchdog.validate_text_content (content_integrity_watchdog self)
               "ai_response" (PStr text)) = false ->
  fst (generate provider self g campaign ci mode w) = Ok text.
Proof.
  intros Hc Hr Hne Hpass.
  destruct (ClientProps.call_cases provider self
              (section_prompt provider g campaign ci mode) w)
    as (_ & _ & _ & Hrun).
  rewrite Hc, Hr in Hrun. cbn [negb] in Hrun.
  apply String.eqb_neq in Hne.
  rewrite Hne in Hrun. cbn [negb andb] in Hrun. rewrite Hpass in Hrun.
  unfold generate. run.
  destruct (_call_claude_api provider self
              (section_prompt provider g campaign ci mode) w) as [r w1].
  cbn [fst snd] in Hrun. injection Hrun as -> _.
  cbn [fst]. rewrite AIProps.parse_response_data, Hne. reflexivity.
Qed.

(** C8, amended. With its watchdog active, the generator client always
    returns content, never the empty string, and content it returns that
    has more than 50 characters once stripped passed the watchdog under
    the generic kind "ai_response", so it has at least 100 characters,
    the default minimum of the table. A message of at most 50 characters
    is returned as it is, unchecked, although the watchdog rejects it
    under every kind. The minimum of the section's own kind is not applied
    by the generator client: whatever passes as "ai_response" is returned,
    by every generator. The orchestrator applies it afterwards: returned
    content shorter than the minimum of the section is refused by
    [generate_new_content] and nothing is cached. *)
Theorem generate_checks_only_long_content :
  forall (provider : Provider) (self : ClaudeAIService) (g : Generator)
         (campaign : Campaign) (ci : option string) (mode : string)
         (w : World),
    Watchdog.is_active (content_integrity_watchdog self) = true ->
    let wd := content_integrity_watchdog self in
    let prompt := section_prompt provider g campaign ci mode in
    (exists content w',
        generate provider self g campaign ci mode w = (Ok content, w') /\
        content <> "" /\
        (50 < String.length (strip content) ->
         100 <= String.length (strip content) /\
         Watchdog.validate_text_content wd "ai_response" (PStr content)
           = Ok true)) /\
    (forall text i o,
        client self = true ->
        outcome (next_reply provider prompt w) = ApiMessage text i o ->
        text <> "" ->
        String.length (strip text) <= 50 ->
        fst (generate provider self g campaign ci mode w) = Ok text /\
        forall kind,
          raises (Watchdog.validate_text_content wd kind (PStr text)) = true) /\
    (forall text i o,
        client self = true ->
        outcome (next_reply provider prompt w) = ApiMessage text i o ->
        Watchdog.validate_text_content wd "ai_response" (PStr text) = Ok true ->
        fst (generate provider self g campaign ci mode w) = Ok text) /\
    (forall (out : Orchestrator.Outside)
            (orchestrator : Orchestrator.CompleteCampaignGenerationService)
            (section_id title content : string) (w' : World),
        Orchestrator.provider out = provider ->
        Orchestrator.ai_service orchestrator = self ->
        Watchdog.is_active
          (Orchestrator.content_integrity_watchdog orchestrator) = true ->
        generate provider self g campaign ci mode w = (Ok content, w') ->
        String.length (strip content) < Watchdog.min_length section_id ->
        let refused := Orchestrator.generate_new_content out orchestrator
                         campaign section_id title g ci mode w in
        raises (fst refused) = true /\ files (snd refused) = files w).
Proof.
  intros provider self g campaign ci mode w Hact wd prompt.
  split; [| split; [| split]].
  - destruct (AIProps.generate_returns provider self g campaign ci mode w)
      as (content & w' & Hrun & _ & _ & Hne & Hc).
    exists content, w'. split; [exact Hrun |]. split; [exact Hne |].
    intros Hlong.
    assert (Hok : Watchdog.validate_text_content wd "ai_response" (PStr content)
                  = Ok true).
    { destruct Hc as [-> | [-> | [-> | Hc]]]; try (vm_compute in Hlong; lia).
      apply (proj2 Hc); assumption. }
    split; [| exact Hok].
    destruct (WatchdogMoreProps.validate_text_content_accepts wd "ai_response"
                _ true Hact Hok) as (t & Ht & _ & _ & Hlen & _).
    injection Ht as <-.
    assert (Hmin : Watchdog.min_length "ai_response" = 100) by reflexivity.
    lia.
  - intros text i o Hc Hr Hne Hshort. split.
    + apply (generate_of_message provider self g campaign ci mode w text i o
               Hc Hr Hne).
      assert (Hlen : (50 <? String.length (strip text)) = false)
        by (apply Nat.ltb_ge; exact Hshort).
      rewrite Hlen, andb_false_r. reflexivity.
    + intros kind. apply too_short_is_rejected; [exact Hact |].
      pose proof (WatchdogProps.min_length_ge_100 kind). lia.
  - intros text i o Hc Hr Hok.
    destruct (WatchdogMoreProps.validate_text_content_accepts wd "ai_response"
                _ true Hact Hok) as (t & Ht & Hne & _).
    injection Ht as <-.
    apply (generate_of_message provider self g campaign ci mode w text i o
             Hc Hr Hne).
    fold wd. rewrite Hok. cbn [raises]. apply andb_false_r.
  - intros out orchestrator section_id title content w' Hp Hs Hact' Hgen Hshort
           refused. subst refused.
    destruct (OrchestratorProps.generate_new_content_cases out orchestrator
                campaign section_id title g ci mode w)
      as (content0 & w1 & Hgen0 & Hf & _ & Hcase).
    rewrite Hp, Hs, Hgen in Hgen0. injection Hgen0 as <- <-.
    destruct (AIProps.generate_returns provider self g campaign ci mode w)
      as (content1 & w1 & Hgen1 & _ & _ & Hne & _).
    rewrite Hgen in Hgen1. injection Hgen1 as <- <-.
    apply String.eqb_neq in Hne. rewrite Hcase, Hne.
    pose proof (too_short_is_rejected _ section_id content Hact' Hshort) as Hrej.
    destruct (Watchdog.validate_text_content
                (Orchestrator.content_integrity_watchdog orchestrator)
                section_id (PStr content)); [discriminate Hrej |].
    cbn [fst snd raises]. split; [reflexivity | exact Hf].
Qed.

Lemma generate_checks_only_long_content_witness :
  (fst (generate (Scenarios.constant_provider (Scenarios.says "Short text."))
                 Scenarios.service generate_introduction Scenarios.campaign
                 None "production" Scenarios.fresh) = Ok "Short text." /\
   forall kind,
     raises (Watchdog.validate_text_content
               (content_integrity_watchdog Scenarios.service) kind
               (PStr "Short text.")) = true) /\
  (fst (generate (Scenarios.constant_provider
                    (Scenarios.says Scenarios.npc_text))
                 Scenarios.service generate_introduction Scenarios.campaign
                 None "production" Scenarios.fresh) = Ok Scenarios.npc_text /\
   String.length (strip Scenarios.npc_text)
     < Watchdog.min_length "introduction") /\
  (raises (fst (Orchestrator.generate_new_content
                  (Scenarios.outside (Scenarios.says Scenarios.npc_text))
                  Scenarios.orchestrator Scenarios.campaign "introduction"
                  "Introduction" generate_introduction None "production"
                  Scenarios.fresh)) = true /\
   files (snd (Orchestrator.generate_new_content
                 (Scenarios.outside (Scenarios.says Scenarios.npc_text))
                 Scenarios.orchestrator Scenarios.campaign "introduction"
                 "Introduction" generate_introduction None "production"
                 Scenarios.fresh)) = files Scenarios.fresh).
Proof.
  split; [| split].
  - apply (proj1 (proj2 (generate_checks_only_long_content
             (Scenarios.constant_provider (Scenarios.says "Short text."))
             Scenarios.service generate_introduction Scenarios.campaign None
             "production" Scenarios.fresh eq_refl)) "Short text." 120%Z 80%Z).
    + reflexivity.
    + reflexivity.
    + discriminate.
    + vm_compute. lia.
  - split; [| vm_compute; lia].
    apply (proj1 (proj2 (proj2 (generate_checks_only_long_content
             (Scenarios.constant_provider (Scenarios.says Scenarios.npc_text))
             Scenarios.service generate_introduction Scenarios.campaign None
             "production" Scenarios.fresh eq_refl))) Scenarios.npc_text
             120%Z 80%Z).
    + reflexivity.
    + reflexivity.
    + vm_compute. reflexivity.
  - apply (proj2 (proj2 (proj2 (generate_checks_only_long_content
             (Scenarios.constant_provider (Scenarios.says Scenarios.npc_text))
             Scenarios.service generate_introduction Scenarios.campaign None
             "production" Scenarios.fresh eq_refl)))
             (Scenarios.outside (Scenarios.says Scenarios.npc_text))
             Scenarios.orchestrator "introduction" "Introduction"
             Scenarios.npc_text
             (snd (generate
                     (Scenarios.constant_provider
                        (Scenarios.says Scenarios.npc_text))
                     Scenarios.service generate_introduction
                     Scenarios.campaign None "production" Scenarios.fresh))).
    + reflexivity.
    + reflexivity.
    + reflexivity.
    + vm_compute. reflexivity.
    + vm_compute. lia.
Defined.

End GeneratorLengthProps.

(** ** The orchestrator: sections, images and failed runs *)

Module SectionsProps.
Import Effects Orchestrator.

Ltac run := OrchestratorProps.run.

Lemma set_sections_same (c : Campaign) :
  set_sections c (List.app (sections c) []) = c.
Proof. destruct c. unfold set_sections. cbn. rewrite app_nil_r. reflexivity. Qed.

Lemma set_sections_twice (c : Campaign) (l1 l2 : list CampaignSection) :
  set_sections (set_sections c l1) l2 = set_sections c l2.
Proof. reflexivity. Qed.

Section WithOutside.

Variable out : Outside.
Variable self : CompleteCampaignGenerationService.

Local Abbreviation wd := (content_integrity_watchdog self).

(** A section that [_generate_section_with_cache] returns carries the
    identifier and title it was asked for, a text, and no image. *)
Lemma section_with_cache_shape (campaign : Campaign) (sid ttl : string)
    (g : AI.Generator) (ci : option string) (mode : string) (w w1 : World)
    (s : CampaignSection) :
  _generate_section_with_cache out self campaign sid ttl g ci mode w
    = (Ok s, w1) ->
  section_id s = sid /\ title s = ttl /\ images s = [] /\
  exists t, content s = PStr t.
Proof.
  assert (Hnew : generate_new_content out self campaign sid ttl g ci mode w
                   = (Ok s, w1) ->
                 section_id s = sid /\ title s = ttl /\ images s = [] /\
                 exists t, content s = PStr t).
  { destruct (OrchestratorProps.generate_new_content_cases out self campaign
                sid ttl g ci mode w) as (text & w' & _ & _ & _ & Hcase).
    rewrite Hcase.
    destruct (String.eqb text "").
    - intros H. injection H as <- <-. repeat split. eexists. reflexivity.
    - destruct (Watchdog.validate_text_content wd sid (PStr text));
        [| discriminate].
      intros H. injection H as <- <-. repeat split. eexists. reflexivity. }
  unfold _generate_section_with_cache. run.
  set (cached := Cache.get (md5 out) (content_cache self) (files w)
                   (section_cache_key sid campaign)).
  destruct (truthy cached && is_str cached) eqn:Hhit; [| exact Hnew].
  destruct (Watchdog.validate_text_content wd sid cached); [| exact Hnew].
  run. intros H. injection H as <- <-.
  apply andb_true_iff in Hhit. destruct Hhit as [_ Hstr].
  destruct cached; try discriminate. repeat split. eexists. reflexivity.
Qed.

(** One iteration of the loop always adds one section. *)
Lemma one_section_is_added (campaign : Campaign) (mode : string)
    (sid ttl : string) (g : AI.Generator) (w : World) :
  exists s w',
    generate_one_section out self campaign mode (sid, ttl, g) w
      = (Ok (add_section campaign s), w') /\
    section_id s = sid /\ title s = ttl /\ images s = [] /\
    (exists t, content s = PStr t /\ strip t <> "") /\
    clock w' = clock w.
Proof.
  unfold generate_one_section.
  set (ci := match player_preferences campaign with
             | Some prefs => _
             | None => _
             end).
  pose proof (WriteThroughProps.section_write_is_validated out self campaign
                sid ttl g ci mode w) as Hclock.
  cbv zeta in Hclock. destruct Hclock as [Hclock _].
  pose proof (section_with_cache_shape campaign sid ttl g ci mode w) as Hshape.
  unfold try_except, bind at 1.
  destruct (_generate_section_with_cache out self campaign sid ttl g ci mode w)
    as [[s | e] w1]; cbn [snd] in Hclock.
  - destruct (Hshape w1 s eq_refl) as (Hid & Httl & Himg & t & Ht).
    destruct (truthy (content s)
              && (0 <? String.length (strip (Watchdog.str_value (content s)))))
      eqn:Hok.
    + run. eexists s, w1. split; [reflexivity |].
      split; [exact Hid |]. split; [exact Httl |]. split; [exact Himg |].
      split; [| exact Hclock].
      exists t. split; [exact Ht |].
      apply andb_true_iff in Hok. destruct Hok as [_ Hlen].
      rewrite Ht in Hlen. cbn [Watchdog.str_value] in Hlen.
      apply Nat.ltb_lt in Hlen. intros Hs. rewrite Hs in Hlen.
      cbn in Hlen. lia.
    + run. cbn [is_ContentQualityError]. eexists _, w1.
      split; [reflexivity |]. cbn [section_id title images content error_section].
      repeat split; try assumption.
      eexists. split; [reflexivity | vm_compute; discriminate].
  - run.
    destruct (is_ContentQualityError e);
      [| destruct (is_ExternalServiceError e)];
      run; eexists _, w1; (split; [reflexivity |]);
      cbn [section_id title images content error_section];
      repeat split; try assumption;
      eexists; (split; [reflexivity | vm_compute; discriminate]).
Qed.

(** The loop over a list of configured sections. *)
Lemma sections_are_added (mode : string)
    (cfgs : list (string * string * AI.Generator)) :
  forall (campaign : Campaign) (w : World),
  exists new w',
    generate_sections out self campaign mode cfgs w
      = (Ok (set_sections campaign (List.app (sections campaign) new)), w') /\
    List.map (fun s => (section_id s, title s)) new = List.map fst cfgs /\
    Forall (fun s => images s = [] /\
                     exists t, content s = PStr t /\ strip t <> "") new /\
    clock w' = clock w.
Proof.
  induction cfgs as [| [[sid ttl] g] cfgs IH]; intros campaign w.
  - exists [], w. cbn [generate_sections]. run.
    rewrite set_sections_same. repeat split. constructor.
  - cbn [generate_sections]. unfold bind.
    destruct (one_section_is_added campaign mode sid ttl g w)
      as (s & w1 & Hone & Hid & Httl & Himg & Htext & Hk1).
    rewrite Hone.
    destruct (IH (add_section campaign s) w1) as (new & w2 & Hrest & Hmap & Hall & Hk2).
    rewrite Hrest. exists (s :: new), w2.
    split.
    { unfold add_section. rewrite set_sections_twice. cbn [sections set_sections].
      rewrite <- app_assoc. reflexivity. }
    split; [cbn [List.map fst]; rewrite Hmap, Hid, Httl; reflexivity |].
    split; [constructor; [split; assumption | exact Hall] | congruence].
Qed.

End WithOutside.

(** X22. [_generate_all_sections] never raises and never skips a
    section: it appends to the campaign exactly one section per entry of
    the configuration of the mode (six in "sample" mode, nine otherwise),
    in the configured order and with the configured identifiers and
    titles, whatever the generator and the cache do. Every section it
    appends holds a text that is not blank, be it generated, cached or
    one of the three fixed error texts, and no image; the rest of the
    campaign is left as it was. *)
Theorem every_configured_section_is_appended :
  forall (out : Outside) (self : CompleteCampaignGenerationService)
         (campaign : Campaign) (mode : string) (w : World),
  exists new w',
    _generate_all_sections out self campaign mode w
      = (Ok (set_sections campaign (List.app (sections campaign) new)), w') /\
    List.map (fun s => (section_id s, title s)) new
      = List.map fst (sections_config mode) /\
    List.length new = (if String.eqb mode "sample" then 6 else 9) /\
    Forall (fun s => images s = [] /\
                     exists t, content s = PStr t /\ strip t <> "") new /\
    clock w' = clock w.
Proof.
  intros out self campaign mode w. unfold _generate_all_sections.
  destruct (sections_are_added out self mode (sections_config mode) campaign w)
    as (new & w' & Hrun & Hmap & Hall & Hk).
  exists new, w'. split; [exact Hrun |]. split; [exact Hmap |].
  split; [| split; assumption].
  apply (f_equal (@List.length _)) in Hmap. rewrite !length_map in Hmap.
  rewrite Hmap. unfold sections_config.
  destruct (String.eqb mode "sample"); reflexivity.
Qed.

End SectionsProps.

Module CampaignRunProps.
Import Effects Orchestrator.

Ltac run := OrchestratorProps.run.

Section WithOutside.

Variable out : Outside.
Variable self : CompleteCampaignGenerationService.

Local Abbreviation wd := (content_integrity_watchdog self).

(** [generate_campaign] in terms of its two halves. *)
Lemma generate_campaign_run (r : Request) (w : World) :
  generate_campaign out self r w =
  let failed := fun (e : exn) (w' : World) =>
    (Raise e,
     with_monitor w'
       (Monitor.track_metric (monitor w') Monitor.ERROR_RATE (Monitor.Int 1)
                             "campaign")) in
  match assemble out self (uuid4 out) r w with
  | (Ok c, w1) =>
      match finalize out self c w1 with
      | (Ok c', w2) => (Ok (uuid4 out, c'), w2)
      | (Raise e, w2) => failed e w2
      end
  | (Raise e, w1) => failed e w1
  end.
Proof.
  unfold generate_campaign. run.
  destruct (assemble out self (uuid4 out) r w) as [[c | e] w1]; [| reflexivity].
  destruct (finalize out self c w1) as [[c' | e] w2]; reflexivity.
Qed.

Lemma new_campaign_inv (cid : string) (concept : pyval) (r : Request)
    (arcs npcs locs : list pyval) (prefs : PlayerPreferences) (c : Campaign) :
  new_campaign cid concept r arcs npcs locs prefs = Ok c ->
  player_preferences c = Some prefs /\ sections c = [] /\ id c = cid /\
  inb (req_theme r) CampaignTheme = true /\
  inb (req_difficulty r) DifficultyLevel = true /\
  inb (req_party_size r) PartySize = true /\
  inb (req_duration r) Duration = true /\
  (1 <= req_starting_level r <= 20)%Z /\
  1 <= List.length arcs /\ 2 <= List.length npcs /\ 2 <= List.length locs.
Proof.
  unfold new_campaign, Watchdog.andThen, enum.
  destruct (subscript concept "title"); [| discriminate].
  destruct (subscript concept "description"); [| discriminate].
  destruct (inb (req_theme r) CampaignTheme); [| discriminate].
  destruct (inb (req_difficulty r) DifficultyLevel); [| discriminate].
  destruct (inb (req_party_size r) PartySize); [| discriminate].
  destruct (inb (req_duration r) Duration); [| discriminate].
  destruct ((1 <=? req_starting_level r)%Z && (req_starting_level r <=? 20)%Z)
    eqn:Hlevel; cbn [negb]; [| discriminate].
  destruct (Nat.ltb_spec (List.length arcs) 1) as [| Ha]; [discriminate |].
  destruct (Nat.ltb_spec (List.length npcs) 2) as [| Hn]; [discriminate |].
  destruct (Nat.ltb_spec (List.length locs) 2) as [| Hl]; [discriminate |].
  intros Hc. injection Hc as <-. cbn [player_preferences sections id].
  apply andb_true_iff in Hlevel. destruct Hlevel as [H1 H2].
  apply Z.leb_le in H1. apply Z.leb_le in H2.
  repeat split; try assumption; try reflexivity.
Qed.

Lemma create_preferences_freeform (r : Request) (prefs : PlayerPreferences) :
  _create_preferences_from_params r = Ok prefs ->
  freeform_input prefs = req_custom_instructions r.
Proof.
  unfold _create_preferences_from_params, Watchdog.andThen.
  destruct (enum_or_any _ _ (req_theme r)); [| discriminate].
  destruct (enum_or_any _ _ (req_difficulty r)); [| discriminate].
  destruct (enum_or_any _ _ (req_duration r)); [| discriminate].
  intros H. injection H as <-. reflexivity.
Qed.

(** The campaign that the image pass returns: the sections keep their
    identifiers and titles. *)
Lemma add_images_ids (campaign_data : Campaign) (now : Z)
    (l : list (bool * CampaignSection)) :
  List.map (fun s => (section_id s, title s)) (add_images out campaign_data now l)
  = List.map (fun p => (section_id (snd p), title (snd p))) l.
Proof.
  induction l as [| [sel s] l IH]; [reflexivity |].
  cbn [add_images List.map snd].
  destruct (sel && inb (section_id s) illustrated_sections).
  - destruct (section_image out campaign_data (section_id s)) as [[path |] | e];
      try destruct (negb (String.eqb path ""));
      cbn [List.map add_image section_id title]; rewrite ?IH; try reflexivity.
    f_equal. rewrite List.map_map. reflexivity.
  - cbn [List.map]. rewrite IH. reflexivity.
Qed.

Lemma section_images_ids (campaign : Campaign) (mode : string) (w : World) :
  exists l,
    _generate_section_images out campaign mode w
      = (Ok (set_sections campaign l), w) /\
    List.map (fun s => (section_id s, title s)) l
    = List.map (fun s => (section_id s, title s)) (sections campaign).
Proof.
  unfold _generate_section_images. run. eexists. split; [reflexivity |].
  rewrite add_images_ids.
  destruct (String.eqb mode "sample").
  - rewrite <- (WriteThroughProps.mark_sample_sections 3 (sections campaign)) at 2.
    rewrite List.map_map. reflexivity.
  - rewrite List.map_map. reflexivity.
Qed.

(** What a campaign that [assemble] returns is made of. *)
Lemma assemble_inv (r : Request) (w w' : World) (c : Campaign) :
  assemble out self (uuid4 out) r w = (Ok c, w') ->
  exists prefs concept arcs npcs locs c0,
    _create_preferences_from_params r = Ok prefs /\
    new_campaign (uuid4 out) concept r arcs npcs locs prefs = Ok c0 /\
    name c = name c0 /\ description c = description c0 /\
    player_preferences c = Some prefs /\ id c = uuid4 out /\
    List.map (fun s => (section_id s, title s)) (sections c)
    = List.map fst (sections_config (req_mode r)).
Proof.
  unfold assemble.
  destruct (_create_preferences_from_params r) as [prefs | e] eqn:Hp.
  2:{ run. intros Hx. discriminate Hx. }
  unfold lift at 1. unfold bind at 1. unfold bind at 1.
  destruct (obtain_concept out self prefs w) as [[concept | e] w1];
    [| intros Hx; discriminate Hx].
  destruct (WriteThroughProps.generate_story_arcs_returns out self concept
              (req_mode r) w1) as (arcs & w2 & Harcs & _).
  unfold bind at 1. rewrite Harcs.
  destruct (WriteThroughProps.generate_key_npcs_returns out self concept
              (req_mode r) w2) as (npcs & w3 & Hnpcs & _).
  unfold bind at 1. rewrite Hnpcs.
  destruct (WriteThroughProps.generate_key_locations_returns out self concept
              (req_mode r) w3) as (locs & w4 & Hlocs & _).
  unfold bind at 1. rewrite Hlocs.
  unfold bind at 1, lift at 1.
  destruct (new_campaign (uuid4 out) concept r arcs npcs locs prefs)
    as [c0 | e] eqn:Hnew; [| cbv beta iota; intros Hx; discriminate Hx].
  destruct (new_campaign_inv _ _ _ _ _ _ _ _ Hnew) as (Hprefs & Hsec & Hid & _).
  unfold bind at 1, lift at 1.
  destruct (validate_campaign_data c0) as [u | e]; [| cbv beta iota; intros Hx; discriminate Hx].
  unfold bind at 1, lift at 1.
  destruct (cover_image out concept) as [cover | e]; [| cbv beta iota; intros Hx; discriminate Hx].
  set (c1 := match cover with
             | Some path => if negb (String.eqb path "") then set_cover c0 path
                            else c0
             | None => c0
             end).
  assert (Hc1 : name c1 = name c0 /\ description c1 = description c0 /\
                player_preferences c1 = Some prefs /\ id c1 = uuid4 out /\
                sections c1 = []).
  { unfold c1. destruct cover as [path |];
      [destruct (negb (String.eqb path "")) |];
      cbn [set_cover name description player_preferences id sections];
      repeat split; assumption. }
  destruct Hc1 as (Hn1 & Hd1 & Hp1 & Hi1 & Hs1).
  destruct (SectionsProps.sections_are_added out self (req_mode r)
              (sections_config (req_mode r)) c1 w4)
    as (new & w5 & Hsecs & Hmap & _).
  unfold bind at 1. unfold _generate_all_sections. rewrite Hsecs.
  destruct (section_images_ids (set_sections c1 (List.app (sections c1) new))
              (req_mode r) w5) as (l & Himg & Hids).
  rewrite Himg. intros H. injection H as <- <-.
  exists prefs, concept, arcs, npcs, locs, c0.
  split; [reflexivity |]. split; [exact Hnew |].
  cbn [set_sections name description player_preferences id sections] in *.
  rewrite Hs1 in Hids. cbn [List.app] in Hids.
  repeat split; try assumption. rewrite Hids. exact Hmap.
Qed.

End WithOutside.

(** X23. A request whose theme, difficulty or duration is "any" never
    yields a campaign. [_create_preferences_from_params] accepts the word
    (it stands for no preference, and with valid other values the
    preferences are built), but the campaign constructor passes the same
    string to the enum class, which has no such member: the run raises,
    after the concept, story arcs, NPCs and locations were obtained. *)
Theorem any_preference_never_yields_campaign :
  forall (out : Outside) (self : CompleteCampaignGenerationService)
         (r : Request) (w : World),
    req_theme r = "any" \/ req_difficulty r = "any" \/ req_duration r = "any" ->
    raises (fst (generate_campaign out self r w)) = true /\
    (_create_preferences_from_params
       (mkRequest "any" "any" (req_party_size r) (req_starting_level r) "any"
                  (req_user_id r) (req_custom_instructions r) (req_mode r))
     = Ok (mkPreferences None None None (req_custom_instructions r))).
Proof.
  intros out self r w Hany. split; [| reflexivity].
  rewrite generate_campaign_run. cbv zeta.
  destruct (assemble out self (uuid4 out) r w) as [[c | e] w1] eqn:Hasm;
    [| reflexivity].
  exfalso.
  destruct (assemble_inv out self r w w1 c Hasm)
    as (prefs & concept & arcs & npcs & locs & c0 & _ & Hnew & _).
  destruct (new_campaign_inv _ _ _ _ _ _ _ _ Hnew)
    as (_ & _ & _ & Ht & Hd & _ & Hl & _).
  destruct Hany as [H | [H | H]]; rewrite H in *; discriminate.
Qed.

Lemma any_preference_never_yields_campaign_witness :
  let out := Scenarios.outside (Scenarios.says Scenarios.apology) in
  let run := generate_campaign out Scenarios.orchestrator
               MoreScenarios.any_theme_request
               MoreScenarios.with_any_theme_concept in
  raises (fst run) = true /\
  fst run = Raise (OtherError "'any' is not a valid CampaignTheme") /\
  sent (snd run) = ["story arcs prompt"; "npcs prompt"; "locations prompt"].
Proof.
  split.
  - apply (any_preference_never_yields_campaign
             (Scenarios.outside (Scenarios.says Scenarios.apology))
             Scenarios.orchestrator MoreScenarios.any_theme_request
             MoreScenarios.with_any_theme_concept).
    left. reflexivity.
  - split; vm_compute; reflexivity.
Defined.

(** X24. With the watchdog active, custom instructions that are not
    empty but have fewer than 100 characters once stripped make every
    run fail: they are stored as the player's free-form input, and the
    final integrity pass validates that input like generated text, under
    the default minimum length. *)
Theorem short_custom_instructions_fail_the_run :
  forall (out : Outside) (self : CompleteCampaignGenerationService)
         (r : Request) (w : World) (txt : string),
    Watchdog.is_active (content_integrity_watchdog self) = true ->
    req_custom_instructions r = Some txt ->
    txt <> "" ->
    String.length (strip txt) < 100 ->
    raises (fst (generate_campaign out self r w)) = true.
Proof.
  intros out self r w txt Hact Hci Hne Hshort.
  rewrite generate_campaign_run. cbv zeta.
  destruct (assemble out self (uuid4 out) r w) as [[c | e] w1] eqn:Hasm;
    [| reflexivity].
  destruct (assemble_inv out self r w w1 c Hasm)
    as (prefs & concept & arcs & npcs & locs & c0 & Hp & _ & _ & _ & Hprefs & _).
  pose proof (create_preferences_freeform r prefs Hp) as Hfree.
  rewrite Hci in Hfree.
  destruct (finalize out self c w1) as [[c' | e] w2] eqn:Hfin; [| reflexivity].
  exfalso.
  destruct (OrchestratorProps.finalize_returns out self c c' w1 w2 Hfin)
    as (Hok & _).
  apply (CampaignIntegrityProps.entire_campaign_Ok_iff _ c Hact) in Hok.
  destruct Hok as (_ & _ & _ & Hinput).
  specialize (Hinput prefs txt Hprefs Hfree Hne).
  pose proof (WriteThroughProps.short_text_rejected self "player_input" txt
                Hact Hshort) as Hrej.
  rewrite Hinput in Hrej. discriminate Hrej.
Qed.

Lemma short_custom_instructions_fail_the_run_witness :
  let out := Scenarios.outside (Scenarios.says Scenarios.apology) in
  let run := generate_campaign out Scenarios.orchestrator
               MoreScenarios.instructed_request Scenarios.with_concept in
  raises (fst run) = true /\
  (exists msg, fst run = Raise (ContentIntegrityError msg) /\
               contains "'player_input'" msg = true) /\
  List.length (sent (snd run)) = 12 /\
  raises (fst (generate_campaign out Scenarios.orchestrator Scenarios.request
                 Scenarios.with_concept)) = false.
Proof.
  split.
  - apply (short_custom_instructions_fail_the_run
             (Scenarios.outside (Scenarios.says Scenarios.apology))
             Scenarios.orchestrator MoreScenarios.instructed_request
             Scenarios.with_concept MoreScenarios.short_instructions).
    + reflexivity.
    + reflexivity.
    + discriminate.
    + vm_compute. lia.
  - split; [eexists; split; vm_compute; reflexivity |].
    split; vm_compute; reflexivity.
Defined.

(** X25. A run that fails records the failure and passes the exception
    on: the last metric of the monitoring service is then an error-rate
    sample of value 1 for the component "campaign", which
    [get_error_summary] counts as an error. A run that returns hands back
    the identifier drawn at its start, which is also the identifier of
    the campaign, with one section per configured entry, in order. *)
Theorem failed_run_is_recorded :
  forall (out : Outside) (self : CompleteCampaignGenerationService)
         (r : Request) (w : World),
    let result := fst (generate_campaign out self r w) in
    let m' := monitor (snd (generate_campaign out self r w)) in
    match result with
    | Raise e =>
        exists ms,
          Monitor.metrics m'
            = List.app ms [Monitor.mkMetric Monitor.ERROR_RATE (Monitor.Int 1)
                                            "campaign"] /\
          Reports.total_errors (Reports.get_error_summary m')
            = S (Reports.count_errors
                   (List.filter Reports.is_error_rate ms))
    | Ok (i, c) =>
        i = uuid4 out /\ id c = uuid4 out /\ status c = COMPLETED /\
        List.map (fun s => (section_id s, title s)) (sections c)
        = List.map fst (sections_config (req_mode r))
    end.
Proof.
  intros out self r w. cbv zeta. rewrite generate_campaign_run. cbv zeta.
  assert (Hfailed : forall m : Monitor.WatchdogService,
    exists ms,
      Monitor.metrics (Monitor.track_metric m Monitor.ERROR_RATE (Monitor.Int 1)
                                            "campaign")
        = List.app ms [Monitor.mkMetric Monitor.ERROR_RATE (Monitor.Int 1)
                                        "campaign"] /\
      Reports.total_errors
        (Reports.get_error_summary
           (Monitor.track_metric m Monitor.ERROR_RATE (Monitor.Int 1) "campaign"))
        = S (Reports.count_errors (List.filter Reports.is_error_rate ms))).
  { intros m. exists (Monitor.metrics m). split; [reflexivity |].
    unfold Reports.get_error_summary. cbn [Reports.total_errors].
    rewrite ReportsProps.error_metrics_track_metric.
    cbn [Reports.is_error_rate Monitor.metric_type].
    rewrite ReportsProps.count_errors_app. unfold Reports.error_metrics.
    cbn. lia. }
  destruct (assemble out self (uuid4 out) r w) as [[c | e] w1] eqn:Hasm.
  2:{ cbn [fst snd monitor with_monitor]. apply Hfailed. }
  destruct (finalize out self c w1) as [[c' | e] w2] eqn:Hfin.
  2:{ cbn [fst snd monitor with_monitor]. apply Hfailed. }
  cbn [fst snd].
  destruct (assemble_inv out self r w w1 c Hasm)
    as (prefs & concept & arcs & npcs & locs & c0 & _ & _ & _ & _ & _ & Hid & Hsecs).
  destruct (OrchestratorProps.finalize_returns out self c c' w1 w2 Hfin)
    as (_ & _ & q & ->).
  cbn [set_quality_score set_status id status sections].
  repeat split; assumption.
Qed.

End CampaignRunProps.

Module CacheReuseProps.
Import Effects Orchestrator.

Ltac run := OrchestratorProps.run.

(** X26. A section is generated once. When
    [_generate_section_with_cache] has returned a section, the same call
    made again returns a section with the same content, marked as
    cached, and does nothing else: the generator is not called, and the
    cache, the clock and the monitoring service stay as they are. *)
Theorem section_is_generated_once :
  forall (out : Outside) (self : CompleteCampaignGenerationService)
         (campaign : Campaign) (sid ttl : string) (g : AI.Generator)
         (ci : option string) (mode : string) (w w1 : World)
         (s : CampaignSection),
    _generate_section_with_cache out self campaign sid ttl g ci mode w
      = (Ok s, w1) ->
    exists s',
      _generate_section_with_cache out self campaign sid ttl g ci mode w1
        = (Ok s', w1) /\
      content s' = content s /\ section_id s' = sid /\ title s' = ttl /\
      assoc "cached" (metadata s') = Some (PBool true).
Proof.
  intros out self campaign sid ttl g ci mode w w1 s Hrun.
  set (wd := content_integrity_watchdog self) in *.
  set (cached := Cache.get (md5 out) (content_cache self) (files w)
                   (section_cache_key sid campaign)).
  assert (Hnew : generate_new_content out self campaign sid ttl g ci mode w
                   = (Ok s, w1) ->
                 exists s',
                   _generate_section_with_cache out self campaign sid ttl g ci
                     mode w1 = (Ok s', w1) /\
                   content s' = content s /\ section_id s' = sid /\
                   title s' = ttl /\
                   assoc "cached" (metadata s') = Some (PBool true)).
  { clear Hrun. intros Hrun.
    destruct (OrchestratorProps.generate_new_content_cases out self campaign
                sid ttl g ci mode w) as (text & w' & Hgen & Hf & Hk & Hcase).
    destruct (AIProps.generate_returns (provider out) (ai_service self) g
                campaign ci mode w) as (text0 & w0 & Hgen0 & _ & _ & Hne & _).
    rewrite Hgen in Hgen0. injection Hgen0 as <- <-.
    rewrite Hcase in Hrun. pose proof Hne as Hne'.
    apply String.eqb_neq in Hne'. rewrite Hne' in Hrun.
    fold wd in Hrun.
    destruct (Watchdog.validate_text_content wd sid (PStr text)) as [b |] eqn:Hv;
      [| discriminate].
    pose proof (WatchdogProps.validate_text_content_returns_True _ _ _ _ Hv).
    subst b. injection Hrun as <- <-.
    eexists. split.
    - apply (OrchestratorProps.section_hit out self campaign sid ttl g ci mode
               _ text); [| exact Hne | exact Hv].
      unfold Cache.get. cbn [files with_files]. unfold section_path.
      rewrite lookup_insert_eq. reflexivity.
    - repeat split. }
  destruct (truthy cached && is_str cached) eqn:Hhit.
  2:{ apply Hnew. rewrite <- Hrun. symmetry.
      apply OrchestratorProps.section_miss. left. exact Hhit. }
  destruct (Watchdog.validate_text_content wd sid cached) as [b |] eqn:Hv.
  2:{ apply Hnew. rewrite <- Hrun. symmetry.
      apply OrchestratorProps.section_miss. right. fold cached. fold wd.
      rewrite Hv. reflexivity. }
  assert (Hsame : _generate_section_with_cache out self campaign sid ttl g ci
                    mode w
                  = (Ok (mkSection sid ttl cached []
                           [("cached", PBool true);
                            ("generation_time", PInt (clock w))]), w)).
  { unfold _generate_section_with_cache. run. fold cached. rewrite Hhit.
    fold wd. rewrite Hv. run. reflexivity. }
  rewrite Hsame in Hrun. injection Hrun as <- <-.
  eexists. split; [exact Hsame |]. repeat split.
Qed.

Lemma section_is_generated_once_witness :
  exists s',
    _generate_section_with_cache
      (Scenarios.outside (Scenarios.says Scenarios.apology))
      Scenarios.orchestrator Scenarios.campaign "introduction" "Introduction"
      AI.generate_introduction None "production"
      (snd (_generate_section_with_cache
              (Scenarios.outside (Scenarios.says Scenarios.apology))
              Scenarios.orchestrator Scenarios.campaign "introduction"
              "Introduction" AI.generate_introduction None "production"
              Scenarios.fresh))
    = (Ok s',
       snd (_generate_section_with_cache
              (Scenarios.outside (Scenarios.says Scenarios.apology))
              Scenarios.orchestrator Scenarios.campaign "introduction"
              "Introduction" AI.generate_introduction None "production"
              Scenarios.fresh)) /\
    content s' = PStr Scenarios.apology /\ section_id s' = "introduction" /\
    title s' = "Introduction" /\
    assoc "cached" (metadata s') = Some (PBool true).
Proof.
  apply (section_is_generated_once
           (Scenarios.outside (Scenarios.says Scenarios.apology))
           Scenarios.orchestrator Scenarios.campaign "introduction"
           "Introduction" AI.generate_introduction None "production"
           Scenarios.fresh _
           (mkSection "introduction" "Introduction" (PStr Scenarios.apology) []
                      [("generation_time", PInt 0)])).
  vm_compute. reflexivity.
Defined.

(** X27. A concept is generated once. When the concept step of
    [generate_campaign] has returned a concept, the same step made again
    for the same preferences returns that concept from the cache and
    does nothing else. The cache key is built from the theme, the
    difficulty, the story length and the free-form input only, so
    requests that agree on these four share the concept, whoever the
    user and whatever the party size, the level and the mode. *)
Theorem concept_is_generated_once :
  forall (out : Outside) (self : CompleteCampaignGenerationService)
         (preferences : PlayerPreferences) (w w1 : World) (concept : pyval),
    obtain_concept out self preferences w = (Ok concept, w1) ->
    obtain_concept out self preferences w1 = (Ok concept, w1) /\
    forall r r' : Request,
      req_theme r = req_theme r' -> req_difficulty r = req_difficulty r' ->
      req_duration r = req_duration r' ->
      req_custom_instructions r = req_custom_instructions r' ->
      _create_preferences_from_params r = _create_preferences_from_params r'.
Proof.
  intros out self preferences w w1 concept Hrun. split.
  2:{ intros r r' Ht Hd Hl Hc. unfold _create_preferences_from_params.
      rewrite Ht, Hd, Hl, Hc. reflexivity. }
  set (wd := content_integrity_watchdog self) in *.
  set (key := _get_concept_cache_key out preferences) in *.
  assert (Hhit : forall w0,
            truthy (Cache.get (md5 out) (content_cache self) (files w0) key)
              = true ->
            (exists b, Watchdog.validate_campaign_concept wd
                         (Cache.get (md5 out) (content_cache self) (files w0) key)
                       = Ok b) ->
            obtain_concept out self preferences w0
            = (Ok (Cache.get (md5 out) (content_cache self) (files w0) key), w0)).
  { intros w0 Ht [b Hv]. unfold obtain_concept. run. fold key. fold wd.
    rewrite Ht, Hv, Ht. cbn [negb]. reflexivity. }
  unfold obtain_concept in Hrun. run. fold key in Hrun. fold wd in Hrun.
  set (cached := Cache.get (md5 out) (content_cache self) (files w) key) in *.
  destruct (truthy cached) eqn:Ht.
  - destruct (Watchdog.validate_campaign_concept wd cached) as [b | e0] eqn:Hv.
    + rewrite Ht in Hrun. cbn [negb] in Hrun. injection Hrun as <- <-.
      apply Hhit; [exact Ht | eauto].
    + cbn [truthy negb] in Hrun.
      destruct (AI.generate_campaign_concept (provider out) (ai_service self)
                  preferences w) as [[c | e] w'] eqn:Hgen; [| discriminate].
      destruct (truthy c) eqn:Htc; [| discriminate].
      destruct (Watchdog.validate_campaign_concept wd c) as [b | e1] eqn:Hvc;
        [| discriminate].
      run. unfold Cache.set in Hrun. cbn [fst snd] in Hrun.
      injection Hrun as <- <-.
      assert (Hget : Cache.get (md5 out) (content_cache self)
                       (files (with_files w'
                          (<[Cache._get_cache_path (md5 out) (content_cache self) key
                             := Cache.Entry (Cache.mkData c (clock w') 3600
                                               (clock w' + 3600))]> (files w'))))
                       key = c).
      { unfold Cache.get. cbn [files with_files]. rewrite lookup_insert_eq.
        reflexivity. }
      rewrite <- Hget at 2. apply Hhit; rewrite Hget; [exact Htc | eauto].
  - rewrite Ht in Hrun. cbn [negb] in Hrun.
    destruct (AI.generate_campaign_concept (provider out) (ai_service self)
                preferences w) as [[c | e] w'] eqn:Hgen; [| discriminate].
    destruct (truthy c) eqn:Htc; [| discriminate].
    destruct (Watchdog.validate_campaign_concept wd c) as [b | e1] eqn:Hvc;
      [| discriminate].
    run. unfold Cache.set in Hrun. cbn [fst snd] in Hrun.
    injection Hrun as <- <-.
    assert (Hget : Cache.get (md5 out) (content_cache self)
                     (files (with_files w'
                        (<[Cache._get_cache_path (md5 out) (content_cache self) key
                           := Cache.Entry (Cache.mkData c (clock w') 3600
                                             (clock w' + 3600))]> (files w'))))
                     key = c).
    { unfold Cache.get. cbn [files with_files]. rewrite lookup_insert_eq.
      reflexivity. }
    rewrite <- Hget at 2. apply Hhit; rewrite Hget; [exact Htc | eauto].
Qed.

Lemma concept_is_generated_once_witness :
  obtain_concept (Scenarios.outside Scenarios.failing) Scenarios.orchestrator
                 Scenarios.preferences Scenarios.with_concept
  = (Ok Scenarios.good_concept, Scenarios.with_concept).
Proof.
  apply (concept_is_generated_once (Scenarios.outside Scenarios.failing)
           Scenarios.orchestrator Scenarios.preferences Scenarios.with_concept
           Scenarios.with_concept Scenarios.good_concept).
  vm_compute. reflexivity.
Defined.

End CacheReuseProps.

Module PeopleAndPicturesProps.
Import Effects Orchestrator.

Ltac run := OrchestratorProps.run.

Lemma at_least_two_spec (data : pyval) (minimal : list pyval) :
  2 <= List.length minimal ->
  2 <= List.length (at_least_two data minimal) /\
  (at_least_two data minimal = minimal \/
   data = PList (at_least_two data minimal)).
Proof.
  intros Hmin. unfold at_least_two.
  destruct data as [| b | z | f | t | l | d]; try (split; [exact Hmin | left; reflexivity]).
  destruct (Nat.leb_spec 2 (List.length l)).
  - split; [assumption | right; reflexivity].
  - split; [exact Hmin | left; reflexivity].
Qed.

(** X28. The key NPCs and the key locations of a campaign always number
    at least two, so the constructor's checks on them cannot fail: both
    steps always return, and each returns either the list the generator
    client parsed, when that has two entries or more, or else the two
    fixed entries ("Quest Giver" and "Antagonist", "Starting Village" and
    "Ancient Ruins"). *)
Theorem key_npcs_and_locations_number_at_least_two :
  forall (out : Outside) (self : CompleteCampaignGenerationService)
         (concept : pyval) (mode : string) (w : World),
    (exists l w',
        _generate_key_npcs out self concept mode w = (Ok l, w') /\
        2 <= List.length l /\
        (l = minimal_npcs \/
         exists c w0,
           concept = PDict c /\
           fst (AI.generate_npcs (provider out) (ai_service self)
                  (if String.eqb mode "sample" then 2 else 5)
                  [ ("name", get_default "title" c (PStr "Campaign"));
                    entry "description" c ""; entry "theme" c "fantasy";
                    entry "setting" c "medieval_fantasy" ] w0)
             = Ok (PList l))) /\
    (exists l w',
        _generate_key_locations out self concept mode w = (Ok l, w') /\
        2 <= List.length l /\
        (l = minimal_locations \/
         exists c w0,
           concept = PDict c /\
           fst (AI.generate_locations (provider out) (ai_service self)
                  (if String.eqb mode "sample" then 2 else 5)
                  [ ("name", get_default "title" c (PStr "Campaign"));
                    entry "description" c ""; entry "theme" c "fantasy";
                    entry "setting" c "medieval_fantasy" ] w0)
             = Ok (PList l))).
Proof.
  intros out self concept mode w.
  assert (Hn : 2 <= List.length minimal_npcs) by (cbn; lia).
  assert (Hl : 2 <= List.length minimal_locations) by (cbn; lia).
  split.
  - unfold _generate_key_npcs.
    destruct concept as [| b | z | f | t | l | c];
      try (run; eexists _, w; split; [reflexivity |];
           split; [exact Hn | left; reflexivity]).
    unfold bind.
    match goal with
    | |- context [AI.generate_npcs ?p ?s ?n ?d w] =>
        destruct (AI.generate_npcs p s n d w) as [[data | e] w'] eqn:Hgen
    end.
    + run. destruct (at_least_two_spec data minimal_npcs Hn) as [Hlen Hcase].
      eexists _, w'. split; [reflexivity |]. split; [exact Hlen |].
      destruct Hcase as [-> | Hdata]; [left; reflexivity |].
      right. exists c, w. split; [reflexivity |]. rewrite Hgen.
      cbn [fst]. rewrite <- Hdata. reflexivity.
    + exfalso. unfold AI.generate_npcs in Hgen. run.
      match type of Hgen with
      | context [AI._call_claude_api ?p ?s ?q w] =>
          destruct (AIProps.call_returns p s q w) as (v & w0 & Hcall & _)
      end.
      rewrite Hcall in Hgen. discriminate Hgen.
  - unfold _generate_key_locations.
    destruct concept as [| b | z | f | t | l | c];
      try (run; eexists _, w; split; [reflexivity |];
           split; [exact Hl | left; reflexivity]).
    unfold bind.
    match goal with
    | |- context [AI.generate_locations ?p ?s ?n ?d w] =>
        destruct (AI.generate_locations p s n d w) as [[data | e] w'] eqn:Hgen
    end.
    + run. destruct (at_least_two_spec data minimal_locations Hl) as [Hlen Hcase].
      eexists _, w'. split; [reflexivity |]. split; [exact Hlen |].
      destruct Hcase as [-> | Hdata]; [left; reflexivity |].
      right. exists c, w. split; [reflexivity |]. rewrite Hgen.
      cbn [fst]. rewrite <- Hdata. reflexivity.
    + exfalso. unfold AI.generate_locations in Hgen. run.
      match type of Hgen with
      | context [AI._call_claude_api ?p ?s ?q w] =>
          destruct (AIProps.call_returns p s q w) as (v & w0 & Hcall & _)
      end.
      rewrite Hcall in Hgen. discriminate Hgen.
Qed.


End PeopleAndPicturesProps.

Module SectionImagesProps.
Import Effects Orchestrator ImagePass.

Ltac run := OrchestratorProps.run.



Section WithOutside.

Variable out : Outside.



End WithOutside.


End SectionImagesProps.

Module GenuineContentProps.
Import Effects Orchestrator.

(** X30. With the watchdog active, a section that comes out of a fresh
    generation always holds the text of the message the generator sent
    in reply to the section's prompt, and that text passed the watchdog
    under the section's identifier. The fixed texts that the generator
    client substitutes (for a missing client, a failed call, an empty
    reply) are all shorter than every minimum length, so none of them is
    ever accepted as a section or written to the cache. *)
Theorem accepted_section_is_the_generated_text :
  forall (out : Outside) (self : CompleteCampaignGenerationService)
         (campaign : Campaign) (sid ttl : string) (g : AI.Generator)
         (ci : option string) (mode : string) (w w1 : World)
         (s : CampaignSection),
    Watchdog.is_active (content_integrity_watchdog self) = true ->
    generate_new_content out self campaign sid ttl g ci mode w = (Ok s, w1) ->
    exists text i o,
      content s = PStr text /\
      outcome (AI.next_reply (provider out)
                 (AI.section_prompt (provider out) g campaign ci mode) w)
        = ApiMessage text i o /\
      Watchdog.validate_text_content (content_integrity_watchdog self) sid
                                     (PStr text) = Ok true /\
      Cache.get (md5 out) (content_cache self) (files w1)
                (section_cache_key sid campaign) = PStr text.
Proof.
  intros out self campaign sid ttl g ci mode w w1 s Hact Hrun.
  destruct (OrchestratorProps.generate_new_content_cases out self campaign
              sid ttl g ci mode w) as (text & w' & Hgen & _ & _ & Hcase).
  destruct (AIProps.generate_returns (provider out) (ai_service self) g
              campaign ci mode w) as (text0 & w0 & Hgen0 & _ & _ & Hne & Hkind).
  rewrite Hgen in Hgen0. injection Hgen0 as <- <-.
  rewrite Hcase in Hrun. apply String.eqb_neq in Hne. rewrite Hne in Hrun.
  destruct (Watchdog.validate_text_content (content_integrity_watchdog self)
              sid (PStr text)) as [b | e] eqn:Hv; [| discriminate].
  pose proof (WatchdogProps.validate_text_content_returns_True _ _ _ _ Hv).
  subst b. injection Hrun as <- <-.
  assert (Hlong : ~ String.length (strip text) < 100).
  { intros Hshort.
    pose proof (WriteThroughProps.short_text_rejected self sid text Hact Hshort)
      as Hrej.
    rewrite Hv in Hrej. discriminate Hrej. }
  destruct Hkind as [-> | [-> | [-> | [(i & o & Hreply) _]]]];
    try (exfalso; apply Hlong; vm_compute; lia).
  exists text, i, o. split; [reflexivity |]. split; [exact Hreply |].
  split; [exact Hv |].
  unfold Cache.get. cbn [files with_files]. unfold section_path.
  rewrite lookup_insert_eq. reflexivity.
Qed.

Lemma accepted_section_is_the_generated_text_witness :
  exists text i o,
    PStr Scenarios.apology = PStr text /\
    outcome (AI.next_reply
               (provider (Scenarios.outside (Scenarios.says Scenarios.apology)))
               (AI.section_prompt
                  (provider (Scenarios.outside (Scenarios.says Scenarios.apology)))
                  AI.generate_introduction Scenarios.campaign None "production")
               Scenarios.fresh)
      = ApiMessage text i o /\
    Watchdog.validate_text_content
      (content_integrity_watchdog Scenarios.orchestrator) "introduction"
      (PStr text) = Ok true /\
    Cache.get (md5 (Scenarios.outside (Scenarios.says Scenarios.apology)))
              (content_cache Scenarios.orchestrator)
              (files (snd (generate_new_content
                             (Scenarios.outside (Scenarios.says Scenarios.apology))
                             Scenarios.orchestrator Scenarios.campaign
                             "introduction" "Introduction"
                             AI.generate_introduction None "production"
                             Scenarios.fresh)))
              (section_cache_key "introduction" Scenarios.campaign) = PStr text.
Proof.
  apply (accepted_section_is_the_generated_text
           (Scenarios.outside (Scenarios.says Scenarios.apology))
           Scenarios.orchestrator Scenarios.campaign "introduction"
           "Introduction" AI.generate_introduction None "production"
           Scenarios.fresh _
           (mkSection "introduction" "Introduction" (PStr Scenarios.apology) []
                      [("generation_time", PInt 0)])).
  - reflexivity.
  - vm_compute. reflexivity.
Defined.

End GenuineContentProps.
